(** * Repository summarizer: file selection, tree rendering, fetch and
      summary validation

    A shallow embedding of the Python sources

    - [app/utils/file_filter.py]        (module [FileFilter])
    - [_v1-claude-code-pure/main.py]    (module [V1])
    - [app/services/github_client.py]   (module [GithubClient])
    - [app/services/llm_summarizer.py]  (module [LlmSummarizer])
    - [app/routers/summarize.py]        (module [Router])

    The package [app/] is the service that [main.py] starts;
    [_v1-claude-code-pure/main.py] is the earlier single-file version of
    the same service, kept in the repository.

    Python [str] values are modelled as [string], a sequence of
    characters of type [ascii], each read as the code point of its
    number (0 to 255); [len] is [String.length].  On such text
    [str.lower] and [str.strip] are exact, and [str.upper] is exact but
    for U+00B5, U+00DF and U+00FF, whose upper case is not a single
    code point below 256 and which are left as they are.  Text with
    code points from 256 on is outside the model.  Python [int] is [Z].  A [dict] whose keys
    are fixed is a record; a key that may be absent is an [option] field;
    a [dict] built by insertion is an association list kept in insertion
    order.  A [set] of constants that is only ever tested for membership
    is a list of its elements.  The replies of the network and of the
    language model are inputs of the functions that use them;
    [json.loads] and [str] on decoded values are parameters. *)

From Stdlib Require Import List String Ascii ZArith Lia Bool.
From Stdlib Require Import Sorted Permutation DecimalString.
Import ListNotations.

Set Warnings "-abstract-large-number,-register-all".

Open Scope string_scope.
Open Scope Z_scope.

(** ** Python string methods *)

Module PyStr.

(** [s.split(sep)] for a one-character separator: never empty. *)
Fixpoint split (sep : ascii) (s : string) : list string :=
  match s with
  | EmptyString => [EmptyString]
  | String c s' =>
      if Ascii.eqb c sep then EmptyString :: split sep s'
      else match split sep s' with
           | [] => [String c EmptyString]
           | w :: ws => String c w :: ws
           end
  end.

(** [sep.join(parts)] *)
Definition join (sep : string) (parts : list string) : string :=
  String.concat sep parts.

(** [parts[-1]] on the result of [split] (which is never empty). *)
Definition last_part (parts : list string) : string :=
  List.last parts EmptyString.

(** [parts[:-1]] *)
Definition init_parts (parts : list string) : list string :=
  List.removelast parts.

Fixpoint rfind_from (c : ascii) (s : string) (i acc : Z) : Z :=
  match s with
  | EmptyString => acc
  | String a s' => rfind_from c s' (i + 1) (if Ascii.eqb a c then i else acc)
  end.

(** [s.rfind(c)]: the highest index of [c], or [-1]. *)
Definition rfind (c : ascii) (s : string) : Z := rfind_from c s 0 (-1).

(** [s[i:]] for [0 <= i]. *)
Definition slice_from (i : Z) (s : string) : string :=
  String.substring (Z.to_nat i) (String.length s - Z.to_nat i) s.

(** [s[:n]] for a natural [n]. *)
Definition slice_to (n : nat) (s : string) : string :=
  String.substring 0 n s.

(** [s[:-n]] for [n <= len(s)]. *)
Definition drop_last (n : nat) (s : string) : string :=
  String.substring 0 (String.length s - n) s.

(** The characters that [str.lower] changes, among the code points
    below 256: [A]-[Z], and U+00C0 to U+00DE without the multiplication
    sign U+00D7.  Each maps to the code point 32 above it. *)
Definition is_upper_letter (c : ascii) : bool :=
  let n := nat_of_ascii c in
  ((65 <=? n)%nat && (n <=? 90)%nat)
  || ((192 <=? n)%nat && (n <=? 222)%nat && negb (n =? 215)%nat).

(** The characters that [str.upper] maps to the code point 32 below
    them: [a]-[z], and U+00E0 to U+00FE without the division sign
    U+00F7. *)
Definition is_lower_letter (c : ascii) : bool :=
  let n := nat_of_ascii c in
  ((97 <=? n)%nat && (n <=? 122)%nat)
  || ((224 <=? n)%nat && (n <=? 254)%nat && negb (n =? 247)%nat).

Definition lower_char (c : ascii) : ascii :=
  if is_upper_letter c then ascii_of_nat (nat_of_ascii c + 32) else c.

Definition upper_char (c : ascii) : ascii :=
  if is_lower_letter c then ascii_of_nat (nat_of_ascii c - 32) else c.

Fixpoint map_chars (f : ascii -> ascii) (s : string) : string :=
  match s with
  | EmptyString => EmptyString
  | String c s' => String (f c) (map_chars f s')
  end.

(** [s.lower()], [s.upper()] *)
Definition lower : string -> string := map_chars lower_char.
Definition upper : string -> string := map_chars upper_char.

(** [s.startswith(p)] *)
Definition startswith (s p : string) : bool := String.prefix p s.

(** [s.endswith(p)] *)
Definition endswith (s p : string) : bool :=
  let n := String.length s in
  let m := String.length p in
  (m <=? n)%nat && String.eqb (String.substring (n - m) m s) p.

(** [sub in s] *)
Fixpoint contains (sub s : string) : bool :=
  String.prefix sub s ||
  match s with
  | EmptyString => false
  | String _ s' => contains sub s'
  end.

(** [s.count(c)] for a one-character [c]. *)
Fixpoint count (c : ascii) (s : string) : Z :=
  match s with
  | EmptyString => 0
  | String a s' => (if Ascii.eqb a c then 1 else 0) + count c s'
  end.

(** [x in S] for a set (or list) of strings. *)
Definition mem (x : string) (S : list string) : bool :=
  existsb (String.eqb x) S.

(** Characters removed by [s.strip()], among the code points below
    256: U+0009 to U+000D, U+001C to U+0020, U+0085 and U+00A0. *)
Definition is_space (c : ascii) : bool :=
  let n := nat_of_ascii c in
  ((9 <=? n)%nat && (n <=? 13)%nat) ||
  ((28 <=? n)%nat && (n <=? 32)%nat) ||
  (n =? 133)%nat || (n =? 160)%nat.

Fixpoint lstrip (s : string) : string :=
  match s with
  | EmptyString => EmptyString
  | String c s' => if is_space c then lstrip s' else s
  end.

Fixpoint rstrip (s : string) : string :=
  match s with
  | EmptyString => EmptyString
  | String c s' =>
      match rstrip s' with
      | EmptyString => if is_space c then EmptyString else String c EmptyString
      | r => String c r
      end
  end.

(** [s.strip()] *)
Definition strip (s : string) : string := rstrip (lstrip s).

(** [str(n)] for a natural number. *)
Definition of_nat (n : nat) : string :=
  NilZero.string_of_uint (Nat.to_uint n).

(** [s * n] *)
Fixpoint repeat (s : string) (n : nat) : string :=
  match n with
  | O => EmptyString
  | S k => s ++ repeat s k
  end.

(** Order of [str] under [<]: lexicographic on the characters. *)
Definition ltb (a b : string) : bool := String.ltb a b.

(** [s.rstrip(c)] for a one-character [c]. *)
Fixpoint rstrip_char (c : ascii) (s : string) : string :=
  match s with
  | EmptyString => EmptyString
  | String x s' =>
      match rstrip_char c s' with
      | EmptyString => if Ascii.eqb x c then EmptyString else String x EmptyString
      | r => String x r
      end
  end.

(** [str(n)] for an [int]. *)
Definition of_Z (n : Z) : string :=
  NilZero.string_of_int (Z.to_int n).

End PyStr.

(** Truth value of a list ([if selected], [if node[name]]). *)
Definition is_nonempty {A : Type} (l : list A) : bool :=
  match l with
  | [] => false
  | _ :: _ => true
  end.

(** ** Stable sorting, as [list.sort(key=...)] and [sorted(...)] *)

Section Sorting.
Context {A K : Type}.
Variable ltb : K -> K -> bool.
Variable key : A -> K.

(** [x] is the element that came first in the input: it goes in front
    of every element whose key is not strictly smaller, which keeps
    elements with equal keys in their original order.  Only the strict
    comparison is used, as in Python. *)
Fixpoint insert_by (x : A) (l : list A) : list A :=
  match l with
  | [] => [x]
  | y :: ys => if ltb (key y) (key x) then y :: insert_by x ys
               else x :: y :: ys
  end.

Fixpoint sort_by (l : list A) : list A :=
  match l with
  | [] => []
  | x :: xs => insert_by x (sort_by xs)
  end.
End Sorting.

(** [sorted(paths)] on a list of strings. *)
Definition sorted_strings (l : list string) : list string :=
  sort_by PyStr.ltb (fun s => s) l.

(** [subseq l1 l2]: [l1] is [l2] with some elements left out, the others
    in the same relative order. *)
Inductive subseq {A : Type} : list A -> list A -> Prop :=
| subseq_nil : subseq [] []
| subseq_skip (x : A) (l1 l2 : list A) : subseq l1 l2 -> subseq l1 (x :: l2)
| subseq_keep (x : A) (l1 l2 : list A) : subseq l1 l2 -> subseq (x :: l1) (x :: l2).

(** ** [app/utils/file_filter.py] *)

Module FileFilter.

Definition PRIORITY_TIER1 : Z := 1.
Definition PRIORITY_TIER2 : Z := 2.
Definition PRIORITY_TIER3 : Z := 3.
Definition PRIORITY_TIER4 : Z := 4.
Definition PRIORITY_SKIP : Z := 99.

Definition EXCLUDED_DIRS : list string :=
  [ "node_modules"; "vendor"; ".git"; "dist"; "build"; "__pycache__";
    ".venv"; "venv"; "env"; ".idea"; ".vscode"; ".tox"; ".mypy_cache";
    ".pytest_cache"; ".next"; ".nuxt"; "target"; "bin"; "obj";
    "coverage"; ".coverage"; "htmlcov"; ".eggs"; ".gradle";
    ".terraform"; ".serverless" ].

Definition EXCLUDED_EXTENSIONS : list string :=
  [ ".png"; ".jpg"; ".jpeg"; ".gif"; ".ico"; ".svg"; ".bmp"; ".webp";
    ".woff"; ".woff2"; ".ttf"; ".eot"; ".otf";
    ".mp3"; ".mp4"; ".avi"; ".mov"; ".wav";
    ".zip"; ".tar"; ".gz"; ".bz2"; ".rar"; ".7z";
    ".pdf"; ".doc"; ".docx"; ".xls"; ".xlsx";
    ".exe"; ".dll"; ".so"; ".dylib"; ".pyc"; ".pyo"; ".class"; ".o";
    ".wasm";
    ".sqlite"; ".db";
    ".map" ].

Definition EXCLUDED_FILENAMES : list string :=
  [ "package-lock.json"; "yarn.lock"; "poetry.lock"; "Cargo.lock";
    "Gemfile.lock"; "composer.lock"; "go.sum"; "pnpm-lock.yaml";
    "npm-shrinkwrap.json"; ".DS_Store"; "Thumbs.db" ].

(** Declared by the source, not read by any function of it. *)
Definition TIER1_FILENAMES : list string :=
  [ "README.md"; "README.rst"; "README.txt"; "README" ].

(** The specification's test for Tier 1: the filename, case-normalized,
    is one of the canonical README names. *)
Definition is_canonical_readme (filename : string) : bool :=
  PyStr.mem (PyStr.lower filename) (map PyStr.lower TIER1_FILENAMES).

Definition TIER2_FILENAMES : list string :=
  [ "package.json"; "pyproject.toml"; "setup.py"; "setup.cfg";
    "Cargo.toml"; "go.mod"; "pom.xml"; "build.gradle"; "build.gradle.kts";
    "Makefile"; "CMakeLists.txt"; "Dockerfile"; "docker-compose.yml";
    "docker-compose.yaml"; "requirements.txt"; "Gemfile"; "Pipfile";
    "tsconfig.json"; "tox.ini"; ".eslintrc.json"; ".eslintrc.js";
    "webpack.config.js"; "vite.config.ts"; "vite.config.js";
    "next.config.js"; "next.config.mjs" ].

Definition TIER2_DIR_PATTERNS : list string :=
  [ ".github/workflows/" ].

Definition TIER3_ENTRY_POINTS : list string :=
  [ "main.py"; "app.py"; "index.ts"; "index.js"; "main.ts"; "main.js";
    "server.py"; "server.ts"; "server.js"; "main.go"; "main.rs";
    "lib.rs"; "mod.rs"; "index.py" ].

Definition SOURCE_EXTENSIONS : list string :=
  [ ".py"; ".js"; ".ts"; ".jsx"; ".tsx"; ".go"; ".rs"; ".java";
    ".kt"; ".rb"; ".php"; ".c"; ".cpp"; ".h"; ".hpp"; ".cs";
    ".swift"; ".scala"; ".clj"; ".ex"; ".exs"; ".hs"; ".lua";
    ".r"; ".R"; ".jl"; ".sh"; ".bash"; ".zsh"; ".fish";
    ".yaml"; ".yml"; ".toml"; ".json"; ".xml"; ".html"; ".css";
    ".scss"; ".less"; ".sql"; ".graphql"; ".proto"; ".tf";
    ".md"; ".rst"; ".txt" ].

(** The filename of a path: [path.split("/")[-1]]. *)
Definition filename_of (path : string) : string :=
  PyStr.last_part (PyStr.split "/" path).

Definition should_exclude_path (path : string) : bool :=
  let parts := PyStr.split "/" path in
  if existsb (fun part => PyStr.mem part EXCLUDED_DIRS)
             (PyStr.init_parts parts) then true
  else
    let filename := PyStr.last_part parts in
    if PyStr.mem filename EXCLUDED_FILENAMES then true
    else
      let dot_idx := PyStr.rfind "." filename in
      if negb (dot_idx =? -1) &&
         PyStr.mem (PyStr.lower (PyStr.slice_from dot_idx filename))
                   EXCLUDED_EXTENSIONS then true
      else if PyStr.endswith filename ".min.js"
              || PyStr.endswith filename ".min.css" then true
      else if PyStr.contains ".chunk." filename then true
      else false.

Definition get_file_priority (path : string) : Z :=
  let parts := PyStr.split "/" path in
  let filename := PyStr.last_part parts in
  if PyStr.startswith (PyStr.upper filename) "README" then PRIORITY_TIER1
  else if PyStr.mem filename TIER2_FILENAMES then PRIORITY_TIER2
  else if existsb (fun pattern => PyStr.startswith path pattern)
                  TIER2_DIR_PATTERNS then PRIORITY_TIER2
  else
    let dot_idx := PyStr.rfind "." filename in
    let ext := if negb (dot_idx =? -1)
               then PyStr.lower (PyStr.slice_from dot_idx filename)
               else "" in
    if negb (PyStr.mem ext SOURCE_EXTENSIONS)
       && negb (PyStr.mem filename TIER3_ENTRY_POINTS) then PRIORITY_SKIP
    else
      let lower_path := PyStr.lower path in
      if PyStr.contains "/test" lower_path
         || PyStr.contains "/tests" lower_path
         || PyStr.contains "/spec" lower_path
         || PyStr.startswith filename "test_"
         || PyStr.endswith filename "_test.py"
         || PyStr.endswith filename ".test.js"
         || PyStr.endswith filename ".test.ts"
         || PyStr.endswith filename ".spec.js"
         || PyStr.endswith filename ".spec.ts" then PRIORITY_TIER4
      else PRIORITY_TIER3.

(** A file dict: ["path"] is always present, ["size"] is read with
    [.get("size", 0)] and so may be absent. *)
Record file_info : Type := mk_file {
  path : string;
  size : option Z
}.

(** [file_info.get("size", 0)] *)
Definition get_size (f : file_info) : Z :=
  match size f with
  | Some n => n
  | None => 0
  end.

Definition sort_key : Type := (Z * Z * Z * Z)%type.

Definition _sort_key (f : file_info) : sort_key :=
  let priority := get_file_priority (path f) in
  let depth := PyStr.count "/" (path f) in
  let sz := get_size f in
  let filename := PyStr.last_part (PyStr.split "/" (path f)) in
  let is_entry := if PyStr.mem filename TIER3_ENTRY_POINTS then 0 else 1 in
  (priority, is_entry, depth, sz).

(** Tuples compare lexicographically. *)
Definition key_ltb (a b : sort_key) : bool :=
  let '(a1, a2, a3, a4) := a in
  let '(b1, b2, b3, b4) := b in
  (a1 <? b1) || ((a1 =? b1) &&
    ((a2 <? b2) || ((a2 =? b2) &&
      ((a3 <? b3) || ((a3 =? b3) && (a4 <? b4)))))).

Definition key_eqb (a b : sort_key) : bool :=
  let '(a1, a2, a3, a4) := a in
  let '(b1, b2, b3, b4) := b in
  (a1 =? b1) && (a2 =? b2) && (a3 =? b3) && (a4 =? b4).

(** [a <= b] on keys, that is [not (b < a)]. *)
Definition key_le (a b : sort_key) : Prop := key_ltb b a = false.

(** The same order spelled out: lexicographic on (priority tier,
    not-entry-point flag, path depth, size). *)
Definition key_lex_le (a b : sort_key) : Prop :=
  let '(a1, a2, a3, a4) := a in
  let '(b1, b2, b3, b4) := b in
  a1 < b1 \/ (a1 = b1 /\
    (a2 < b2 \/ (a2 = b2 /\
      (a3 < b3 \/ (a3 = b3 /\ a4 <= b4))))).

(** The entries whose sort key is [k]. *)
Definition has_key (k : sort_key) (f : file_info) : bool :=
  key_eqb (_sort_key f) k.

(** An entry is eligible when it is not excluded and not tier Skip. *)
Definition is_eligible (f : file_info) : bool :=
  negb (should_exclude_path (path f))
  && negb (get_file_priority (path f) =? PRIORITY_SKIP).

(** The two list comprehensions at the head of
    [rank_and_select_files]. *)
Definition eligible_files (files : list file_info) : list file_info :=
  filter (fun f => negb (get_file_priority (path f) =? PRIORITY_SKIP))
         (filter (fun f => negb (should_exclude_path (path f))) files).

(** [eligible.sort(key=_sort_key)] *)
Definition candidates (files : list file_info) : list file_info :=
  sort_by key_ltb _sort_key (eligible_files files).

(** The selection loop, from the state [(selected, total_chars)]. *)
Fixpoint select_loop (max_chars : Z) (eligible : list file_info)
         (selected : list file_info) (total_chars : Z)
  : list file_info * Z :=
  match eligible with
  | [] => (selected, total_chars)
  | f :: rest =>
      let estimated_chars := get_size f in
      if (max_chars <? total_chars + estimated_chars)
         && is_nonempty selected
      then select_loop max_chars rest selected total_chars
      else select_loop max_chars rest (selected ++ [f])
                       (total_chars + estimated_chars)
  end.

(** The loop from its initial state [selected = []], [total_chars = 0]. *)
Definition select_within_budget (max_chars : Z) (eligible : list file_info)
  : list file_info * Z :=
  select_loop max_chars eligible [] 0.

Definition rank_and_select_files (files : list file_info) (max_chars : Z)
  : list file_info :=
  fst (select_within_budget max_chars (candidates files)).

(** The value of [total_chars] when [rank_and_select_files] returns. *)
Definition consumed_chars (files : list file_info) (max_chars : Z) : Z :=
  snd (select_within_budget max_chars (candidates files)).

Definition total_size (l : list file_info) : Z :=
  fold_right (fun f acc => get_size f + acc) 0 l.

End FileFilter.

(** The newline character and the one-character string ["\n"]. *)
Definition NL_char : ascii := ascii_of_nat 10.
Definition NL : string := String NL_char EmptyString.

(** ** Insertion-ordered [dict] with string keys *)

Module PyDict.

Definition t (V : Type) : Type := list (string * V).

(** [d[k] = v]: an existing key keeps its position. *)
Fixpoint set {V : Type} (k : string) (v : V) (d : t V) : t V :=
  match d with
  | [] => [(k, v)]
  | (k', v') :: rest =>
      if String.eqb k' k then (k', v) :: rest
      else (k', v') :: set k v rest
  end.

(** [d.get(k)] *)
Fixpoint get {V : Type} (k : string) (d : t V) : option V :=
  match d with
  | [] => None
  | (k', v) :: rest => if String.eqb k' k then Some v else get k rest
  end.

(** [list(d.keys())] *)
Definition keys {V : Type} (d : t V) : list string := map fst d.

End PyDict.

(** ** [_v1-claude-code-pure/main.py] *)

Module V1.

Definition MAX_CONTENT_CHARS : Z := 120000.
Definition MAX_FILE_CHARS : nat := 8000.
Definition TREE_LINE_CAP : nat := 200.

(** The nested [dict] built by [build_tree_string]: a node maps each
    name to a sub-node, in insertion order. *)
Inductive tree : Type :=
| Node (children : list (string * tree)).

Definition children_of (node : tree) : list (string * tree) :=
  let '(Node children) := node in children.

(** A [dict] is falsy exactly when it is empty. *)
Definition has_children (node : tree) : bool :=
  is_nonempty (children_of node).

(** [node.setdefault(part, {})] followed by [f] on the sub-node found
    or created (the sub-node is mutated in place by the source). *)
Fixpoint setdefault_then (part : string) (f : tree -> tree)
         (children : list (string * tree)) : list (string * tree) :=
  match children with
  | [] => [(part, f (Node []))]
  | (k, sub) :: rest =>
      if String.eqb k part then (k, f sub) :: rest
      else (k, sub) :: setdefault_then part f rest
  end.

(** The inner loop [for part in parts: node = node.setdefault(part, {})]. *)
Fixpoint insert_parts (parts : list string) (node : tree) : tree :=
  match parts with
  | [] => node
  | part :: rest =>
      Node (setdefault_then part (insert_parts rest) (children_of node))
  end.

(** The first loop of [build_tree_string]. *)
Definition build_tree (file_paths : list string) : tree :=
  fold_left (fun node p => insert_parts (PyStr.split "/" p) node)
            (sorted_strings file_paths) (Node []).

(** [sorted(node.keys())] at every level of the tree, each name kept
    with its sub-node [node[name]]; the keys of a [dict] are distinct,
    so sorting the items by name visits them in the order of the sorted
    names. *)
Fixpoint sort_levels (node : tree) : tree :=
  match node with
  | Node children =>
      Node (sort_by PyStr.ltb fst
              (map (fun e : string * tree => (fst e, sort_levels (snd e)))
                   children))
  end.

(** [_render] over a tree whose levels are already in sorted order. *)
Fixpoint render_sorted (node : tree) (prefix : string) : list string :=
  match node with
  | Node entries =>
      (fix loop (es : list (string * tree)) : list string :=
         match es with
         | [] => []
         | (name, sub) :: rest =>
             let is_last := negb (is_nonempty rest) in
             let connector := if is_last then "`-- " else "|-- " in
             let extension := if is_last then "    " else "|   " in
             (prefix ++ connector ++ name)
               :: (if has_children sub
                   then render_sorted sub (prefix ++ extension)
                   else [])
               ++ loop rest
         end) entries
  end.

(** The lines appended by [_render(node, prefix)]. *)
Definition _render (node : tree) (prefix : string) : list string :=
  render_sorted (sort_levels node) prefix.

(** The summary line [f"... and {n} more entries"]. *)
Definition more_entries_line (n : nat) : string :=
  "... and " ++ PyStr.of_nat n ++ " more entries".

(** The cap: [if len(lines) > 200: lines = lines[:200] + [...]]. *)
Definition cap_lines (lines : list string) : list string :=
  if (TREE_LINE_CAP <? List.length lines)%nat
  then firstn TREE_LINE_CAP lines
         ++ [more_entries_line (List.length lines - TREE_LINE_CAP)]
  else lines.

(** The value of [lines] before the cap, and at the [return]. *)
Definition rendered_lines (file_paths : list string) : list string :=
  _render (build_tree file_paths) "".

Definition build_tree_lines (file_paths : list string) : list string :=
  cap_lines (rendered_lines file_paths).

Definition build_tree_string (file_paths : list string) : string :=
  PyStr.join NL (build_tree_lines file_paths).

(** The reply to one raw-content request, as [fetch_file_content]
    reads it; [None] stands for any exception of [client.get]. *)
Record raw_response : Type := mk_raw {
  raw_status : Z;
  raw_content_type : string;
  raw_text : string
}.

Definition NUL : string := String (ascii_of_nat 0) EmptyString.

(** The two binary-content tests of [fetch_file_content]: the content
    type of a file that is not [.md], [.txt] or [.rst], and a NUL among
    the first 1000 characters. *)
Definition looks_binary (resp : raw_response) (path : string) : bool :=
  (PyStr.contains "application/octet-stream" (raw_content_type resp)
   && negb (PyStr.endswith path ".md"
            || PyStr.endswith path ".txt"
            || PyStr.endswith path ".rst"))
  || PyStr.contains NUL (PyStr.slice_to 1000 (raw_text resp)).

(** [fetch_file_content]: the text cut to [MAX_FILE_CHARS], or [None]. *)
Definition fetch_file_content (reply : option raw_response) (path : string)
  : option string :=
  match reply with
  | None => None
  | Some resp =>
      if negb (raw_status resp =? 200) then None
      else if PyStr.contains "application/octet-stream" (raw_content_type resp)
              && negb (PyStr.endswith path ".md"
                       || PyStr.endswith path ".txt"
                       || PyStr.endswith path ".rst") then None
      else if PyStr.contains NUL (PyStr.slice_to 1000 (raw_text resp))
      then None
      else Some (PyStr.slice_to MAX_FILE_CHARS (raw_text resp))
  end.

(** The fetch loop of [gather_repo_context], from the state
    [(file_contents, total_chars)]; [client] gives the reply to the
    request for each path. *)
Fixpoint fetch_loop (client : string -> option raw_response)
         (files_to_fetch : list string)
         (file_contents : PyDict.t string) (total_chars : Z)
  : PyDict.t string * Z :=
  match files_to_fetch with
  | [] => (file_contents, total_chars)
  | p :: rest =>
      if MAX_CONTENT_CHARS <=? total_chars then (file_contents, total_chars)
      else
        match fetch_file_content (client p) p with
        | Some content =>
            if negb (String.eqb content "")
            then fetch_loop client rest (PyDict.set p content file_contents)
                            (total_chars + Z.of_nat (String.length content))
            else fetch_loop client rest file_contents total_chars
        | None => fetch_loop client rest file_contents total_chars
        end
  end.

Definition MAX_FILES_TO_FETCH : nat := 60.

Definition SKIP_DIRS : list string :=
  [ "node_modules"; ".git"; "vendor"; "dist"; "build"; "__pycache__";
    ".next"; ".nuxt"; ".output"; ".cache"; ".tox"; ".mypy_cache";
    ".pytest_cache"; "venv"; ".venv"; "env"; ".env"; "eggs";
    ".eggs"; "bower_components"; "jspm_packages"; ".gradle";
    "target"; "out"; "bin"; "obj"; ".idea"; ".vscode";
    "coverage"; ".nyc_output"; "htmlcov" ].

Definition SKIP_EXTENSIONS : list string :=
  [ ".png"; ".jpg"; ".jpeg"; ".gif"; ".ico"; ".svg"; ".bmp"; ".webp";
    ".mp3"; ".mp4"; ".wav"; ".avi"; ".mov"; ".mkv";
    ".zip"; ".tar"; ".gz"; ".bz2"; ".xz"; ".rar"; ".7z";
    ".woff"; ".woff2"; ".ttf"; ".eot"; ".otf";
    ".pyc"; ".pyo"; ".so"; ".dll"; ".dylib"; ".o"; ".a";
    ".class"; ".jar"; ".war"; ".ear";
    ".exe"; ".bin"; ".dat"; ".db"; ".sqlite"; ".sqlite3";
    ".pdf"; ".doc"; ".docx"; ".xls"; ".xlsx"; ".ppt"; ".pptx";
    ".min.js"; ".min.css"; ".map" ].

Definition SKIP_FILES : list string :=
  [ "package-lock.json"; "yarn.lock"; "pnpm-lock.yaml"; "poetry.lock";
    "Pipfile.lock"; "composer.lock"; "Gemfile.lock"; "Cargo.lock";
    "go.sum"; ".DS_Store"; "Thumbs.db" ].

Definition PRIORITY_FILES : list string :=
  [ "README.md"; "README.rst"; "README.txt"; "README";
    "package.json"; "pyproject.toml"; "setup.py"; "setup.cfg";
    "Cargo.toml"; "go.mod"; "build.gradle"; "pom.xml";
    "Gemfile"; "composer.json"; "Makefile"; "CMakeLists.txt";
    "Dockerfile"; "docker-compose.yml"; "docker-compose.yaml";
    ".github/workflows"; "requirements.txt";
    "tsconfig.json"; "webpack.config.js"; "vite.config.ts"; "vite.config.js" ].

Definition SOURCE_EXTENSIONS : list string :=
  [ ".py"; ".js"; ".ts"; ".tsx"; ".jsx"; ".go"; ".rs"; ".java";
    ".rb"; ".php"; ".c"; ".cpp"; ".h"; ".hpp"; ".cs"; ".swift";
    ".kt"; ".scala"; ".ex"; ".exs"; ".erl"; ".hs"; ".clj";
    ".lua"; ".r"; ".jl"; ".sh"; ".bash"; ".zsh"; ".fish";
    ".yaml"; ".yml"; ".toml"; ".json"; ".xml"; ".html"; ".css";
    ".scss"; ".sass"; ".less"; ".md"; ".rst"; ".txt";
    ".sql"; ".graphql"; ".proto"; ".tf"; ".hcl" ].

Definition README_NAMES : list string :=
  [ "readme.md"; "readme.rst"; "readme.txt"; "readme" ].

Definition CONFIG_NAMES : list string :=
  [ "package.json"; "pyproject.toml"; "setup.py"; "cargo.toml";
    "go.mod"; "gemfile"; "composer.json"; "pom.xml"; "build.gradle";
    "makefile"; "cmakelists.txt"; "dockerfile" ].

Definition _should_skip (path : string) : bool :=
  let parts := PyStr.split "/" path in
  if existsb (fun part => PyStr.mem part SKIP_DIRS) (PyStr.init_parts parts)
  then true
  else
    let filename := PyStr.last_part parts in
    if PyStr.mem filename SKIP_FILES then true
    else
      let lower := PyStr.lower filename in
      existsb (fun ext => PyStr.endswith lower ext) SKIP_EXTENSIONS.

Fixpoint all_dots (s : string) : bool :=
  match s with
  | EmptyString => true
  | String c s' => Ascii.eqb c "." && all_dots s'
  end.

(** The second component of [os.path.splitext(name)] for a name without
    a slash: the text from the last dot on, unless only dots come before
    that dot. *)
Definition splitext_ext (name : string) : string :=
  let dot_idx := PyStr.rfind "." name in
  if dot_idx =? -1 then EmptyString
  else if all_dots (PyStr.slice_to (Z.to_nat dot_idx) name) then EmptyString
  else PyStr.slice_from dot_idx name.

Definition _priority_score (path : string) : Z :=
  let filename := PyStr.last_part (PyStr.split "/" path) in
  let depth := PyStr.count "/" path in
  if PyStr.mem filename PRIORITY_FILES then -1000 + depth
  else
    let lower := PyStr.lower filename in
    if PyStr.mem lower README_NAMES then -900
    else if PyStr.mem lower CONFIG_NAMES then -800 + depth
    else
      let ext := splitext_ext lower in
      if PyStr.mem ext SOURCE_EXTENSIONS then depth * 10
      else 500 + depth.

(** The branch of [_priority_score] a path takes, counted from 0. *)
Definition score_class (path : string) : Z :=
  let filename := PyStr.last_part (PyStr.split "/" path) in
  if PyStr.mem filename PRIORITY_FILES then 0
  else
    let lower := PyStr.lower filename in
    if PyStr.mem lower README_NAMES then 1
    else if PyStr.mem lower CONFIG_NAMES then 2
    else if PyStr.mem (splitext_ext lower) SOURCE_EXTENSIONS then 3
    else 4.

(** [candidate_paths] of [gather_repo_context], filtered and sorted. *)
Definition candidate_paths (all_paths : list string) : list string :=
  sort_by Z.ltb _priority_score
          (filter (fun p => negb (_should_skip p)) all_paths).

Definition files_to_fetch (all_paths : list string) : list string :=
  firstn MAX_FILES_TO_FETCH (candidate_paths all_paths).

(** [file_contents] and [total_chars] after the loop. *)
Definition gather_contents (client : string -> option raw_response)
           (all_paths : list string) : PyDict.t string * Z :=
  fetch_loop client (files_to_fetch all_paths) [] 0.

Definition context_file_section (entry : string * string) : list string :=
  [ "### " ++ fst entry ++ NL ++ "```"; snd entry; "```" ++ NL ].

(** The first four [sections] of [gather_repo_context]. *)
Definition context_header (owner repo tree_str : string) : list string :=
  [ ("# Repository: " ++ owner ++ "/" ++ repo ++ NL)%string;
    ("## Directory Structure" ++ NL ++ "```")%string;
    tree_str;
    ("```" ++ NL)%string ].

Definition context_files (file_contents : PyDict.t string) : list string :=
  if is_nonempty file_contents
  then ("## File Contents" ++ NL)%string
         :: flat_map context_file_section file_contents
  else [].

(** [gather_repo_context], from the paths of the blobs of the tree. *)
Definition gather_repo_context (owner repo : string)
           (client : string -> option raw_response)
           (all_paths : list string) : string :=
  let tree_str := build_tree_string (candidate_paths all_paths) in
  let file_contents := fst (gather_contents client all_paths) in
  PyStr.join NL (context_header owner repo tree_str
                   ++ context_files file_contents).

End V1.

(** ** [app/services/github_client.py] *)

Module GithubClient.

Import FileFilter.

(** The field of [Settings] that [fetch_repo_data] computes with. *)
Record Settings : Type := mk_settings {
  max_content_chars : Z
}.

Definition default_settings : Settings :=
  {| max_content_chars := 100000 |}.

Definition RAW_CONTENT_BASE : string := "https://raw.githubusercontent.com".

Definition FILE_TEXT_LIMIT : nat := 50000.
Definition TRUNCATION_MARKER : string := NL ++ NL ++ "... [truncated]".

(** State of the loops of [build_directory_tree]. *)
Record tree_state : Type := mk_tree_state {
  seen_dirs : list string;
  result_lines : list string
}.

(** One round of [for i in range(len(parts) - 1)]. *)
Definition add_parent (parts : list string) (st : tree_state) (i : nat)
  : tree_state :=
  let dir_path := PyStr.join "/" (firstn (i + 1) parts) in
  if negb (PyStr.mem dir_path (seen_dirs st)) then
    let indent := PyStr.repeat "  " i in
    {| seen_dirs := dir_path :: seen_dirs st;
       result_lines :=
         result_lines st ++ [indent ++ nth i parts EmptyString ++ "/"] |}
  else st.

(** One round of [for path in sorted(paths)]. *)
Definition add_path (st : tree_state) (p : string) : tree_state :=
  let parts := PyStr.split "/" p in
  let st' := fold_left (add_parent parts)
                       (seq 0 (List.length parts - 1)) st in
  let indent := PyStr.repeat "  " (List.length parts - 1) in
  {| seen_dirs := seen_dirs st';
     result_lines :=
       result_lines st' ++ [indent ++ PyStr.last_part parts] |}.

(** The value of [result_lines] at the [return]. *)
Definition directory_tree_lines (paths : list string) : list string :=
  result_lines
    (fold_left add_path (sorted_strings paths)
               {| seen_dirs := []; result_lines := [] |}).

Definition build_directory_tree (paths : list string) : string :=
  match paths with
  | [] => EmptyString
  | _ :: _ => PyStr.join NL (directory_tree_lines paths)
  end.

(** Exceptions of [client.get]: a timeout, another [httpx.HTTPError],
    or an exception outside that class (none of the [except] clauses
    of [fetch_repo_data] catches the last). *)
Inductive httpx_exception : Type :=
| TimeoutException
| HTTPError
| OtherException.

Inductive reply (A : Type) : Type :=
| Replied (r : A)
| Failed (e : httpx_exception).
Arguments Replied {A} r.
Arguments Failed {A} e.

(** A response read through [.status_code] and [.json()]; [None]
    stands for the [ValueError] of [.json()]. *)
Record json_response (A : Type) : Type := mk_json_response {
  js_status : Z;
  js_json : option A
}.
Arguments mk_json_response {A} _ _.
Arguments js_status {A} _.
Arguments js_json {A} _.

(** A response read through [.status_code] and [.text]. *)
Record text_response : Type := mk_text_response {
  tx_status : Z;
  tx_text : string
}.

(** The keys of the repository document that are read; [None] is an
    absent key. *)
Record repo_info : Type := mk_repo_info {
  ri_default_branch : option string;
  ri_description : option string;
  ri_stargazers_count : option Z;
  ri_forks_count : option Z;
  ri_language : option string
}.

Record tree_item : Type := mk_item {
  item_path : string;
  item_size : option Z;
  item_type : option string
}.

Record tree_data : Type := mk_tree_data {
  td_tree : option (list tree_item)
}.

Record RepoData : Type := mk_repo_data {
  owner : string;
  repo : string;
  description : string;
  stars : Z;
  forks : Z;
  language : string;
  default_branch : string;
  directory_tree : string;
  file_contents : PyDict.t string
}.

Inductive exn : Type :=
| GitHubClientError (message : string) (status_code : Z)
| Uncaught (e : httpx_exception).

Inductive result (A : Type) : Type :=
| Return (a : A)
| Raise (e : exn).
Arguments Return {A} a.
Arguments Raise {A} e.

(** The error raised when nothing at all can be shown. *)
Definition EmptyResult : exn :=
  GitHubClientError "Repository appears empty or has no analyzable files" 422.

Definition or_default {A : Type} (o : option A) (d : A) : A :=
  match o with
  | Some a => a
  | None => d
  end.

Definition is_blob (item : tree_item) : bool :=
  match item_type item with
  | Some ty => String.eqb ty "blob"
  | None => false
  end.

(** [file_items]: one dict per blob of the tree. *)
Definition file_items (tree_items : list tree_item) : list file_info :=
  map (fun item => mk_file (item_path item)
                           (Some (or_default (item_size item) 0)))
      (filter is_blob tree_items).

(** [all_paths]: the paths shown in the directory tree. *)
Definition all_paths (tree_items : list tree_item) : list string :=
  map item_path
      (filter (fun item => negb (should_exclude_path (item_path item)))
              tree_items).

Definition content_budget (settings : Settings) (directory_tree : string) : Z :=
  let tree_chars := Z.of_nat (String.length directory_tree) in
  Z.max (max_content_chars settings - tree_chars - 2000) 10000.

(** The argument and the result of the call of [rank_and_select_files]. *)
Definition selected_files (settings : Settings) (tree_items : list tree_item)
  : list file_info :=
  rank_and_select_files
    (file_items tree_items)
    (content_budget settings (build_directory_tree (all_paths tree_items))).

(** [if len(text) > 50_000: text = text[:50_000] + "\n\n... [truncated]"] *)
Definition truncate_text (text : string) : string :=
  if (FILE_TEXT_LIMIT <? String.length text)%nat
  then PyStr.slice_to FILE_TEXT_LIMIT text ++ TRUNCATION_MARKER
  else text.

Definition raw_url (owner repo default_branch path : string) : string :=
  RAW_CONTENT_BASE ++ "/" ++ owner ++ "/" ++ repo ++ "/"
    ++ default_branch ++ "/" ++ path.

(** A content fetch fails by a timeout, by another HTTP error, or by
    a status other than 200. *)
Definition fetch_fails (r : reply text_response) : Prop :=
  match r with
  | Replied content_resp => tx_status content_resp <> 200
  | Failed TimeoutException => True
  | Failed HTTPError => True
  | Failed OtherException => False
  end.

Section Fetch.
(** The answer of [client.get] to the request for a raw-content URL. *)
Variable client_get : string -> reply text_response.
Variables owner_ repo_ branch_ : string.

(** Step 4, from the state [(file_contents, failed_downloads)]. *)
Fixpoint fetch_loop (selected : list file_info)
         (contents : PyDict.t string) (failed_downloads : list string)
  : result (PyDict.t string * list string) :=
  match selected with
  | [] => Return (contents, failed_downloads)
  | file_info :: rest =>
      let p := path file_info in
      match client_get (raw_url owner_ repo_ branch_ p) with
      | Replied content_resp =>
          if tx_status content_resp =? 200 then
            fetch_loop rest
              (PyDict.set p (truncate_text (tx_text content_resp)) contents)
              failed_downloads
          else fetch_loop rest contents (failed_downloads ++ [p])
      | Failed TimeoutException => fetch_loop rest contents (failed_downloads ++ [p])
      | Failed HTTPError => fetch_loop rest contents (failed_downloads ++ [p])
      | Failed OtherException => Raise (Uncaught OtherException)
      end
  end.
End Fetch.

(** [fetch_repo_data], given the replies to its requests: the one for
    the repository document, the one for the tree, and [client_get] for
    the raw-content URLs. *)
Definition fetch_repo_data (settings : Settings) (owner repo : string)
           (repo_reply : reply (json_response repo_info))
           (tree_reply : reply (json_response tree_data))
           (client_get : string -> reply text_response)
  : result RepoData :=
  match repo_reply with
  | Failed e => Raise (Uncaught e)
  | Replied repo_resp =>
    if js_status repo_resp =? 404 then
      Raise (GitHubClientError
               ("Repository not found: " ++ owner ++ "/" ++ repo) 404)
    else if js_status repo_resp =? 403 then
      Raise (GitHubClientError
               "GitHub API rate limit exceeded. Try again later." 429)
    else if negb (js_status repo_resp =? 200) then
      Raise (GitHubClientError
               "Failed to fetch repository data from GitHub" 502)
    else
    match js_json repo_resp with
    | None => Raise (GitHubClientError
                       "Failed to parse GitHub API response" 502)
    | Some info =>
      let default_branch := or_default (ri_default_branch info) "main" in
      match tree_reply with
      | Failed e => Raise (Uncaught e)
      | Replied tree_resp =>
        if negb (js_status tree_resp =? 200) then
          Raise (GitHubClientError
                   "Failed to fetch repository tree from GitHub" 502)
        else
        match js_json tree_resp with
        | None => Raise (GitHubClientError
                           "Failed to parse GitHub tree response" 502)
        | Some data =>
          let tree_items := or_default (td_tree data) [] in
          let directory_tree :=
            build_directory_tree (all_paths tree_items) in
          let selected := selected_files settings tree_items in
          match fetch_loop client_get owner repo default_branch
                           selected [] [] with
          | Raise e => Raise e
          | Return (contents, _) =>
              if negb (is_nonempty contents)
                 && String.eqb directory_tree EmptyString
              then Raise EmptyResult
              else Return
                {| owner := owner;
                   repo := repo;
                   description := or_default (ri_description info) "";
                   stars := or_default (ri_stargazers_count info) 0;
                   forks := or_default (ri_forks_count info) 0;
                   language := or_default (ri_language info) "";
                   default_branch := default_branch;
                   directory_tree := directory_tree;
                   file_contents := contents |}
          end
        end
      end
    end
  end.

(** [parse_github_url]; [None] stands for the [IndexError] of
    [parts[-2]] on a list of one part. *)
Definition parse_github_url (url : string) : option (string * string) :=
  let url := PyStr.rstrip_char "/" url in
  let parts := PyStr.split "/" url in
  match rev parts with
  | repo :: owner :: _ => Some (owner, repo)
  | _ => None
  end.

(** The directories above a path: [a] and [a/b] for [a/b/c]. *)
Definition parent_dirs (p : string) : list string :=
  let parts := PyStr.split "/" p in
  map (fun i => PyStr.join "/" (firstn (i + 1) parts))
      (seq 0 (List.length parts - 1)).

End GithubClient.

(** ** [app/services/llm_summarizer.py] *)

Module LlmSummarizer.

(** The values [json.loads] can return: [None], [bool], a number (kept
    as its literal), [str], [list], [dict]. *)
Inductive json : Type :=
| JNull
| JBool (b : bool)
| JNumber (literal : string)
| JString (s : string)
| JArray (items : list json)
| JObject (members : PyDict.t json).

(** The message of a [SummarizerError]; the missing-field message
    formats a [set], whose element order Python does not fix, so it is
    kept as the collection of the missing names. *)
Inductive message : Type :=
| Text (s : string)
| MissingFields (missing : list string).

Inductive exn : Type :=
| SummarizerError (msg : message) (status_code : Z)
| AttributeError
| TypeError
| KeyError.

Inductive result (A : Type) : Type :=
| Return (a : A)
| Raise (e : exn).
Arguments Return {A} a.
Arguments Raise {A} e.

(** What [client.chat.completions.create] does: it returns a response
    whose [choices] each carry a [message.content] ([None] or a [str]),
    or raises. *)
Inductive llm_reply : Type :=
| Completion (choices : list (option string))
| APITimeoutError
| APIError (text : string).

(** The returned [dict]. *)
Record summary_result : Type := mk_summary {
  summary : string;
  technologies : list json;
  structure : string
}.

Definition REQUIRED : list string := [ "summary"; "technologies"; "structure" ].

Definition FENCE : string := "```".

(** [s.split("\n", 1)[1]] when ["\n" in s]: what follows the first
    newline. *)
Fixpoint after_first_newline (s : string) : string :=
  match s with
  | EmptyString => EmptyString
  | String c s' => if Ascii.eqb c NL_char then s' else after_first_newline s'
  end.

(** The fence-stripping block of [summarize]. *)
Definition strip_fences (raw_content : string) : string :=
  let content := PyStr.strip raw_content in
  let content :=
    if PyStr.startswith content FENCE then
      if PyStr.contains NL content then after_first_newline content
      else PyStr.slice_from 3 content
    else content in
  let content :=
    if PyStr.endswith content FENCE then PyStr.drop_last 3 content
    else content in
  PyStr.strip content.

(** [list(v)]: [None] stands for the [TypeError] on a value that is
    not iterable. *)
Definition py_list (v : json) : option (list json) :=
  match v with
  | JArray items => Some items
  | JString s =>
      Some (map (fun c => JString (String c EmptyString))
                (list_ascii_of_string s))
  | JObject members => Some (map JString (PyDict.keys members))
  | JNull | JBool _ | JNumber _ => None
  end.

Section Summarize.
(** [json.loads]; [None] stands for [json.JSONDecodeError]. *)
Variable json_loads : string -> option json.
(** [str(v)] on a decoded value. *)
Variable py_str : json -> string.

(** [summarize] from [raw_content] on, once it is known to be a
    non-empty [str]. *)
Definition parse_summary (raw_content : string) : result summary_result :=
  let content := strip_fences raw_content in
  match json_loads content with
  | None =>
      Raise (SummarizerError
               (Text "LLM returned malformed response. Please try again.")
               502)
  | Some (JObject members) =>
      let missing :=
        filter (fun k => negb (PyStr.mem k (PyDict.keys members)))
               REQUIRED in
      if is_nonempty missing then
        Raise (SummarizerError (MissingFields missing) 502)
      else
        match PyDict.get "summary" members,
              PyDict.get "technologies" members,
              PyDict.get "structure" members with
        | Some s, Some t, Some st =>
            match py_list t with
            | Some l =>
                Return {| summary := py_str s;
                          technologies := l;
                          structure := py_str st |}
            | None => Raise TypeError
            end
        | _, _, _ => Raise KeyError
        end
  | Some _ => Raise AttributeError
  end.

(** [summarize], given the configured key and what the backend did. *)
Definition summarize (openai_api_key : string) (backend : llm_reply)
  : result summary_result :=
  if String.eqb openai_api_key EmptyString then
    Raise (SummarizerError
             (Text "Server misconfiguration: LLM API key not set") 500)
  else
    match backend with
    | APITimeoutError =>
        Raise (SummarizerError
                 (Text "LLM request timed out. Please try again.") 504)
    | APIError e =>
        Raise (SummarizerError
                 (Text ("LLM summarization failed: " ++ e)) 502)
    | Completion [] =>
        Raise (SummarizerError (Text "LLM returned no choices") 502)
    | Completion (None :: _) =>
        Raise (SummarizerError (Text "LLM returned empty response") 502)
    | Completion (Some raw_content :: _) =>
        if String.eqb raw_content EmptyString then
          Raise (SummarizerError (Text "LLM returned empty response") 502)
        else parse_summary raw_content
    end.
End Summarize.

(** The spec's [DownstreamMalformed]: a [SummarizerError] with status
    502 raised for the backend's output. *)
Definition is_DownstreamMalformed (e : exn) : bool :=
  match e with
  | SummarizerError _ code => code =? 502
  | _ => false
  end.

(** The lines appended for one entry of [file_contents]. *)
Definition file_section (entry : string * string) : list string :=
  [ NL ++ "### " ++ fst entry; FENCE; snd entry; FENCE ].

Definition repository_line (repo_data : GithubClient.RepoData) : string :=
  "# Repository: " ++ GithubClient.owner repo_data ++ "/"
    ++ GithubClient.repo repo_data.

Definition description_line (repo_data : GithubClient.RepoData) : string :=
  "# Description: " ++ GithubClient.description repo_data.

Definition stars_line (repo_data : GithubClient.RepoData) : string :=
  "# Stars: " ++ PyStr.of_Z (GithubClient.stars repo_data)
    ++ " | Forks: " ++ PyStr.of_Z (GithubClient.forks repo_data)
    ++ " | Language: " ++ GithubClient.language repo_data.

(** The list [sections] of [build_user_prompt] before the loop over
    [file_contents]. *)
Definition header_sections (repo_data : GithubClient.RepoData) : list string :=
  (repository_line repo_data
   :: (if String.eqb (GithubClient.description repo_data) EmptyString
       then []
       else [description_line repo_data])
   ++ [ stars_line repo_data;
        EmptyString;
        "## Directory Tree";
        FENCE;
        GithubClient.directory_tree repo_data;
        FENCE;
        EmptyString;
        "## File Contents" ])%list.

(** The list [sections] at the [return]. *)
Definition prompt_sections (repo_data : GithubClient.RepoData) : list string :=
  (header_sections repo_data
   ++ flat_map file_section (GithubClient.file_contents repo_data))%list.

Definition build_user_prompt (repo_data : GithubClient.RepoData) : string :=
  PyStr.join NL (prompt_sections repo_data).

(** [repo_data] with another content mapping. *)
Definition with_contents (d : GithubClient.RepoData)
           (contents : PyDict.t string) : GithubClient.RepoData :=
  {| GithubClient.owner := GithubClient.owner d;
     GithubClient.repo := GithubClient.repo d;
     GithubClient.description := GithubClient.description d;
     GithubClient.stars := GithubClient.stars d;
     GithubClient.forks := GithubClient.forks d;
     GithubClient.language := GithubClient.language d;
     GithubClient.default_branch := GithubClient.default_branch d;
     GithubClient.directory_tree := GithubClient.directory_tree d;
     GithubClient.file_contents := contents |}.

(** The text one entry of [file_contents] adds to the prompt. *)
Definition file_block (entry : string * string) : string :=
  NL ++ NL ++ "### " ++ fst entry ++ NL ++ FENCE ++ NL ++ snd entry
     ++ NL ++ FENCE.

End LlmSummarizer.

(** ** [app/routers/summarize.py] *)

Module Router.

(** The [message] of the [ErrorResponse] in a [JSONResponse]. *)
Inductive error_message : Type :=
| GitHubMessage (message : string)
| SummarizerMessage (message : LlmSummarizer.message)
| UnexpectedError (e : LlmSummarizer.exn).

(** An exception that leaves [summarize_repo]. *)
Inductive escaped : Type :=
| IndexError
| HttpxError (e : GithubClient.httpx_exception)
| ValidationError.

(** [SummarizeResponse] of [app/models.py]: [summary: str],
    [technologies: list[str]], [structure: str]. *)
Record response_model : Type := mk_response {
  summary : string;
  technologies : list string;
  structure : string
}.

(** A decoded value taken as a [str] field: only a [str] is one. *)
Definition as_str (v : LlmSummarizer.json) : option string :=
  match v with
  | LlmSummarizer.JString s => Some s
  | _ => None
  end.

(** A [list] taken as [list[str]]: every item has to be a [str]. *)
Fixpoint as_str_list (l : list LlmSummarizer.json) : option (list string) :=
  match l with
  | [] => Some []
  | v :: rest =>
      match as_str v, as_str_list rest with
      | Some s, Some ss => Some (s :: ss)
      | _, _ => None
      end
  end.

(** [SummarizeResponse] built from the keys of [result]; [None]
    stands for the [ValidationError] of the model.  [summary] and
    [structure] are results of [str] and always pass. *)
Definition validate_response (result : LlmSummarizer.summary_result)
  : option response_model :=
  match as_str_list (LlmSummarizer.technologies result) with
  | Some technologies =>
      Some {| summary := LlmSummarizer.summary result;
              technologies := technologies;
              structure := LlmSummarizer.structure result |}
  | None => None
  end.

(** How [summarize_repo] ends: at its last line, with the validated
    [SummarizeResponse]; at one of its three [return JSONResponse(...)];
    or by an exception it does not catch. *)
Inductive outcome : Type :=
| SummarizeResponse (response : response_model)
| JSONResponse (status_code : Z) (message : error_message)
| Escapes (e : escaped).

Section Handler.
Variable json_loads : string -> option LlmSummarizer.json.
Variable py_str : LlmSummarizer.json -> string.
(** [OPENAI_API_KEY] of the environment, as [get_settings] reads it. *)
Variable openai_api_key : string.
(** The replies of the GitHub API and of the raw-content host. *)
Variable repo_reply : GithubClient.reply
                        (GithubClient.json_response GithubClient.repo_info).
Variable tree_reply : GithubClient.reply
                        (GithubClient.json_response GithubClient.tree_data).
Variable client_get : string -> GithubClient.reply GithubClient.text_response.
(** What the backend does with a user prompt. *)
Variable backend : string -> LlmSummarizer.llm_reply.

Definition summarize_repo (github_url : string) : outcome :=
  match GithubClient.parse_github_url github_url with
  | None => Escapes IndexError
  | Some (owner, repo) =>
      match GithubClient.fetch_repo_data GithubClient.default_settings
                                         owner repo
                                         repo_reply tree_reply client_get with
      | GithubClient.Raise (GithubClient.GitHubClientError message status_code) =>
          JSONResponse status_code (GitHubMessage message)
      | GithubClient.Raise (GithubClient.Uncaught e) => Escapes (HttpxError e)
      | GithubClient.Return repo_data =>
          match LlmSummarizer.summarize
                  json_loads py_str openai_api_key
                  (backend (LlmSummarizer.build_user_prompt repo_data)) with
          | LlmSummarizer.Raise
              (LlmSummarizer.SummarizerError message status_code) =>
              JSONResponse status_code (SummarizerMessage message)
          | LlmSummarizer.Raise e => JSONResponse 500 (UnexpectedError e)
          | LlmSummarizer.Return result =>
              match validate_response result with
              | Some response => SummarizeResponse response
              | None => Escapes ValidationError
              end
          end
      end
  end.
End Handler.

End Router.

(** ** Concrete inputs of the examples *)

Module Examples.
Import FileFilter.

(** A README, an entry point too large for what is left, and a deeper,
    smaller file behind it. *)
Definition three_files : list file_info :=
  [ mk_file "README.md" (Some 500);
    mk_file "main.py" (Some 600);
    mk_file "src/util.py" (Some 100) ].

(** The second scenario of the test suite: two entries of 600. *)
Definition two_large_files : list file_info :=
  [ mk_file "README.md" (Some 600);
    mk_file "src/main.py" (Some 600) ].

(** An eligible entry next to an excluded one and a tier-Skip one. *)
Definition mixed_files : list file_info :=
  [ mk_file "node_modules/foo.js" (Some 100);
    mk_file "notes.bin" (Some 10);
    mk_file "README.md" (Some 100) ].

(** Entries no rule lets through. *)
Definition no_eligible_files : list file_info :=
  [ mk_file "node_modules/foo.js" (Some 100);
    mk_file "LICENSE" None ].

(** Two entries with the same sort key, and a third in front of them. *)
Definition tied_files : list file_info :=
  [ mk_file "b.py" (Some 10);
    mk_file "a.py" (Some 10);
    mk_file "README.md" (Some 10) ].

(** A client for which the README is served and [src/main.py] times
    out; any other URL is not found. *)
Definition flaky_client (url : string) : GithubClient.reply GithubClient.text_response :=
  if String.eqb url "https://raw.githubusercontent.com/psf/requests/main/README.md"
  then GithubClient.Replied (GithubClient.mk_text_response 200 "# Requests")
  else if String.eqb url "https://raw.githubusercontent.com/psf/requests/main/src/main.py"
  then GithubClient.Failed GithubClient.TimeoutException
  else GithubClient.Replied (GithubClient.mk_text_response 404 "404: Not Found").

Definition requests_info : GithubClient.repo_info :=
  GithubClient.mk_repo_info (Some "main") (Some "Python HTTP library")
                            (Some 50000) (Some 9000) (Some "Python").

Definition requests_tree : GithubClient.tree_data :=
  GithubClient.mk_tree_data
    (Some [ GithubClient.mk_item "README.md" (Some 5000) (Some "blob");
            GithubClient.mk_item "src" None (Some "tree");
            GithubClient.mk_item "src/main.py" (Some 2000) (Some "blob") ]).

(** A complete summary object. *)
Definition summary_object : LlmSummarizer.json :=
  LlmSummarizer.JObject
    [ ("summary", LlmSummarizer.JString "An HTTP library.");
      ("technologies", LlmSummarizer.JArray [LlmSummarizer.JString "Python"]);
      ("structure", LlmSummarizer.JString "One package.") ].

(** [s] between double quotes. *)
Definition quoted (s : string) : string :=
  String (ascii_of_nat 34) s ++ String (ascii_of_nat 34) EmptyString.

Definition summary_text : string :=
  "{" ++ quoted "summary" ++ ": " ++ quoted "An HTTP library." ++ ", "
      ++ quoted "technologies" ++ ": [" ++ quoted "Python" ++ "], "
      ++ quoted "structure" ++ ": " ++ quoted "One package." ++ "}".

(** An object without the [structure] field. *)
Definition partial_text : string :=
  "{" ++ quoted "summary" ++ ": " ++ quoted "An HTTP library." ++ ", "
      ++ quoted "technologies" ++ ": []}".

(** The same object inside a Markdown fence: the text as a whole is
    not JSON. *)
Definition fenced_reply : string :=
  "```json" ++ NL ++ summary_text ++ NL ++ "```".

(** What [json.loads] returns on the texts of the examples: the
    summary object, an object without ["structure"], an array; it
    raises on every text that is not JSON, the fenced reply among
    them. *)
Definition sample_loads (text : string) : option LlmSummarizer.json :=
  if String.eqb text summary_text then Some summary_object
  else if String.eqb text partial_text
  then Some (LlmSummarizer.JObject
               [ ("summary", LlmSummarizer.JString "An HTTP library.");
                 ("technologies", LlmSummarizer.JArray []) ])
  else if String.eqb text "[1, 2, 3]"
  then Some (LlmSummarizer.JArray
               [ LlmSummarizer.JNumber "1"; LlmSummarizer.JNumber "2";
                 LlmSummarizer.JNumber "3" ])
  else None.

(** [str] on the values of the examples: a [str] is itself, a number
    its literal. *)
Definition sample_str (v : LlmSummarizer.json) : string :=
  match v with
  | LlmSummarizer.JString s => s
  | LlmSummarizer.JNumber literal => literal
  | LlmSummarizer.JNull => "None"
  | LlmSummarizer.JBool true => "True"
  | LlmSummarizer.JBool false => "False"
  | LlmSummarizer.JArray _ => "[...]"
  | LlmSummarizer.JObject _ => "{...}"
  end.

(** A text of 50,001 characters. *)
Definition long_text : string := PyStr.repeat "x" 50001.

(** A tree listing with a blob under an excluded directory, a
    directory entry, and a README. *)
Definition listing : list GithubClient.tree_item :=
  [ GithubClient.mk_item "node_modules/foo.js" (Some 100) (Some "blob");
    GithubClient.mk_item "src" None (Some "tree");
    GithubClient.mk_item "README.md" (Some 100) (Some "blob") ].

(** 201 files in one directory: [f0], [f1], ..., [f200]. *)
Definition many_paths : list string :=
  map (fun n => "f" ++ PyStr.of_nat n) (seq 0 201).

(** A backend that times out, and one that answers every prompt with
    the fenced object. *)
Definition slow_backend (prompt : string) : LlmSummarizer.llm_reply :=
  LlmSummarizer.APITimeoutError.

Definition fencing_backend (prompt : string) : LlmSummarizer.llm_reply :=
  LlmSummarizer.Completion [Some fenced_reply].

(** A decoder whose object lists numbers as [technologies]. *)
Definition numbers_loads (text : string) : option LlmSummarizer.json :=
  Some (LlmSummarizer.JObject
          [ ("summary", LlmSummarizer.JString "An HTTP library.");
            ("technologies",
             LlmSummarizer.JArray [ LlmSummarizer.JNumber "1";
                                    LlmSummarizer.JNumber "2" ]);
            ("structure", LlmSummarizer.JString "One package.") ]).

(** A text with a NUL character, the listing of the one file that
    holds it, a content host that serves it with status 200, and a
    content host whose request raises an exception that is neither a
    timeout nor an HTTP error. *)
Definition blob_text : string := "PK" ++ V1.NUL ++ "data".

Definition blob_tree : GithubClient.tree_data :=
  GithubClient.mk_tree_data
    (Some [ GithubClient.mk_item "assets/blob.txt" (Some 7) (Some "blob") ]).

Definition blob_client (url : string)
  : GithubClient.reply GithubClient.text_response :=
  GithubClient.Replied (GithubClient.mk_text_response 200 blob_text).

Definition broken_client (url : string)
  : GithubClient.reply GithubClient.text_response :=
  GithubClient.Failed GithubClient.OtherException.

(** The earlier content host, failing every request. *)
Definition dead_client (path : string) : option V1.raw_response := None.

End Examples.

(** * Properties *)

(** ** Sub-sequences *)

Lemma subseq_refl {A : Type} (l : list A) : subseq l l.
Proof. induction l; constructor; assumption. Qed.

Lemma subseq_nil_l {A : Type} (l : list A) : subseq [] l.
Proof. induction l; constructor; assumption. Qed.

Lemma subseq_trans {A : Type} (l1 l2 l3 : list A) :
  subseq l1 l2 -> subseq l2 l3 -> subseq l1 l3.
Proof.
  intros H12 H23. revert l1 H12.
  induction H23 as [| x l2 l3 _ IH | x l2 l3 _ IH]; intros l1 H12.
  - assumption.
  - apply subseq_skip, IH, H12.
  - inversion H12; subst.
    + apply subseq_skip, IH. assumption.
    + apply subseq_keep, IH. assumption.
Qed.

Lemma subseq_filter {A : Type} (p : A -> bool) (l : list A) :
  subseq (filter p l) l.
Proof.
  induction l as [| x l IH]; simpl.
  - constructor.
  - destruct (p x); constructor; assumption.
Qed.

Lemma subseq_filter_mono {A : Type} (p : A -> bool) (l1 l2 : list A) :
  subseq l1 l2 -> subseq (filter p l1) (filter p l2).
Proof.
  induction 1 as [| x l1 l2 _ IH | x l1 l2 _ IH]; simpl.
  - constructor.
  - destruct (p x); [apply subseq_skip |]; assumption.
  - destruct (p x); [apply subseq_keep |]; assumption.
Qed.

Lemma subseq_app_head {A : Type} (l0 l1 l2 : list A) :
  subseq l1 l2 -> subseq (l0 ++ l1) (l0 ++ l2).
Proof. intros H. induction l0; simpl; [| apply subseq_keep]; assumption. Qed.

Lemma subseq_In {A : Type} (l1 l2 : list A) (x : A) :
  subseq l1 l2 -> In x l1 -> In x l2.
Proof.
  induction 1 as [| y l1 l2 _ IH | y l1 l2 _ IH]; simpl; intros Hin.
  - assumption.
  - right. apply IH, Hin.
  - destruct Hin as [-> | Hin]; [left; reflexivity | right; apply IH, Hin].
Qed.

Lemma subseq_Forall {A : Type} (P : A -> Prop) (l1 l2 : list A) :
  subseq l1 l2 -> Forall P l2 -> Forall P l1.
Proof.
  intros Hs Hall. rewrite Forall_forall in *.
  intros x Hx. apply Hall. eapply subseq_In; eassumption.
Qed.

Lemma subseq_StronglySorted {A : Type} (R : A -> A -> Prop) (l1 l2 : list A) :
  subseq l1 l2 -> StronglySorted R l2 -> StronglySorted R l1.
Proof.
  induction 1 as [| x l1 l2 Hs IH | x l1 l2 Hs IH]; intros Hsorted.
  - constructor.
  - inversion Hsorted; subst. apply IH. assumption.
  - inversion Hsorted; subst. constructor.
    + apply IH. assumption.
    + eapply subseq_Forall; eassumption.
Qed.

Lemma StronglySorted_weaken {A : Type} (R S : A -> A -> Prop) (l : list A) :
  (forall a b, R a b -> S a b) -> StronglySorted R l -> StronglySorted S l.
Proof.
  intros HRS. induction 1 as [| x l _ IH Hall]; constructor.
  - exact IH.
  - eapply Forall_impl; [apply HRS | exact Hall].
Qed.

(** ** The stable sort *)

Section SortingFacts.
Context {A K : Type}.
Variable ltb : K -> K -> bool.
Variable key : A -> K.

Let isort := sort_by ltb key.
Let ins := insert_by ltb key.

Lemma insert_by_perm (x : A) (l : list A) : Permutation (ins x l) (x :: l).
Proof.
  induction l as [| y ys IH]; simpl.
  - apply Permutation_refl.
  - destruct (ltb (key y) (key x)).
    + eapply Permutation_trans; [apply perm_skip, IH | apply perm_swap].
    + apply Permutation_refl.
Qed.

Lemma sort_by_perm (l : list A) : Permutation (isort l) l.
Proof.
  induction l as [| x xs IH]; simpl.
  - apply perm_nil.
  - eapply Permutation_trans; [apply insert_by_perm | apply perm_skip, IH].
Qed.

Lemma sort_by_In (l : list A) (x : A) : In x (isort l) <-> In x l.
Proof.
  split; apply Permutation_in;
    [apply sort_by_perm | apply Permutation_sym, sort_by_perm].
Qed.

Lemma sort_by_nil (l : list A) : isort l = [] -> l = [].
Proof.
  intros H. apply Permutation_nil. rewrite <- H.
  apply sort_by_perm.
Qed.

(** Stability needs no order law beyond irreflexivity on equal keys. *)
Section Stable.
Variable same : K -> bool.
Hypothesis same_not_lt :
  forall a b, same a = true -> same b = true -> ltb a b = false.

Lemma insert_by_filter (x : A) (l : list A) :
  filter (fun a => same (key a)) (ins x l)
  = filter (fun a => same (key a)) (x :: l).
Proof.
  induction l as [| y ys IH]; [reflexivity |].
  cbn [ins insert_by]. fold ins.
  destruct (ltb (key y) (key x)) eqn:Hlt; [| reflexivity].
  cbn [filter] in *.
  destruct (same (key y)) eqn:Hy, (same (key x)) eqn:Hx;
    rewrite IH; try reflexivity.
  rewrite (same_not_lt _ _ Hy Hx) in Hlt. discriminate.
Qed.

Lemma sort_by_stable (l : list A) :
  filter (fun a => same (key a)) (isort l)
  = filter (fun a => same (key a)) l.
Proof.
  induction l as [| x xs IH]; [reflexivity |].
  cbn [isort sort_by]. fold isort. fold ins.
  rewrite insert_by_filter. cbn [filter]. rewrite IH. reflexivity.
Qed.
End Stable.

(** Sortedness needs a strict weak order. *)
Section Sorted.
Hypothesis ltb_asym : forall a b, ltb a b = true -> ltb b a = false.
Hypothesis ltb_negtrans :
  forall a b c, ltb b a = false -> ltb c b = false -> ltb c a = false.

Let le (a b : A) : Prop := ltb (key b) (key a) = false.

Lemma insert_by_sorted (x : A) (l : list A) :
  StronglySorted le l -> StronglySorted le (ins x l).
Proof.
  induction l as [| y ys IH]; intros Hs; simpl.
  - repeat constructor.
  - inversion Hs as [| ? ? Hys Hall]; subst.
    destruct (ltb (key y) (key x)) eqn:Hlt.
    + constructor; [apply IH; assumption |].
      eapply Permutation_Forall;
        [apply Permutation_sym, insert_by_perm |].
      constructor; [apply ltb_asym; assumption | assumption].
    + constructor; [assumption |].
      constructor; [exact Hlt |].
      rewrite Forall_forall in *. intros z Hz.
      unfold le. eapply ltb_negtrans; [exact Hlt | apply Hall, Hz].
Qed.

Lemma sort_by_sorted (l : list A) : StronglySorted le (isort l).
Proof.
  induction l as [| x xs IH]; simpl.
  - constructor.
  - apply insert_by_sorted, IH.
Qed.
End Sorted.
End SortingFacts.

(** ** The sort key of [file_filter.py] *)

Section KeyOrder.
Import FileFilter.

Lemma key_ltb_true (a b : sort_key) :
  key_ltb a b = true <->
  let '(a1, a2, a3, a4) := a in
  let '(b1, b2, b3, b4) := b in
  a1 < b1 \/ (a1 = b1 /\
    (a2 < b2 \/ (a2 = b2 /\
      (a3 < b3 \/ (a3 = b3 /\ a4 < b4))))).
Proof.
  destruct a as [[[a1 a2] a3] a4], b as [[[b1 b2] b3] b4].
  unfold key_ltb.
  repeat (rewrite ?orb_true_iff, ?andb_true_iff, ?Z.ltb_lt, ?Z.eqb_eq).
  reflexivity.
Qed.

Lemma key_le_lex (a b : sort_key) : key_le a b <-> key_lex_le a b.
Proof.
  unfold key_le. rewrite <- not_true_iff_false, key_ltb_true.
  destruct a as [[[a1 a2] a3] a4], b as [[[b1 b2] b3] b4].
  unfold key_lex_le. lia.
Qed.

Lemma key_ltb_asym (a b : sort_key) :
  key_ltb a b = true -> key_ltb b a = false.
Proof.
  rewrite <- not_true_iff_false, !key_ltb_true.
  destruct a as [[[a1 a2] a3] a4], b as [[[b1 b2] b3] b4]. lia.
Qed.

Lemma key_ltb_negtrans (a b c : sort_key) :
  key_ltb b a = false -> key_ltb c b = false -> key_ltb c a = false.
Proof.
  rewrite <- !not_true_iff_false, !key_ltb_true.
  destruct a as [[[a1 a2] a3] a4], b as [[[b1 b2] b3] b4],
           c as [[[c1 c2] c3] c4]. lia.
Qed.

Lemma key_eqb_eq (a b : sort_key) : key_eqb a b = true <-> a = b.
Proof.
  destruct a as [[[a1 a2] a3] a4], b as [[[b1 b2] b3] b4].
  unfold key_eqb. rewrite !andb_true_iff, !Z.eqb_eq.
  split; [intros [[[-> ->] ->] ->]; reflexivity |].
  intros H. injection H as -> -> -> ->. repeat split.
Qed.

Lemma key_eqb_not_lt (k a b : sort_key) :
  key_eqb a k = true -> key_eqb b k = true -> key_ltb a b = false.
Proof.
  rewrite !key_eqb_eq. intros -> ->.
  rewrite <- not_true_iff_false, key_ltb_true.
  destruct k as [[[k1 k2] k3] k4]. lia.
Qed.
End KeyOrder.

(** ** Candidates: filtering and ranking *)

Section Candidates.
Import FileFilter.

Lemma eligible_files_filter (files : list file_info) :
  eligible_files files = filter is_eligible files.
Proof.
  unfold eligible_files, is_eligible.
  induction files as [| f fs IH]; [reflexivity |].
  cbn [filter]. destruct (should_exclude_path (path f)); cbn [negb andb filter].
  - exact IH.
  - destruct (get_file_priority (path f) =? PRIORITY_SKIP);
      cbn [negb]; rewrite IH; reflexivity.
Qed.

Lemma candidates_In (files : list file_info) (f : file_info) :
  In f (candidates files) <-> In f files /\ is_eligible f = true.
Proof.
  unfold candidates. rewrite sort_by_In, eligible_files_filter.
  apply filter_In.
Qed.

Lemma candidates_sorted (files : list file_info) :
  StronglySorted (fun a b => key_le (_sort_key a) (_sort_key b))
                 (candidates files).
Proof.
  unfold candidates, key_le.
  apply sort_by_sorted; [apply key_ltb_asym | apply key_ltb_negtrans].
Qed.

Lemma candidates_stable (files : list file_info) (k : sort_key) :
  filter (has_key k) (candidates files)
  = filter (has_key k) (eligible_files files).
Proof.
  unfold candidates, has_key.
  apply (sort_by_stable key_ltb _sort_key (fun k' => key_eqb k' k)).
  intros a b. apply key_eqb_not_lt.
Qed.
End Candidates.

(** ** The selection loop *)

Section SelectLoop.
Import FileFilter.
Variable B : Z.

Lemma total_size_app (l1 l2 : list file_info) :
  total_size (l1 ++ l2)%list = total_size l1 + total_size l2.
Proof.
  unfold total_size. induction l1 as [| f l1 IH]; simpl; [lia |].
  rewrite IH. lia.
Qed.

Lemma is_nonempty_snoc {A : Type} (l : list A) (x : A) :
  is_nonempty (l ++ [x])%list = true.
Proof. destruct l; reflexivity. Qed.

(** The loop only appends, and what it appends is a sub-sequence of
    the candidates it walks. *)
Lemma select_loop_extends (l sel : list file_info) (t : Z) :
  exists ext, fst (select_loop B l sel t) = (sel ++ ext)%list /\ subseq ext l.
Proof.
  revert sel t. induction l as [| f l IH]; intros sel t; simpl.
  - exists []. rewrite app_nil_r. split; [reflexivity | constructor].
  - destruct ((B <? t + get_size f) && is_nonempty sel).
    + destruct (IH sel t) as (ext & -> & Hs).
      exists ext. split; [reflexivity | apply subseq_skip, Hs].
    + destruct (IH (sel ++ [f])%list (t + get_size f)) as (ext & -> & Hs).
      exists (f :: ext). rewrite <- app_assoc.
      split; [reflexivity | apply subseq_keep, Hs].
Qed.

(** [total_chars] is the total size of [selected]. *)
Lemma select_loop_total (l sel : list file_info) (t : Z) :
  t = total_size sel ->
  snd (select_loop B l sel t) = total_size (fst (select_loop B l sel t)).
Proof.
  revert sel t. induction l as [| f l IH]; intros sel t Ht; simpl.
  - exact Ht.
  - destruct ((B <? t + get_size f) && is_nonempty sel).
    + apply IH, Ht.
    + apply IH. rewrite total_size_app, Ht. unfold total_size. simpl. lia.
Qed.

(** Walking [l1 ++ l2] is walking [l1], then [l2] from the state
    reached. *)
Lemma select_loop_app (l1 l2 sel : list file_info) (t : Z) :
  select_loop B (l1 ++ l2) sel t
  = select_loop B l2 (fst (select_loop B l1 sel t))
                     (snd (select_loop B l1 sel t)).
Proof.
  revert sel t. induction l1 as [| f l1 IH]; intros sel t; simpl.
  - reflexivity.
  - destruct ((B <? t + get_size f) && is_nonempty sel); apply IH.
Qed.

(** Once something is selected and the budget is exceeded, nothing of
    non-negative size is accepted any more. *)
Lemma select_loop_saturated (l sel : list file_info) (t : Z) :
  is_nonempty sel = true -> B < t ->
  Forall (fun f => 0 <= get_size f) l ->
  select_loop B l sel t = (sel, t).
Proof.
  intros Hne Ht Hall. induction Hall as [| f l Hf _ IH]; simpl.
  - reflexivity.
  - rewrite Hne, andb_true_r.
    destruct (Z.ltb_spec B (t + get_size f)); [exact IH | lia].
Qed.

(** Once something is selected within the budget, the total stays
    within the budget. *)
Lemma select_loop_within (l sel : list file_info) (t : Z) :
  is_nonempty sel = true -> t <= B ->
  snd (select_loop B l sel t) <= B.
Proof.
  revert sel t. induction l as [| f l IH]; intros sel t Hne Ht; simpl.
  - exact Ht.
  - rewrite Hne, andb_true_r.
    destruct (Z.ltb_spec B (t + get_size f)).
    + apply IH; assumption.
    + apply IH; [apply is_nonempty_snoc | assumption].
Qed.

(** The first candidate is always accepted. *)
Lemma select_within_budget_cons (c : file_info) (rest : list file_info) :
  select_within_budget B (c :: rest)
  = select_loop B rest [c] (get_size c).
Proof.
  unfold select_within_budget. simpl. rewrite andb_false_r. reflexivity.
Qed.
End SelectLoop.

(** ** Claims about [rank_and_select_files] *)

Section Selection.
Import FileFilter.

(** C1. For a positive budget [B] and entries of non-negative size:
    if the first candidate in sorted order is alone larger than [B],
    exactly that one entry is returned; otherwise the sizes of the
    returned entries add up to at most [B].  A candidate that was
    rejected does not stop the walk: any later candidate that fits on
    top of what was accepted before it is returned. *)
Theorem budget_respected_or_minimally_violated
        (files : list file_info) (B : Z) :
  0 < B ->
  (forall f, In f files -> 0 <= get_size f) ->
  (forall c, hd_error (candidates files) = Some c -> B < get_size c ->
             rank_and_select_files files B = [c])
  /\ ((forall c, hd_error (candidates files) = Some c -> get_size c <= B) ->
      total_size (rank_and_select_files files B) <= B)
  /\ (forall pre c post,
         candidates files = (pre ++ c :: post)%list ->
         total_size (fst (select_within_budget B pre)) + get_size c <= B ->
         In c (rank_and_select_files files B)).
Proof.
  intros HB Hsizes. unfold rank_and_select_files.
  assert (Hnonneg : Forall (fun f => 0 <= get_size f) (candidates files)).
  { rewrite Forall_forall. intros f Hf.
    apply Hsizes. apply candidates_In in Hf. apply Hf. }
  split; [| split].
  - intros c Hhd Hbig.
    destruct (candidates files) as [| c' rest]; [discriminate |].
    injection Hhd as ->.
    rewrite select_within_budget_cons.
    inversion Hnonneg; subst.
    rewrite select_loop_saturated; [reflexivity | reflexivity | | ]; assumption.
  - intros Hfirst.
    destruct (candidates files) as [| c rest].
    + simpl. lia.
    + rewrite select_within_budget_cons.
      rewrite <- select_loop_total by (unfold total_size; simpl; lia).
      apply select_loop_within; [reflexivity |].
      apply Hfirst. reflexivity.
  - intros pre c post Hsplit Hfits. rewrite Hsplit.
    unfold select_within_budget in *.
    rewrite select_loop_app.
    rewrite (select_loop_total B pre [] 0) in * by reflexivity.
    set (sel := fst (select_loop B pre [] 0)) in *.
    cbn [select_loop].
    replace (B <? total_size sel + get_size c) with false
      by (symmetry; apply Z.ltb_ge; exact Hfits).
    cbn [andb].
    destruct (select_loop_extends B post (sel ++ [c])%list
                (total_size sel + get_size c)) as (ext & -> & _).
    rewrite <- app_assoc. apply in_or_app. right. left. reflexivity.
Qed.

(** With budget 700 the README (500) is taken, [main.py] (600) is
    rejected, and the walk goes on to take [src/util.py] (100). *)
Example walk_continues_after_rejection :
  candidates Examples.three_files
  = [ mk_file "README.md" (Some 500);
      mk_file "main.py" (Some 600);
      mk_file "src/util.py" (Some 100) ]
  /\ rank_and_select_files Examples.three_files 700
     = [ mk_file "README.md" (Some 500); mk_file "src/util.py" (Some 100) ].
Proof. split; vm_compute; reflexivity. Qed.

Lemma budget_respected_or_minimally_violated_witness :
  total_size (rank_and_select_files Examples.three_files 700) <= 700
  /\ rank_and_select_files Examples.two_large_files 500
     = [ mk_file "README.md" (Some 600) ].
Proof.
  split.
  - refine (proj1 (proj2 (budget_respected_or_minimally_violated
                            Examples.three_files 700 _ _)) _).
    + reflexivity.
    + intros f [<- | [<- | [<- | []]]]; discriminate.
    + intros c Hc. vm_compute in Hc. injection Hc as <-. discriminate.
  - refine (proj1 (budget_respected_or_minimally_violated
                     Examples.two_large_files 500 _ _) _ _ _).
    + reflexivity.
    + intros f [<- | [<- | []]]; discriminate.
    + vm_compute. reflexivity.
    + reflexivity.
Defined.

(** C2. Whenever some entry of the input is eligible, the selection is
    not empty, whatever the budget; when no entry is eligible the
    selection is empty and no budget is consumed. *)
Theorem at_least_one_selected (files : list file_info) (B : Z) :
  ((exists f, In f files /\ should_exclude_path (path f) = false
              /\ get_file_priority (path f) <> PRIORITY_SKIP) ->
   rank_and_select_files files B <> [])
  /\ ((forall f, In f files ->
                 should_exclude_path (path f) = true
                 \/ get_file_priority (path f) = PRIORITY_SKIP) ->
      rank_and_select_files files B = [] /\ consumed_chars files B = 0).
Proof.
  unfold rank_and_select_files, consumed_chars. split.
  - intros (f & Hin & Hex & Hprio).
    assert (Hc : In f (candidates files)).
    { apply candidates_In. split; [exact Hin |].
      unfold is_eligible. rewrite Hex. cbn [negb andb].
      apply negb_true_iff, Z.eqb_neq, Hprio. }
    destruct (candidates files) as [| c rest]; [contradiction |].
    rewrite select_within_budget_cons.
    destruct (select_loop_extends B rest [c] (get_size c)) as (ext & -> & _).
    discriminate.
  - intros Hnone.
    assert (Hc : candidates files = []).
    { destruct (candidates files) as [| c rest] eqn:E; [reflexivity |].
      assert (Hin : In c (candidates files)) by (rewrite E; left; reflexivity).
      apply candidates_In in Hin. destruct Hin as [Hin Hel].
      unfold is_eligible in Hel. apply andb_true_iff in Hel.
      destruct Hel as [He Hp].
      apply negb_true_iff in He. apply negb_true_iff, Z.eqb_neq in Hp.
      destruct (Hnone c Hin) as [H | H]; [congruence | contradiction]. }
    rewrite Hc. split; reflexivity.
Qed.

Lemma at_least_one_selected_witness :
  rank_and_select_files Examples.mixed_files 1 <> []
  /\ rank_and_select_files Examples.no_eligible_files 1 = []
  /\ consumed_chars Examples.no_eligible_files 1 = 0.
Proof.
  split.
  - apply (proj1 (at_least_one_selected Examples.mixed_files 1)).
    exists (mk_file "README.md" (Some 100)).
    split; [right; right; left; reflexivity |].
    split; [reflexivity | discriminate].
  - apply (proj2 (at_least_one_selected Examples.no_eligible_files 1)).
    intros f [<- | [<- | []]]; [left | right]; reflexivity.
Defined.

(** C4. The returned sequence is in ascending order of the key
    (priority tier, not-entry-point flag, path depth, size), compared
    lexicographically; entries with equal keys come in the order the
    input had them. *)
Theorem selection_sorted_and_stable (files : list file_info) (B : Z) :
  StronglySorted (fun a b => key_lex_le (_sort_key a) (_sort_key b))
                 (rank_and_select_files files B)
  /\ (forall k : sort_key,
         subseq (filter (has_key k) (rank_and_select_files files B))
                (filter (has_key k) files))
  /\ (forall f : file_info,
         _sort_key f
         = (get_file_priority (path f),
            if PyStr.mem (filename_of (path f)) TIER3_ENTRY_POINTS
            then 0 else 1,
            PyStr.count "/" (path f),
            get_size f)).
Proof.
  unfold rank_and_select_files, select_within_budget.
  destruct (select_loop_extends B (candidates files) [] 0) as (ext & -> & Hs).
  cbn [app]. split; [| split; [| reflexivity]].
  - eapply subseq_StronglySorted; [exact Hs |].
    eapply StronglySorted_weaken; [| apply candidates_sorted].
    intros a b. apply key_le_lex.
  - intros k.
    apply subseq_trans with (l2 := filter (has_key k) (candidates files)).
    + apply subseq_filter_mono, Hs.
    + rewrite candidates_stable. apply subseq_filter_mono.
      unfold eligible_files.
      eapply subseq_trans; apply subseq_filter.
Qed.

(** [b.py] and [a.py] have the same key and keep their input order. *)
Example equal_keys_keep_input_order :
  _sort_key (mk_file "b.py" (Some 10)) = _sort_key (mk_file "a.py" (Some 10))
  /\ rank_and_select_files Examples.tied_files 1000
     = [ mk_file "README.md" (Some 10);
         mk_file "b.py" (Some 10);
         mk_file "a.py" (Some 10) ].
Proof. split; vm_compute; reflexivity. Qed.

(** C9. Every returned entry is eligible: its path is not excluded and
    its tier is not Skip, for any input list, filtered beforehand or
    not.  The caller [fetch_repo_data] passes one entry per blob of the
    tree listing, excluded paths included. *)
Theorem selected_entries_are_eligible :
  (forall (files : list file_info) (B : Z),
      Forall (fun f => should_exclude_path (path f) = false
                       /\ get_file_priority (path f) <> PRIORITY_SKIP)
             (rank_and_select_files files B))
  /\ (forall (settings : GithubClient.Settings)
             (tree_items : list GithubClient.tree_item),
         GithubClient.selected_files settings tree_items
         = rank_and_select_files
             (GithubClient.file_items tree_items)
             (GithubClient.content_budget settings
                (GithubClient.build_directory_tree
                   (GithubClient.all_paths tree_items)))
         /\ map path (GithubClient.file_items tree_items)
            = map GithubClient.item_path
                  (filter GithubClient.is_blob tree_items)).
Proof.
  split.
  - intros files B. unfold rank_and_select_files, select_within_budget.
    destruct (select_loop_extends B (candidates files) [] 0) as (ext & -> & Hs).
    cbn [app]. rewrite Forall_forall. intros f Hf.
    apply (subseq_In _ _ _ Hs), candidates_In in Hf.
    destruct Hf as [_ Hel]. unfold is_eligible in Hel.
    apply andb_true_iff in Hel. destruct Hel as [He Hp].
    split; [apply negb_true_iff, He |].
    apply Z.eqb_neq, negb_true_iff, Hp.
  - intros settings tree_items. split; [reflexivity |].
    unfold GithubClient.file_items. rewrite map_map. reflexivity.
Qed.

(** The excluded blob reaches the selector and is dropped by it. *)
Example excluded_blob_is_passed_and_dropped :
  map path (GithubClient.file_items Examples.listing)
  = [ "node_modules/foo.js"; "README.md" ]
  /\ map path (GithubClient.selected_files GithubClient.default_settings
                                           Examples.listing)
     = [ "README.md" ].
Proof. split; vm_compute; reflexivity. Qed.

End Selection.

(** ** Claims about [get_file_priority] *)

Section Priority.
Import FileFilter.

Lemma mem_In (x : string) (S : list string) :
  PyStr.mem x S = true <-> In x S.
Proof.
  unfold PyStr.mem. rewrite existsb_exists. split.
  - intros (y & Hy & Heq). apply String.eqb_eq in Heq. subst. exact Hy.
  - intros Hx. exists x. split; [exact Hx | apply String.eqb_refl].
Qed.

Lemma upper_lower_char (c : ascii) :
  PyStr.upper_char (PyStr.lower_char c) = PyStr.upper_char c.
Proof.
  destruct c as [[] [] [] [] [] [] [] []]; vm_compute; reflexivity.
Qed.

Lemma upper_lower (s : string) : PyStr.upper (PyStr.lower s) = PyStr.upper s.
Proof.
  unfold PyStr.upper, PyStr.lower.
  induction s as [| c s IH]; simpl; [reflexivity |].
  rewrite upper_lower_char, IH. reflexivity.
Qed.

Lemma canonical_readme_prefix (filename : string) :
  is_canonical_readme filename = true ->
  PyStr.startswith (PyStr.upper filename) "README" = true.
Proof.
  unfold is_canonical_readme. rewrite mem_In, <- upper_lower.
  cbn [map TIER1_FILENAMES].
  intros [H | [H | [H | [H | []]]]]; rewrite <- H; vm_compute; reflexivity.
Qed.

(** C5. The four example paths get Tiers 1, 2, 3 and 4 in that order,
    each strictly before the next, and Tier 4 is strictly before Skip. *)
Theorem tier_monotonicity :
  get_file_priority "README.md" = PRIORITY_TIER1
  /\ get_file_priority "package.json" = PRIORITY_TIER2
  /\ get_file_priority "src/app.py" = PRIORITY_TIER3
  /\ get_file_priority "tests/test_app.py" = PRIORITY_TIER4
  /\ get_file_priority "README.md" < get_file_priority "package.json"
  /\ get_file_priority "package.json" < get_file_priority "src/app.py"
  /\ get_file_priority "src/app.py" < get_file_priority "tests/test_app.py"
  /\ get_file_priority "tests/test_app.py" < PRIORITY_SKIP.
Proof. vm_compute. repeat split; reflexivity. Qed.

(** C3, as stated, fails: ["README.markdown"] is given Tier 1 although
    its case-normalized filename is none of the canonical README
    names. *)
Lemma tier1_not_only_canonical_names :
  ~ (forall p : string,
        get_file_priority p = PRIORITY_TIER1
        <-> is_canonical_readme (filename_of p) = true).
Proof.
  intros H. destruct (H "README.markdown") as [H1 _].
  specialize (H1 eq_refl). vm_compute in H1. discriminate.
Qed.

(** C3, amended. Tier 1 is assigned exactly when the upper-cased
    filename starts with [README]; this covers every letter-case variant
    of the canonical README names, and any other filename with that
    prefix. *)
Theorem tier1_iff_readme_prefix (p : string) :
  (get_file_priority p = PRIORITY_TIER1
   <-> PyStr.startswith (PyStr.upper (filename_of p)) "README" = true)
  /\ (is_canonical_readme (filename_of p) = true ->
      get_file_priority p = PRIORITY_TIER1).
Proof.
  assert (Hiff : get_file_priority p = PRIORITY_TIER1
                 <-> PyStr.startswith (PyStr.upper (filename_of p)) "README"
                     = true).
  { unfold get_file_priority, filename_of.
    destruct (PyStr.startswith _ "README"); [split; reflexivity |].
    split; [| discriminate].
    repeat match goal with
           | |- context [if ?c then _ else _] => destruct c
           end; discriminate. }
  split; [exact Hiff |].
  intros Hc. apply Hiff, canonical_readme_prefix, Hc.
Qed.

Lemma tier1_iff_readme_prefix_witness :
  get_file_priority "docs/ReadMe.TXT" = PRIORITY_TIER1
  /\ get_file_priority "README_old.exe" = PRIORITY_TIER1.
Proof.
  split.
  - apply (proj2 (tier1_iff_readme_prefix "docs/ReadMe.TXT")). reflexivity.
  - apply (proj1 (tier1_iff_readme_prefix "README_old.exe")). reflexivity.
Defined.

End Priority.

(** ** Claims about the tree renderers *)

Section TreeRendering.

Lemma cap_lines_over (lines : list string) :
  (V1.TREE_LINE_CAP < List.length lines)%nat ->
  V1.cap_lines lines
  = (firstn V1.TREE_LINE_CAP lines
       ++ [V1.more_entries_line (List.length lines - V1.TREE_LINE_CAP)])%list
  /\ List.length (V1.cap_lines lines) = S V1.TREE_LINE_CAP.
Proof.
  intros Hlen. unfold V1.cap_lines.
  apply Nat.ltb_lt in Hlen as Hb. rewrite Hb. split; [reflexivity |].
  rewrite length_app, length_firstn, Nat.min_l by lia.
  cbn [List.length]. lia.
Qed.

Lemma cap_lines_under (lines : list string) :
  (List.length lines <= V1.TREE_LINE_CAP)%nat -> V1.cap_lines lines = lines.
Proof.
  intros Hlen. unfold V1.cap_lines.
  apply Nat.ltb_ge in Hlen. rewrite Hlen. reflexivity.
Qed.

Import GithubClient.

Lemma add_parent_grows (parts : list string) (st : tree_state) (i : nat) :
  (List.length (result_lines st)
   <= List.length (result_lines (add_parent parts st i)))%nat.
Proof.
  unfold add_parent.
  destruct (negb (PyStr.mem _ (seen_dirs st))); cbn [result_lines].
  - rewrite length_app. lia.
  - lia.
Qed.

Lemma add_parents_grow (parts : list string) (idx : list nat)
      (st : tree_state) :
  (List.length (result_lines st)
   <= List.length (result_lines (fold_left (add_parent parts) idx st)))%nat.
Proof.
  revert st. induction idx as [| i idx IH]; intros st; simpl.
  - lia.
  - eapply Nat.le_trans; [apply (add_parent_grows parts st i) | apply IH].
Qed.

Lemma add_path_grows (st : tree_state) (p : string) :
  (S (List.length (result_lines st))
   <= List.length (result_lines (add_path st p)))%nat.
Proof.
  unfold add_path. cbn [result_lines]. rewrite length_app. simpl.
  pose proof (add_parents_grow
                (PyStr.split "/" p)
                (seq 0 (List.length (PyStr.split "/" p) - 1)) st).
  lia.
Qed.

Lemma add_paths_grow (paths : list string) (st : tree_state) :
  (List.length (result_lines st) + List.length paths
   <= List.length (result_lines (fold_left add_path paths st)))%nat.
Proof.
  revert st. induction paths as [| p paths IH]; intros st; simpl.
  - lia.
  - pose proof (add_path_grows st p). pose proof (IH (add_path st p)). lia.
Qed.

(** [build_directory_tree] gives every path a line of its own. *)
Lemma directory_tree_lines_length (paths : list string) :
  (List.length paths <= List.length (directory_tree_lines paths))%nat.
Proof.
  unfold directory_tree_lines.
  pose proof (add_paths_grow (sorted_strings paths)
                             {| seen_dirs := []; result_lines := [] |}) as H.
  cbn [result_lines List.length] in H.
  unfold sorted_strings in *.
  rewrite (Permutation_length (sort_by_perm PyStr.ltb (fun s => s) paths)) in H.
  lia.
Qed.

(** C6, as stated, fails for [build_directory_tree], the renderer that
    [fetch_repo_data] calls: on 201 paths it returns 201 lines, not the
    first 200 followed by a summary line. *)
Lemma directory_tree_is_not_capped :
  ~ (forall paths : list string,
        (V1.TREE_LINE_CAP < List.length (directory_tree_lines paths))%nat ->
        build_directory_tree paths
        = PyStr.join NL (V1.cap_lines (directory_tree_lines paths))).
Proof.
  intros H. specialize (H Examples.many_paths).
  assert (Hlen : (V1.TREE_LINE_CAP
                  < List.length (directory_tree_lines Examples.many_paths))%nat)
    by (vm_compute; lia).
  specialize (H Hlen). vm_compute in H. discriminate.
Qed.

(** C6, amended. [build_tree_string] caps its output at 200 lines: a
    longer rendering is cut to its first 200 lines followed by the one
    line [... and N more entries] with [N] the number of lines minus
    200, and a rendering of at most 200 lines is returned as it is.
    [build_directory_tree] has no ceiling: it returns all its lines, at
    least one per path. *)
Theorem tree_line_cap (paths : list string) :
  ((V1.TREE_LINE_CAP < List.length (V1.rendered_lines paths))%nat ->
   V1.build_tree_lines paths
   = (firstn 200 (V1.rendered_lines paths)
        ++ [V1.more_entries_line
              (List.length (V1.rendered_lines paths) - 200)])%list
   /\ List.length (V1.build_tree_lines paths) = 201%nat)
  /\ ((List.length (V1.rendered_lines paths) <= V1.TREE_LINE_CAP)%nat ->
      V1.build_tree_lines paths = V1.rendered_lines paths)
  /\ V1.build_tree_string paths = PyStr.join NL (V1.build_tree_lines paths)
  /\ (List.length paths <= List.length (directory_tree_lines paths))%nat
  /\ (paths <> [] ->
      build_directory_tree paths = PyStr.join NL (directory_tree_lines paths)).
Proof.
  split; [| split; [| split; [| split]]].
  - intros Hlen. apply (cap_lines_over _ Hlen).
  - apply cap_lines_under.
  - reflexivity.
  - apply directory_tree_lines_length.
  - intros Hne. destruct paths; [contradiction | reflexivity].
Qed.

Lemma tree_line_cap_witness :
  List.length (V1.build_tree_lines Examples.many_paths) = 201%nat
  /\ last (V1.build_tree_lines Examples.many_paths) EmptyString
     = "... and 1 more entries"
  /\ V1.build_tree_lines ["README.md"; "src/main.py"]
     = ["|-- README.md"; "`-- src"; "    `-- main.py"].
Proof.
  split; [| split].
  - apply (proj1 (tree_line_cap Examples.many_paths)). vm_compute. lia.
  - rewrite (proj1 (proj1 (tree_line_cap Examples.many_paths)
                          ltac:(vm_compute; lia))).
    vm_compute. reflexivity.
  - rewrite (proj1 (proj2 (tree_line_cap ["README.md"; "src/main.py"]))).
    + vm_compute. reflexivity.
    + vm_compute. lia.
Defined.

End TreeRendering.

(** ** Claims about [fetch_repo_data] *)

Section Dict.
Context {V : Type}.

Lemma dict_get_set_eq (k : string) (v : V) (d : PyDict.t V) :
  PyDict.get k (PyDict.set k v d) = Some v.
Proof.
  induction d as [| [k' v'] d IH]; simpl.
  - rewrite String.eqb_refl. reflexivity.
  - destruct (String.eqb k' k) eqn:E; simpl; rewrite E; [reflexivity | exact IH].
Qed.

Lemma dict_get_set_neq (k k' : string) (v : V) (d : PyDict.t V) :
  k <> k' -> PyDict.get k' (PyDict.set k v d) = PyDict.get k' d.
Proof.
  intros Hne. apply String.eqb_neq in Hne.
  induction d as [| [k0 v0] d IH]; simpl.
  - rewrite Hne. reflexivity.
  - destruct (String.eqb k0 k) eqn:E; simpl.
    + apply String.eqb_eq in E. subst k0. rewrite Hne. reflexivity.
    + rewrite IH. reflexivity.
Qed.

Lemma dict_get_nonempty (k : string) (v : V) (d : PyDict.t V) :
  PyDict.get k d = Some v -> is_nonempty d = true.
Proof. destruct d; [discriminate | reflexivity]. Qed.
End Dict.

Section FetchLoop.
Import FileFilter GithubClient.
Variable client_get : string -> reply text_response.
Variables owner_ repo_ branch_ : string.

Let url (p : string) : string := raw_url owner_ repo_ branch_ p.
Let loop := fetch_loop client_get owner_ repo_ branch_.

(** The mapping after the loop: a path whose fetch succeeds holds the
    truncated text, every other path is as it was before the loop. *)
Lemma fetch_loop_spec (selected : list file_info)
      (contents : PyDict.t string) (failed : list string) :
  (forall f, In f selected -> client_get (url (path f)) <> Failed OtherException) ->
  exists contents' failed',
    loop selected contents failed = Return (contents', failed')
    /\ (forall f r, In f selected ->
                    client_get (url (path f)) = Replied r ->
                    tx_status r = 200 ->
                    PyDict.get (path f) contents'
                    = Some (truncate_text (tx_text r)))
    /\ (forall p, (forall f, In f selected -> path f = p ->
                             fetch_fails (client_get (url p))) ->
                  PyDict.get p contents' = PyDict.get p contents).
Proof.
  revert contents failed.
  induction selected as [| f rest IH]; intros contents failed Hkinds.
  - exists contents, failed. split; [reflexivity |].
    split; [intros ? ? [] | reflexivity].
  - assert (Hrest : forall g, In g rest ->
              client_get (url (path g)) <> Failed OtherException)
      by (intros g Hg; apply Hkinds; right; exact Hg).
    assert (Hf := Hkinds f (or_introl eq_refl)).
    cbn [loop fetch_loop]. fold (url (path f)).
    destruct (client_get (url (path f))) as [r | e] eqn:Hreply.
    + destruct (Z.eqb_spec (tx_status r) 200) as [Hok | Hbad].
      * destruct (IH (PyDict.set (path f) (truncate_text (tx_text r)) contents)
                     failed Hrest) as (c' & f' & Hloop & Hgood & Hkeep).
        exists c', f'. split; [exact Hloop |]. split.
        -- intros g r' [<- | Hg] Hr' Hs.
           ++ destruct (in_dec string_dec (path f)
                               (map path rest)) as [Hin | Hnotin].
              ** apply in_map_iff in Hin. destruct Hin as (g & Hp & Hg).
                 rewrite <- Hp. apply (Hgood g r' Hg); [| exact Hs].
                 rewrite Hp. exact Hr'.
              ** rewrite Hkeep.
                 --- rewrite dict_get_set_eq. congruence.
                 --- intros g Hg Hp. exfalso. apply Hnotin.
                     apply in_map_iff. exists g. split; assumption.
           ++ apply (Hgood g r' Hg Hr' Hs).
        -- intros p Hp.
           assert (Hne : path f <> p).
           { intros Heq. specialize (Hp f (or_introl eq_refl) Heq).
             rewrite <- Heq, Hreply in Hp. simpl in Hp. contradiction. }
           rewrite Hkeep; [apply dict_get_set_neq, Hne |].
           intros g Hg. apply Hp. right. exact Hg.
      * destruct (IH contents (failed ++ [path f])%list Hrest)
          as (c' & f' & Hloop & Hgood & Hkeep).
        exists c', f'. split; [exact Hloop |]. split.
        -- intros g r' [<- | Hg] Hr' Hs; [congruence |].
           apply (Hgood g r' Hg Hr' Hs).
        -- intros p Hp. apply Hkeep. intros g Hg. apply Hp. right. exact Hg.
    + assert (Hstep : loop (f :: rest) contents failed
                      = loop rest contents (failed ++ [path f])%list).
      { cbn [loop fetch_loop]. fold (url (path f)). rewrite Hreply.
        destruct e; [reflexivity | reflexivity | contradiction]. }
      destruct (IH contents (failed ++ [path f])%list Hrest)
        as (c' & f' & Hloop & Hgood & Hkeep).
      exists c', f'.
      split; [destruct e; [exact Hloop | exact Hloop | contradiction] |].
      split.
      * intros g r' [<- | Hg] Hr' Hs; [congruence |].
        apply (Hgood g r' Hg Hr' Hs).
      * intros p Hp. apply Hkeep. intros g Hg. apply Hp. right. exact Hg.
Qed.
End FetchLoop.

Section Strings.
Lemma length_append (s1 s2 : string) :
  String.length (s1 ++ s2) = (String.length s1 + String.length s2)%nat.
Proof. induction s1 as [| c s1 IH]; simpl; [| rewrite IH]; reflexivity. Qed.

Lemma length_substring_0 (n : nat) (s : string) :
  String.length (String.substring 0 n s) = Nat.min n (String.length s).
Proof.
  revert s. induction n as [| n IH]; intros s.
  - destruct s; reflexivity.
  - destruct s as [| c s]; simpl; [| rewrite IH]; reflexivity.
Qed.
End Strings.

Section FetchRepoData.
Import FileFilter GithubClient.

Lemma truncate_text_short (text : string) :
  (String.length text <= FILE_TEXT_LIMIT)%nat -> truncate_text text = text.
Proof.
  intros H. unfold truncate_text. apply Nat.ltb_ge in H. rewrite H.
  reflexivity.
Qed.

Lemma truncate_text_long (text : string) :
  (FILE_TEXT_LIMIT < String.length text)%nat ->
  truncate_text text
  = PyStr.slice_to FILE_TEXT_LIMIT text ++ TRUNCATION_MARKER
  /\ String.length (truncate_text text)
     = (FILE_TEXT_LIMIT + String.length TRUNCATION_MARKER)%nat.
Proof.
  intros H. unfold truncate_text. apply Nat.ltb_lt in H as Hb. rewrite Hb.
  split; [reflexivity |].
  unfold PyStr.slice_to.
  rewrite length_append, length_substring_0, Nat.min_l by lia.
  reflexivity.
Qed.

Lemma truncate_text_length (text : string) :
  (String.length (truncate_text text)
   <= FILE_TEXT_LIMIT + String.length TRUNCATION_MARKER)%nat.
Proof.
  destruct (Nat.le_gt_cases (String.length text) FILE_TEXT_LIMIT) as [H | H].
  - rewrite truncate_text_short by exact H. lia.
  - rewrite (proj2 (truncate_text_long text H)). lia.
Qed.

(** Whatever the loop stores was fetched with status 200 and went
    through [truncate_text]. *)
Lemma fetch_loop_stored (client_get : string -> reply text_response)
      (o r b : string) (selected : list file_info)
      (contents : PyDict.t string) (failed : list string)
      (contents' : PyDict.t string) (failed' : list string) :
  fetch_loop client_get o r b selected contents failed
  = Return (contents', failed') ->
  forall p v, PyDict.get p contents' = Some v ->
    PyDict.get p contents = Some v
    \/ exists resp, client_get (raw_url o r b p) = Replied resp
                    /\ tx_status resp = 200
                    /\ v = truncate_text (tx_text resp).
Proof.
  revert contents failed.
  induction selected as [| f rest IH]; intros contents failed Hloop p v Hget.
  - injection Hloop as <- <-. left. exact Hget.
  - cbn [fetch_loop] in Hloop.
    destruct (client_get (raw_url o r b (path f))) as [resp | e] eqn:Hreply.
    + destruct (Z.eqb_spec (tx_status resp) 200) as [Hok | Hbad].
      * destruct (IH _ _ Hloop p v Hget) as [Hset | Hex]; [| right; exact Hex].
        destruct (string_dec (path f) p) as [<- | Hne].
        -- rewrite dict_get_set_eq in Hset. injection Hset as <-.
           right. exists resp. repeat split; assumption.
        -- rewrite dict_get_set_neq in Hset by exact Hne. left. exact Hset.
      * apply (IH _ _ Hloop p v Hget).
    + destruct e; try discriminate; apply (IH _ _ Hloop p v Hget).
Qed.

(** In the earlier version every failed fetch gives [None]: an
    exception, a status other than 200, or binary content. *)
Lemma v1_failed_fetch_gives_None (reply : option V1.raw_response) (p : string) :
  reply = None
  \/ (exists resp, reply = Some resp
                   /\ (V1.raw_status resp <> 200
                       \/ V1.looks_binary resp p = true)) ->
  V1.fetch_file_content reply p = None.
Proof.
  intros [-> | (resp & -> & [Hstatus | Hbin])]; [reflexivity | |];
    unfold V1.fetch_file_content.
  - apply Z.eqb_neq in Hstatus. rewrite Hstatus. reflexivity.
  - destruct (negb (V1.raw_status resp =? 200)); [reflexivity |].
    unfold V1.looks_binary in Hbin.
    destruct (PyStr.contains "application/octet-stream" _ && negb _);
      [reflexivity |].
    cbn [orb] in Hbin. rewrite Hbin. reflexivity.
Qed.

(** A path whose fetch gave [None] is skipped and the loop goes on
    from the same state. *)
Lemma v1_failed_fetch_is_skipped (client : string -> option V1.raw_response)
      (p : string) (rest : list string)
      (contents : PyDict.t string) (total_chars : Z) :
  V1.fetch_file_content (client p) p = None ->
  total_chars < V1.MAX_CONTENT_CHARS ->
  V1.fetch_loop client (p :: rest) contents total_chars
  = V1.fetch_loop client rest contents total_chars.
Proof.
  intros Hnone Hbudget. cbn [V1.fetch_loop].
  apply Z.leb_gt in Hbudget. rewrite Hbudget, Hnone. reflexivity.
Qed.

(** A text with a NUL among its first characters is not kept. *)
Example v1_binary_content_is_dropped :
  V1.fetch_file_content
    (Some (V1.mk_raw 200 "text/plain" ("PK" ++ V1.NUL ++ "data")))
    "assets/blob.txt"
  = None.
Proof. vm_compute. reflexivity. Qed.

(** One fetch that raises another exception ends the loop with that
    exception. *)
Lemma fetch_loop_aborts (client_get : string -> reply text_response)
      (o r b : string) (selected : list file_info)
      (contents : PyDict.t string) (failed : list string) :
  (exists f, In f selected
             /\ client_get (raw_url o r b (path f)) = Failed OtherException) ->
  fetch_loop client_get o r b selected contents failed
  = Raise (Uncaught OtherException).
Proof.
  revert contents failed.
  induction selected as [| f0 rest IH]; intros contents failed (f & Hin & Hf).
  - contradiction.
  - cbn [fetch_loop].
    assert (Hrest : client_get (raw_url o r b (path f0)) <> Failed OtherException ->
                    exists g, In g rest
                              /\ client_get (raw_url o r b (path g))
                                 = Failed OtherException).
    { intros Hne. destruct Hin as [<- | Hin]; [contradiction |].
      exists f. split; assumption. }
    destruct (client_get (raw_url o r b (path f0))) as [resp | []].
    + destruct (tx_status resp =? 200); apply IH, Hrest; discriminate.
    + apply IH, Hrest. discriminate.
    + apply IH, Hrest. discriminate.
    + reflexivity.
Qed.

(** The failures of the earlier [fetch_file_content]: an exception of
    the request, a status other than 200, or the binary-content tests. *)
Lemma v1_fetch_ok (reply : option V1.raw_response) (resp : V1.raw_response)
      (p : string) :
  reply = Some resp -> V1.raw_status resp = 200 ->
  V1.looks_binary resp p = false ->
  V1.fetch_file_content reply p
  = Some (PyStr.slice_to V1.MAX_FILE_CHARS (V1.raw_text resp)).
Proof.
  intros -> Hs Hb. unfold V1.fetch_file_content.
  apply Z.eqb_eq in Hs. rewrite Hs. cbn [negb].
  unfold V1.looks_binary in Hb. apply orb_false_iff in Hb.
  destruct Hb as [Hb1 Hb2]. rewrite Hb1, Hb2. reflexivity.
Qed.

Lemma v1_loop_full (client : string -> option V1.raw_response)
      (files : list string) (contents : PyDict.t string) (t : Z) :
  V1.MAX_CONTENT_CHARS <= t ->
  V1.fetch_loop client files contents t = (contents, t).
Proof.
  intros H. destruct files as [| p rest]; cbn [V1.fetch_loop]; [reflexivity |].
  apply Z.leb_le in H. rewrite H. reflexivity.
Qed.

(** The loop over a list in two parts. *)
Lemma v1_loop_app (client : string -> option V1.raw_response)
      (l1 l2 : list string) (contents : PyDict.t string) (t : Z) :
  V1.fetch_loop client (l1 ++ l2) contents t
  = V1.fetch_loop client l2 (fst (V1.fetch_loop client l1 contents t))
                  (snd (V1.fetch_loop client l1 contents t)).
Proof.
  revert contents t.
  induction l1 as [| p l1 IH]; intros contents t; [reflexivity |].
  cbn [app V1.fetch_loop].
  destruct (Z.leb_spec V1.MAX_CONTENT_CHARS t) as [Hfull | Hroom].
  - cbn [fst snd]. symmetry. apply v1_loop_full, Hfull.
  - destruct (V1.fetch_file_content (client p) p) as [c |]; [| apply IH].
    destruct (negb (String.eqb c EmptyString)); apply IH.
Qed.

(** What is stored for a path stays: a later fetch of the same path
    gives the same text. *)
Lemma v1_loop_keeps (client : string -> option V1.raw_response)
      (files : list string) (contents : PyDict.t string) (t : Z)
      (p v : string) :
  V1.fetch_file_content (client p) p = Some v ->
  PyDict.get p contents = Some v ->
  PyDict.get p (fst (V1.fetch_loop client files contents t)) = Some v.
Proof.
  intros Hfetch. revert contents t.
  induction files as [| q files IH]; intros contents t Hget;
    cbn [V1.fetch_loop]; [exact Hget |].
  destruct (V1.MAX_CONTENT_CHARS <=? t); [exact Hget |].
  destruct (V1.fetch_file_content (client q) q) as [c |] eqn:Hq;
    [| apply IH, Hget].
  destruct (negb (String.eqb c EmptyString)); [| apply IH, Hget].
  apply IH. destruct (string_dec q p) as [-> | Hne].
  - rewrite dict_get_set_eq. congruence.
  - rewrite dict_get_set_neq by exact Hne. exact Hget.
Qed.

(** A path whose fetch fails is never stored. *)
Lemma v1_loop_failed_absent (client : string -> option V1.raw_response)
      (files : list string) (contents : PyDict.t string) (t : Z) (p : string) :
  V1.fetch_file_content (client p) p = None ->
  PyDict.get p (fst (V1.fetch_loop client files contents t))
  = PyDict.get p contents.
Proof.
  intros Hfetch. revert contents t.
  induction files as [| q files IH]; intros contents t;
    cbn [V1.fetch_loop]; [reflexivity |].
  destruct (V1.MAX_CONTENT_CHARS <=? t); [reflexivity |].
  destruct (V1.fetch_file_content (client q) q) as [c |] eqn:Hq; [| apply IH].
  destruct (negb (String.eqb c EmptyString)); [| apply IH].
  rewrite IH. apply dict_get_set_neq. intros ->. congruence.
Qed.

(** Failed fetches leave the state of the loop as it was. *)
Lemma v1_loop_all_failed (client : string -> option V1.raw_response)
      (files : list string) (contents : PyDict.t string) (t : Z) :
  (forall q, In q files -> V1.fetch_file_content (client q) q = None) ->
  V1.fetch_loop client files contents t = (contents, t).
Proof.
  induction files as [| q files IH]; intros Hall; cbn [V1.fetch_loop];
    [reflexivity |].
  destruct (V1.MAX_CONTENT_CHARS <=? t); [reflexivity |].
  rewrite (Hall q (or_introl eq_refl)).
  apply IH. intros q' Hq'. apply Hall. right. exact Hq'.
Qed.

Lemma slice_to_nonempty (n : nat) (s : string) :
  (0 < n)%nat -> s <> EmptyString -> PyStr.slice_to n s <> EmptyString.
Proof.
  intros Hn Hs. destruct n as [| n]; [lia |].
  destruct s as [| c s]; [contradiction |].
  unfold PyStr.slice_to. cbn [String.substring]. discriminate.
Qed.

Lemma files_to_fetch_In (all_paths : list string) (p : string) :
  In p (V1.files_to_fetch all_paths) -> In p all_paths.
Proof.
  unfold V1.files_to_fetch, V1.candidate_paths. intros H.
  assert (Hin : forall (n : nat) (l : list string) (x : string),
             In x (firstn n l) -> In x l).
  { induction n as [| n IH]; intros [| y l] x; simpl; try tauto.
    intros [E | E]; [left; exact E | right; apply IH, E]. }
  apply Hin in H. apply sort_by_In in H. apply filter_In in H. tauto.
Qed.

(** C7. The service, [fetch_repo_data], once the repository document
    and the tree were obtained: a content fetch that raises an
    exception other than a timeout or an HTTP error ends the call with
    that exception; otherwise a selected path whose fetch fails
    (timeout, HTTP error, status other than 200) is absent from the
    content mapping, a selected path answered with 200 is present
    whatever its text (there is no binary-content test), and the call
    raises [EmptyResult] exactly when the mapping and the directory tree
    are both empty and returns the assembled data otherwise.  The
    earlier version, [gather_repo_context]: a path whose fetch fails
    (exception, status other than 200, binary content) is absent from
    the mapping; failed fetches leave the state of the loop as it was;
    a fetch that succeeds with a non-empty text, reached before the
    character limit, is stored cut to 8,000 characters; and when every
    fetch fails nothing is stored and the document is returned with its
    heading and tree only: there is no [EmptyResult] there. *)
Theorem fetch_failures_are_swallowed :
  (forall (settings : Settings) (owner repo : string)
          (info : repo_info) (data : tree_data)
          (client_get : string -> reply text_response),
      let tree_items := or_default (td_tree data) [] in
      let branch := or_default (ri_default_branch info) "main" in
      let tree_text := build_directory_tree (all_paths tree_items) in
      let selected := selected_files settings tree_items in
      ((exists f, In f selected
                  /\ client_get (raw_url owner repo branch (path f))
                     = Failed OtherException) ->
       fetch_repo_data settings owner repo
         (Replied (mk_json_response 200 (Some info)))
         (Replied (mk_json_response 200 (Some data)))
         client_get
       = Raise (Uncaught OtherException))
      /\ ((forall f, In f selected ->
                     client_get (raw_url owner repo branch (path f))
                     <> Failed OtherException) ->
          exists contents : PyDict.t string,
            (forall f, In f selected ->
                       fetch_fails
                         (client_get (raw_url owner repo branch (path f))) ->
                       PyDict.get (path f) contents = None)
            /\ (forall f resp, In f selected ->
                               client_get (raw_url owner repo branch (path f))
                               = Replied resp ->
                               tx_status resp = 200 ->
                               PyDict.get (path f) contents
                               = Some (truncate_text (tx_text resp)))
            /\ fetch_repo_data settings owner repo
                 (Replied (mk_json_response 200 (Some info)))
                 (Replied (mk_json_response 200 (Some data)))
                 client_get
               = if negb (is_nonempty contents) && String.eqb tree_text ""
                 then Raise EmptyResult
                 else Return
                   {| owner := owner;
                      repo := repo;
                      description := or_default (ri_description info) "";
                      stars := or_default (ri_stargazers_count info) 0;
                      forks := or_default (ri_forks_count info) 0;
                      language := or_default (ri_language info) "";
                      default_branch := branch;
                      directory_tree := tree_text;
                      file_contents := contents |}))
  /\ (forall (owner repo : string) (client : string -> option V1.raw_response)
             (all_paths : list string),
         let failed (p : string) :=
           client p = None
           \/ exists resp, client p = Some resp
                           /\ (V1.raw_status resp <> 200
                               \/ V1.looks_binary resp p = true) in
         (forall p, failed p ->
                    PyDict.get p (fst (V1.gather_contents client all_paths))
                    = None)
         /\ (forall files contents total_chars,
                (forall q, In q files -> failed q) ->
                V1.fetch_loop client files contents total_chars
                = (contents, total_chars))
         /\ (forall pre p rest resp,
                V1.files_to_fetch all_paths = (pre ++ p :: rest)%list ->
                snd (V1.fetch_loop client pre [] 0) < V1.MAX_CONTENT_CHARS ->
                client p = Some resp ->
                V1.raw_status resp = 200 ->
                V1.looks_binary resp p = false ->
                V1.raw_text resp <> EmptyString ->
                PyDict.get p (fst (V1.gather_contents client all_paths))
                = Some (String.substring 0 8000 (V1.raw_text resp)))
         /\ ((forall p, In p all_paths -> failed p) ->
             V1.gather_contents client all_paths = ([], 0)
             /\ V1.gather_repo_context owner repo client all_paths
                = PyStr.join NL
                    (V1.context_header
                       owner repo
                       (V1.build_tree_string (V1.candidate_paths all_paths))))).
Proof.
  split.
  - intros settings owner repo info data client_get
           tree_items branch tree_text selected.
    split.
    + intros Hother.
      unfold fetch_repo_data. cbn [js_status js_json Z.eqb negb].
      fold tree_items. fold branch. fold tree_text. fold selected.
      rewrite (fetch_loop_aborts client_get owner repo branch selected [] []
                                 Hother).
      reflexivity.
    + intros Hkinds.
      destruct (fetch_loop_spec client_get owner repo branch selected [] []
                                Hkinds)
        as (contents & failed & Hloop & Hgood & Hkeep).
      exists contents. split; [| split].
      * intros f Hf Hfails. rewrite Hkeep; [reflexivity |].
        intros g _ _. exact Hfails.
      * exact Hgood.
      * unfold fetch_repo_data. cbn [js_status js_json Z.eqb negb].
        fold tree_items. fold branch. fold tree_text. fold selected.
        rewrite Hloop. reflexivity.
  - intros owner repo client all_paths failed.
    assert (Hnone : forall p, failed p ->
                              V1.fetch_file_content (client p) p = None)
      by (intros p Hp; apply v1_failed_fetch_gives_None; exact Hp).
    split; [| split; [| split]].
    + intros p Hp. unfold V1.gather_contents.
      rewrite v1_loop_failed_absent by (apply Hnone, Hp). reflexivity.
    + intros files contents total_chars Hall.
      apply v1_loop_all_failed. intros q Hq. apply Hnone, Hall, Hq.
    + intros pre p rest resp Hfiles Hroom Hresp Hstatus Hbin Htext.
      unfold V1.gather_contents. rewrite Hfiles, v1_loop_app.
      pose proof (v1_fetch_ok (client p) resp p Hresp Hstatus Hbin) as Hok.
      assert (Hne : PyStr.slice_to V1.MAX_FILE_CHARS (V1.raw_text resp)
                    <> EmptyString).
      { apply slice_to_nonempty; [| exact Htext].
        apply Nat.ltb_lt. vm_compute. reflexivity. }
      cbn [V1.fetch_loop].
      apply Z.leb_gt in Hroom. rewrite Hroom, Hok.
      apply String.eqb_neq in Hne. rewrite Hne. cbn [negb].
      apply v1_loop_keeps; [exact Hok | apply dict_get_set_eq].
    + intros Hall.
      assert (Hempty : V1.gather_contents client all_paths = ([], 0)).
      { unfold V1.gather_contents. apply v1_loop_all_failed.
        intros q Hq. apply Hnone, Hall, files_to_fetch_In, Hq. }
      split; [exact Hempty |].
      unfold V1.gather_repo_context. rewrite Hempty.
      cbn [fst V1.context_files is_nonempty]. rewrite app_nil_r.
      reflexivity.
Qed.

Lemma fetch_failures_are_swallowed_witness :
  exists contents : PyDict.t string,
    (forall f,
        In f (selected_files default_settings
                (or_default (td_tree Examples.requests_tree) [])) ->
        fetch_fails (Examples.flaky_client
                       (raw_url "psf" "requests" "main" (path f))) ->
        PyDict.get (path f) contents = None)
    /\ (forall f resp,
           In f (selected_files default_settings
                   (or_default (td_tree Examples.requests_tree) [])) ->
           Examples.flaky_client (raw_url "psf" "requests" "main" (path f))
           = Replied resp ->
           tx_status resp = 200 ->
           PyDict.get (path f) contents
           = Some (truncate_text (tx_text resp)))
    /\ fetch_repo_data default_settings "psf" "requests"
         (Replied (mk_json_response 200 (Some Examples.requests_info)))
         (Replied (mk_json_response 200 (Some Examples.requests_tree)))
         Examples.flaky_client
       = if negb (is_nonempty contents)
            && String.eqb
                 (build_directory_tree
                    (all_paths (or_default (td_tree Examples.requests_tree) [])))
                 ""
         then Raise EmptyResult
         else Return
           {| owner := "psf";
              repo := "requests";
              description := "Python HTTP library";
              stars := 50000;
              forks := 9000;
              language := "Python";
              default_branch := "main";
              directory_tree :=
                build_directory_tree
                  (all_paths (or_default (td_tree Examples.requests_tree) []));
              file_contents := contents |}.
Proof.
  apply (proj2 (proj1 fetch_failures_are_swallowed
                  default_settings "psf" "requests"
                  Examples.requests_info Examples.requests_tree
                  Examples.flaky_client)).
  intros f Hf. vm_compute in Hf.
  destruct Hf as [<- | [<- | []]]; vm_compute; discriminate.
Defined.

(** C7, as stated, fails.  The service has no binary-content test: a
    text with a NUL character, which the earlier version's test
    rejects, is served with status 200 and stored.  A content fetch
    that raises another exception is not swallowed: the call ends with
    it although the tree is not empty.  And the earlier version has no
    [EmptyResult]: with an empty listing, nothing fetched and an empty
    tree, it returns its document. *)
Theorem fetch_failure_kinds_differ :
  V1.looks_binary (V1.mk_raw 200 "text/plain" Examples.blob_text)
                  "assets/blob.txt" = true
  /\ V1.fetch_file_content
       (Some (V1.mk_raw 200 "text/plain" Examples.blob_text))
       "assets/blob.txt" = None
  /\ fetch_repo_data default_settings "psf" "requests"
       (Replied (mk_json_response 200 (Some Examples.requests_info)))
       (Replied (mk_json_response 200 (Some Examples.blob_tree)))
       Examples.blob_client
     = Return
         {| owner := "psf";
            repo := "requests";
            description := "Python HTTP library";
            stars := 50000;
            forks := 9000;
            language := "Python";
            default_branch := "main";
            directory_tree := "assets/" ++ NL ++ "  blob.txt";
            file_contents := [("assets/blob.txt", Examples.blob_text)] |}
  /\ fetch_repo_data default_settings "psf" "requests"
       (Replied (mk_json_response 200 (Some Examples.requests_info)))
       (Replied (mk_json_response 200 (Some Examples.blob_tree)))
       Examples.broken_client
     = Raise (Uncaught OtherException)
  /\ V1.gather_contents Examples.dead_client [] = ([], 0)
  /\ V1.build_tree_string (V1.candidate_paths []) = EmptyString
  /\ V1.gather_repo_context "psf" "requests" Examples.dead_client []
     = "# Repository: psf/requests" ++ NL ++ NL
         ++ "## Directory Structure" ++ NL ++ "```" ++ NL ++ NL
         ++ "```" ++ NL.
Proof. vm_compute. repeat split; reflexivity. Qed.

(** The timed-out file is left out, the README is kept, no error. *)
Example one_fetch_times_out :
  fetch_repo_data default_settings "psf" "requests"
    (Replied (mk_json_response 200 (Some Examples.requests_info)))
    (Replied (mk_json_response 200 (Some Examples.requests_tree)))
    Examples.flaky_client
  = Return
      {| owner := "psf";
         repo := "requests";
         description := "Python HTTP library";
         stars := 50000;
         forks := 9000;
         language := "Python";
         default_branch := "main";
         directory_tree := "README.md" ++ NL ++ "src" ++ NL ++ "src/" ++ NL
                             ++ "  main.py";
         file_contents := [("README.md", "# Requests")] |}.
Proof. vm_compute. reflexivity. Qed.

(** An empty listing: nothing fetched, empty tree, [EmptyResult]. *)
Example empty_repository :
  fetch_repo_data default_settings "psf" "requests"
    (Replied (mk_json_response 200 (Some Examples.requests_info)))
    (Replied (mk_json_response 200 (Some (mk_tree_data (Some [])))))
    Examples.flaky_client
  = Raise EmptyResult.
Proof. vm_compute. reflexivity. Qed.

(** C10. Every value of the content mapping of a returned [RepoData] is
    the text of a response with status 200, cut by [truncate_text]: a
    text of at most 50,000 characters is stored unchanged, a longer one
    as its first 50,000 characters followed by the 17 characters of the
    marker; so no stored value is longer than 50,017 characters. *)
Theorem stored_contents_are_truncated
        (settings : Settings) (owner repo : string)
        (repo_reply : reply (json_response repo_info))
        (tree_reply : reply (json_response tree_data))
        (client_get : string -> reply text_response)
        (data : RepoData) :
  fetch_repo_data settings owner repo repo_reply tree_reply client_get
  = Return data ->
  forall p v, PyDict.get p (file_contents data) = Some v ->
    exists resp,
      client_get (raw_url owner repo (default_branch data) p) = Replied resp
      /\ tx_status resp = 200
      /\ ((String.length (tx_text resp) <= 50000)%nat -> v = tx_text resp)
      /\ ((50000 < String.length (tx_text resp))%nat ->
          v = String.substring 0 50000 (tx_text resp)
                ++ NL ++ NL ++ "... [truncated]")
      /\ (String.length v <= 50000 + 17)%nat.
Proof.
  unfold fetch_repo_data. intros Hret p v Hget.
  destruct repo_reply as [repo_resp | e]; [| discriminate].
  destruct (js_status repo_resp =? 404); [discriminate |].
  destruct (js_status repo_resp =? 403); [discriminate |].
  destruct (negb (js_status repo_resp =? 200)); [discriminate |].
  destruct (js_json repo_resp) as [info |]; [| discriminate].
  destruct tree_reply as [tree_resp | e]; [| discriminate].
  destruct (negb (js_status tree_resp =? 200)); [discriminate |].
  destruct (js_json tree_resp) as [td |]; [| discriminate].
  destruct (fetch_loop _ _ _ _ _ _ _) as [[contents failed] | e] eqn:Hloop;
    [| discriminate].
  destruct (negb (is_nonempty contents) && _); [discriminate |].
  injection Hret as <-. cbn [file_contents default_branch] in *.
  destruct (fetch_loop_stored _ _ _ _ _ _ _ _ _ Hloop p v Hget)
    as [Hnil | (resp & Hreply & Hok & ->)]; [discriminate |].
  exists resp. split; [exact Hreply |]. split; [exact Hok |].
  split; [| split].
  - intros Hshort. apply truncate_text_short. exact Hshort.
  - intros Hlong. apply (proj1 (truncate_text_long _ Hlong)).
  - apply truncate_text_length.
Qed.

Lemma stored_contents_are_truncated_witness :
  exists resp,
    Examples.flaky_client (raw_url "psf" "requests" "main" "README.md")
    = Replied resp
    /\ tx_status resp = 200
    /\ ((String.length (tx_text resp) <= 50000)%nat ->
        "# Requests" = tx_text resp)
    /\ ((50000 < String.length (tx_text resp))%nat ->
        "# Requests"
        = String.substring 0 50000 (tx_text resp)
            ++ NL ++ NL ++ "... [truncated]")
    /\ (String.length "# Requests" <= 50000 + 17)%nat.
Proof.
  refine (stored_contents_are_truncated
            default_settings "psf" "requests"
            (Replied (mk_json_response 200 (Some Examples.requests_info)))
            (Replied (mk_json_response 200 (Some Examples.requests_tree)))
            Examples.flaky_client
            {| owner := "psf";
               repo := "requests";
               description := "Python HTTP library";
               stars := 50000;
               forks := 9000;
               language := "Python";
               default_branch := "main";
               directory_tree := "README.md" ++ NL ++ "src" ++ NL ++ "src/"
                                   ++ NL ++ "  main.py";
               file_contents := [("README.md", "# Requests")] |}
            _ "README.md" "# Requests" _).
  - vm_compute. reflexivity.
  - reflexivity.
Defined.

(** A text of 50,001 characters is stored as 50,000 characters and the
    marker: 50,017 characters in all. *)
Example long_text_is_cut :
  String.length Examples.long_text = 50001%nat
  /\ truncate_text Examples.long_text
     = PyStr.repeat "x" 50000 ++ NL ++ NL ++ "... [truncated]"
  /\ String.length (truncate_text Examples.long_text) = 50017%nat
  /\ truncate_text "# Requests" = "# Requests".
Proof. repeat split; vm_compute; reflexivity. Qed.

End FetchRepoData.

(** ** Claims about [summarize] *)

Section Summarizer.
Import LlmSummarizer.
Variable json_loads : string -> option json.
Variable py_str : json -> string.

Lemma mem_keys_get {V : Type} (k : string) (d : PyDict.t V) :
  PyStr.mem k (PyDict.keys d) = false <-> PyDict.get k d = None.
Proof.
  unfold PyStr.mem, PyDict.keys.
  induction d as [| [k' v] d IH]; simpl; [split; reflexivity |].
  rewrite (String.eqb_sym k k').
  destruct (String.eqb k' k); simpl; [split; discriminate | exact IH].
Qed.

(** The fields found missing are exactly the required ones that the
    object does not have. *)
Lemma missing_fields_spec (members : PyDict.t json) (k : string) :
  In k (filter (fun k => negb (PyStr.mem k (PyDict.keys members))) REQUIRED)
  <-> In k REQUIRED /\ PyDict.get k members = None.
Proof.
  rewrite filter_In, negb_true_iff, mem_keys_get. reflexivity.
Qed.

Lemma parse_summary_not_json (raw : string) :
  json_loads (strip_fences raw) = None ->
  parse_summary json_loads py_str raw
  = Raise (SummarizerError
             (Text "LLM returned malformed response. Please try again.") 502).
Proof. intros H. unfold parse_summary. rewrite H. reflexivity. Qed.

Lemma parse_summary_missing (raw : string) (members : PyDict.t json) :
  json_loads (strip_fences raw) = Some (JObject members) ->
  (exists k, In k REQUIRED /\ PyDict.get k members = None) ->
  exists missing,
    (forall k, In k missing <-> In k REQUIRED /\ PyDict.get k members = None)
    /\ parse_summary json_loads py_str raw
       = Raise (SummarizerError (MissingFields missing) 502).
Proof.
  intros Hloads (k & Hk).
  exists (filter (fun k => negb (PyStr.mem k (PyDict.keys members))) REQUIRED).
  split; [intros k'; apply missing_fields_spec |].
  unfold parse_summary. rewrite Hloads.
  apply missing_fields_spec in Hk.
  destruct (filter _ REQUIRED); [contradiction | reflexivity].
Qed.

(** When no field is found missing, the three lookups succeed. *)
Lemma none_missing_all_present (members : PyDict.t json) :
  filter (fun k => negb (PyStr.mem k (PyDict.keys members))) REQUIRED = [] ->
  forall k, In k REQUIRED -> PyDict.get k members <> None.
Proof.
  intros Hmissing k Hk Hnone.
  assert (Hin : In k (filter (fun k => negb (PyStr.mem k (PyDict.keys members)))
                             REQUIRED))
    by (apply missing_fields_spec; split; assumption).
  rewrite Hmissing in Hin. contradiction.
Qed.

Lemma parse_summary_return (raw : string) (s : summary_result) :
  parse_summary json_loads py_str raw = Return s ->
  exists members,
    json_loads (strip_fences raw) = Some (JObject members)
    /\ (forall k, In k REQUIRED -> PyDict.get k members <> None).
Proof.
  unfold parse_summary.
  destruct (json_loads (strip_fences raw)) as [[| | | | | members] |];
    try discriminate.
  destruct (filter _ REQUIRED) as [| k0 missing] eqn:Hmissing;
    [| discriminate].
  intros _. exists members. split; [reflexivity |].
  apply none_missing_all_present, Hmissing.
Qed.

(** The lookups after the validation cannot fail. *)
Lemma parse_summary_no_KeyError (raw : string) :
  parse_summary json_loads py_str raw <> Raise KeyError.
Proof.
  unfold parse_summary.
  destruct (json_loads (strip_fences raw)) as [[| | | | | members] |];
    try discriminate.
  destruct (filter _ REQUIRED) as [| k0 missing] eqn:Hmissing;
    [| discriminate].
  pose proof (none_missing_all_present members Hmissing) as Hall.
  cbn [is_nonempty].
  destruct (PyDict.get "summary" members) eqn:H1;
    [| exfalso; apply (Hall "summary"); [simpl; tauto | exact H1]].
  destruct (PyDict.get "technologies" members) as [t |] eqn:H2;
    [| exfalso; apply (Hall "technologies"); [simpl; tauto | exact H2]].
  destruct (PyDict.get "structure" members) eqn:H3;
    [| exfalso; apply (Hall "structure"); [simpl; tauto | exact H3]].
  destruct (py_list t); discriminate.
Qed.

(** A decoded value that is not an object has no [keys]: the
    validation raises [AttributeError], not [SummarizerError]. *)
Lemma parse_summary_not_object (raw : string) (v : json) :
  json_loads (strip_fences raw) = Some v ->
  (forall members, v <> JObject members) ->
  parse_summary json_loads py_str raw = Raise AttributeError.
Proof.
  intros Hloads Hv. unfold parse_summary. rewrite Hloads.
  destruct v; try reflexivity. exfalso. apply (Hv members). reflexivity.
Qed.

Lemma summarize_content (key raw : string) (rest : list (option string)) :
  key <> "" ->
  summarize json_loads py_str key (Completion (Some raw :: rest))
  = if String.eqb raw ""
    then Raise (SummarizerError (Text "LLM returned empty response") 502)
    else parse_summary json_loads py_str raw.
Proof.
  intros Hkey. unfold summarize.
  apply String.eqb_neq in Hkey. rewrite Hkey. reflexivity.
Qed.

(** C8, amended. With the API key configured and a backend reply whose
    first choice has the content [raw]: if [raw], once surrounding
    white space and Markdown fences are stripped, is not JSON, or is a
    JSON object that lacks one of [summary], [technologies],
    [structure], the result is a [SummarizerError] with status 502; a
    summary is returned only when the stripped text decodes to an
    object that has all three fields. *)
Theorem malformed_backend_output
        (key raw : string) (rest : list (option string)) :
  key <> "" ->
  (json_loads (strip_fences raw) = None ->
   exists e, summarize json_loads py_str key (Completion (Some raw :: rest))
             = Raise e
             /\ is_DownstreamMalformed e = true)
  /\ (forall members,
         json_loads (strip_fences raw) = Some (JObject members) ->
         (exists k, In k REQUIRED /\ PyDict.get k members = None) ->
         exists e, summarize json_loads py_str key (Completion (Some raw :: rest))
                   = Raise e
                   /\ is_DownstreamMalformed e = true)
  /\ (forall s,
         summarize json_loads py_str key (Completion (Some raw :: rest))
         = Return s ->
         exists members,
           json_loads (strip_fences raw) = Some (JObject members)
           /\ (forall k, In k REQUIRED -> PyDict.get k members <> None)).
Proof.
  intros Hkey. rewrite (summarize_content key raw rest Hkey).
  destruct (String.eqb raw "").
  - split; [| split].
    + intros _. eexists. split; reflexivity.
    + intros members _ _. eexists. split; reflexivity.
    + discriminate.
  - split; [| split].
    + intros Hnone. rewrite (parse_summary_not_json raw Hnone).
      eexists. split; reflexivity.
    + intros members Hloads Hmiss.
      destruct (parse_summary_missing raw members Hloads Hmiss)
        as (missing & _ & ->).
      eexists. split; reflexivity.
    + apply parse_summary_return.
Qed.

End Summarizer.

Section SummarizerExamples.
Import LlmSummarizer.

(** C8, as stated, fails: the fenced reply is not JSON, and the
    summarizer strips the fence and returns the summary. *)
Lemma fenced_reply_is_accepted :
Examples.sample_loads Examples.fenced_reply = None
/\ summarize Examples.sample_loads Examples.sample_str "sk-test"
             (Completion [Some Examples.fenced_reply])
   = Return {| summary := "An HTTP library.";
               technologies := [JString "Python"];
               structure := "One package." |}.
Proof. split; vm_compute; reflexivity. Qed.

Lemma malformed_backend_output_witness :
  (Examples.sample_loads (strip_fences "Not valid JSON") = None ->
   exists e, summarize Examples.sample_loads Examples.sample_str "sk-test"
                       (Completion [Some "Not valid JSON"])
             = Raise e
             /\ is_DownstreamMalformed e = true)
  /\ (forall members,
         Examples.sample_loads (strip_fences "Not valid JSON")
         = Some (JObject members) ->
         (exists k, In k REQUIRED /\ PyDict.get k members = None) ->
         exists e, summarize Examples.sample_loads Examples.sample_str "sk-test"
                             (Completion [Some "Not valid JSON"])
                   = Raise e
                   /\ is_DownstreamMalformed e = true)
  /\ (forall s,
         summarize Examples.sample_loads Examples.sample_str "sk-test"
                   (Completion [Some "Not valid JSON"])
         = Return s ->
         exists members,
           Examples.sample_loads (strip_fences "Not valid JSON")
           = Some (JObject members)
           /\ (forall k, In k REQUIRED -> PyDict.get k members <> None)).
Proof.
  apply (malformed_backend_output
           Examples.sample_loads Examples.sample_str
           "sk-test" "Not valid JSON" []).
  discriminate.
Defined.

(** The scenario of the test suite, and an object without [structure]. *)
Example not_valid_json :
  summarize Examples.sample_loads Examples.sample_str "sk-test"
            (Completion [Some "Not valid JSON"])
  = Raise (SummarizerError
             (Text "LLM returned malformed response. Please try again.") 502)
  /\ summarize Examples.sample_loads Examples.sample_str "sk-test"
               (Completion [Some Examples.partial_text])
     = Raise (SummarizerError (MissingFields ["structure"]) 502).
Proof. split; vm_compute; reflexivity. Qed.

(** A JSON array lacks the three fields, and the result is an
    [AttributeError], which is not a [SummarizerError]. *)
Example json_array_raises_attribute_error :
  summarize Examples.sample_loads Examples.sample_str "sk-test"
            (Completion [Some "[1, 2, 3]"])
  = Raise AttributeError
  /\ is_DownstreamMalformed AttributeError = false.
Proof. split; vm_compute; reflexivity. Qed.

End SummarizerExamples.

(** ** The repository's tests, replayed on the model *)

Section ReplayedTests.
Import FileFilter.

Example test_should_exclude_path :
  map should_exclude_path
      [ "node_modules/express/index.js"; "vendor/autoload.php";
        "__pycache__/module.cpython-310.pyc"; ".git/config";
        ".venv/lib/python3.10/site.py"; "src/main.py"; "README.md";
        "images/logo.png"; "fonts/arial.woff2"; "package-lock.json";
        "poetry.lock"; "yarn.lock"; "dist/app.min.js"; "styles/main.min.css" ]
  = [ true; true; true; true; true; false; false;
      true; true; true; true; true; true; true ].
Proof. vm_compute. reflexivity. Qed.

Example test_get_file_priority :
  map get_file_priority
      [ "README.md"; "README.rst"; "package.json"; "pyproject.toml";
        "Dockerfile"; ".github/workflows/ci.yml"; "main.py"; "src/app.py";
        "src/utils/helpers/format.py"; "tests/test_app.py" ]
  = [ 1; 1; 2; 2; 2; 2; 3; 3; 3; 4 ].
Proof. vm_compute. reflexivity. Qed.

Example test_selects_within_budget :
  map path
      (rank_and_select_files
         [ mk_file "README.md" (Some 500); mk_file "src/main.py" (Some 300);
           mk_file "src/utils.py" (Some 200) ] 900)
  = [ "README.md"; "src/main.py" ].
Proof. vm_compute. reflexivity. Qed.

Example test_respects_budget :
  rank_and_select_files Examples.two_large_files 700
  = [ mk_file "README.md" (Some 600) ].
Proof. vm_compute. reflexivity. Qed.

Example test_readme_selected_first :
  map path
      (rank_and_select_files
         [ mk_file "src/main.py" (Some 100); mk_file "README.md" (Some 100);
           mk_file "package.json" (Some 100) ] 10000)
  = [ "README.md"; "package.json"; "src/main.py" ].
Proof. vm_compute. reflexivity. Qed.

Example test_empty_list : rank_and_select_files [] 10000 = [].
Proof. reflexivity. Qed.

Example test_skips_excluded_files :
  map path
      (rank_and_select_files
         [ mk_file "README.md" (Some 100);
           mk_file "node_modules/foo.js" (Some 100) ] 10000)
  = [ "README.md" ].
Proof. vm_compute. reflexivity. Qed.

Example test_simple_tree :
  GithubClient.directory_tree_lines
    [ "README.md"; "src/main.py"; "src/utils.py"; "tests/test_main.py" ]
  = [ "README.md"; "src/"; "  main.py"; "  utils.py"; "tests/";
      "  test_main.py" ].
Proof. vm_compute. reflexivity. Qed.

Example test_empty_paths : GithubClient.build_directory_tree [] = EmptyString.
Proof. reflexivity. Qed.

End ReplayedTests.

(** * Further properties of the code *)

(** ** Splitting paths *)

Section PathSplitting.

Lemma split_nonempty (sep : ascii) (s : string) : PyStr.split sep s <> [].
Proof.
  destruct s as [| c s]; simpl; [discriminate |].
  destruct (Ascii.eqb c sep); [discriminate |].
  destruct (PyStr.split sep s); discriminate.
Qed.

(** Splitting at an occurrence of the separator splits the parts. *)
Lemma split_app (sep : ascii) (a b : string) :
  PyStr.split sep (a ++ String sep b)
  = (PyStr.split sep a ++ PyStr.split sep b)%list.
Proof.
  induction a as [| c a IH]; simpl.
  - rewrite Ascii.eqb_refl. reflexivity.
  - destruct (Ascii.eqb c sep); [rewrite IH; reflexivity |].
    rewrite IH.
    pose proof (split_nonempty sep a) as Hne.
    destruct (PyStr.split sep a) as [| w ws]; [contradiction | reflexivity].
Qed.

(** A string without the separator is its own single part. *)
Lemma split_single (sep : ascii) (s : string) :
  PyStr.count sep s = 0 -> PyStr.split sep s = [s].
Proof.
  induction s as [| c s IH]; simpl; [reflexivity |].
  assert (Hpos : 0 <= PyStr.count sep s).
  { clear. induction s as [| c s IH]; simpl; [lia |].
    destruct (Ascii.eqb c sep); lia. }
  destruct (Ascii.eqb c sep); [lia |].
  intros H. rewrite IH by lia. reflexivity.
Qed.

Lemma last_part_app (l1 l2 : list string) :
  l2 <> [] -> PyStr.last_part (l1 ++ l2) = PyStr.last_part l2.
Proof.
  intros Hne. unfold PyStr.last_part.
  induction l1 as [| x l1 IH]; [reflexivity |].
  cbn [app]. destruct (l1 ++ l2)%list eqn:E.
  - apply app_eq_nil in E. destruct E. contradiction.
  - rewrite <- IH. reflexivity.
Qed.

Lemma init_parts_app (l1 l2 : list string) :
  l2 <> [] -> PyStr.init_parts (l1 ++ l2) = (l1 ++ PyStr.init_parts l2)%list.
Proof. intros Hne. apply removelast_app. exact Hne. Qed.

(** The filename of [dir/name] is [name] when [name] has no slash. *)
Lemma filename_of_join (dir name : string) :
  PyStr.count "/" name = 0 ->
  FileFilter.filename_of (dir ++ "/" ++ name) = name.
Proof.
  intros Hname. unfold FileFilter.filename_of.
  change (dir ++ "/" ++ name) with (dir ++ String "/"%char name).
  rewrite split_app, last_part_app by apply split_nonempty.
  rewrite split_single by exact Hname. reflexivity.
Qed.

End PathSplitting.

(** ** More about [should_exclude_path] and [get_file_priority] *)

Section FilterRules.
Import FileFilter.

Lemma mem_true_In (x : string) (S : list string) :
  In x S -> PyStr.mem x S = true.
Proof. apply mem_In. Qed.

(** No name of the constant sets holds a slash. *)
Lemma constant_names_have_no_slash :
  Forall (fun d => PyStr.count "/" d = 0)
         (EXCLUDED_DIRS ++ TIER2_FILENAMES ++ TIER3_ENTRY_POINTS
            ++ EXCLUDED_FILENAMES)%list.
Proof. repeat constructor. Qed.

Lemma excluded_dir_no_slash (d : string) :
  In d EXCLUDED_DIRS -> PyStr.count "/" d = 0.
Proof.
  intros Hd. pose proof constant_names_have_no_slash as H.
  rewrite Forall_forall in H. apply H. apply in_or_app. left. exact Hd.
Qed.

Lemma tier2_name_no_slash (n : string) :
  In n TIER2_FILENAMES -> PyStr.count "/" n = 0.
Proof.
  intros Hn. pose proof constant_names_have_no_slash as H.
  rewrite Forall_forall in H. apply H.
  apply in_or_app. right. apply in_or_app. left. exact Hn.
Qed.

(** X1. [get_file_priority] returns one of the five tier constants. *)
Theorem priority_is_a_tier (p : string) :
  In (get_file_priority p)
     [PRIORITY_TIER1; PRIORITY_TIER2; PRIORITY_TIER3; PRIORITY_TIER4;
      PRIORITY_SKIP].
Proof.
  unfold get_file_priority.
  repeat match goal with
         | |- context [if ?c then _ else _] => destruct c
         end; simpl; tauto.
Qed.

(** X2. A path with a directory segment named in [EXCLUDED_DIRS] is
    excluded, at the top level or below any prefix, whatever follows
    the segment. *)
Theorem path_under_excluded_dir (dir rest : string) :
  In dir EXCLUDED_DIRS ->
  should_exclude_path (dir ++ "/" ++ rest) = true
  /\ (forall pre, should_exclude_path (pre ++ "/" ++ dir ++ "/" ++ rest) = true).
Proof.
  intros Hdir.
  assert (Hsplit : PyStr.split "/" (dir ++ "/" ++ rest)
                   = (dir :: PyStr.split "/" rest)%list).
  { change (dir ++ "/" ++ rest) with (dir ++ String "/"%char rest).
    rewrite split_app, split_single by (apply excluded_dir_no_slash, Hdir).
    reflexivity. }
  assert (Hinit : forall l, In dir (PyStr.init_parts
                                      (l ++ dir :: PyStr.split "/" rest))).
  { intros l.
    rewrite init_parts_app by discriminate.
    apply in_or_app. right.
    change (dir :: PyStr.split "/" rest)
      with ([dir] ++ PyStr.split "/" rest)%list.
    rewrite init_parts_app by apply split_nonempty.
    left. reflexivity. }
  assert (Hex : forall l,
             existsb (fun part => PyStr.mem part EXCLUDED_DIRS)
                     (PyStr.init_parts (l ++ dir :: PyStr.split "/" rest))
             = true).
  { intros l. apply existsb_exists. exists dir.
    split; [apply Hinit | apply mem_true_In, Hdir]. }
  split.
  - unfold should_exclude_path. rewrite Hsplit.
    pose proof (Hex []) as H0. cbn [app] in H0. rewrite H0. reflexivity.
  - intros pre. unfold should_exclude_path.
    change (pre ++ "/" ++ dir ++ "/" ++ rest)
      with (pre ++ String "/"%char (dir ++ "/" ++ rest)).
    rewrite split_app, Hsplit, Hex. reflexivity.
Qed.

Lemma path_under_excluded_dir_witness :
  should_exclude_path ("node_modules" ++ "/" ++ "express/index.js") = true
  /\ (forall pre,
         should_exclude_path
           (pre ++ "/" ++ "node_modules" ++ "/" ++ "express/index.js") = true).
Proof.
  apply (path_under_excluded_dir "node_modules" "express/index.js").
  left. reflexivity.
Defined.

Lemma tier2_names_are_not_readme :
  Forall (fun n => PyStr.startswith (PyStr.upper n) "README" = false)
         TIER2_FILENAMES.
Proof. repeat constructor. Qed.

(** X3. A file named in [TIER2_FILENAMES] is Tier 2 in every
    directory. *)
Theorem manifest_is_tier2_anywhere (name : string) :
  In name TIER2_FILENAMES ->
  get_file_priority name = PRIORITY_TIER2
  /\ (forall dir, get_file_priority (dir ++ "/" ++ name) = PRIORITY_TIER2).
Proof.
  intros Hname.
  assert (Hnr : PyStr.startswith (PyStr.upper name) "README" = false).
  { pose proof tier2_names_are_not_readme as H.
    rewrite Forall_forall in H. apply H, Hname. }
  assert (Hfile : forall p, filename_of p = name ->
                            get_file_priority p = PRIORITY_TIER2).
  { intros p Hp. unfold get_file_priority. unfold filename_of in Hp.
    rewrite Hp, Hnr, (mem_true_In _ _ Hname). reflexivity. }
  split.
  - apply Hfile. unfold filename_of.
    rewrite split_single by (apply tier2_name_no_slash, Hname). reflexivity.
  - intros dir. apply Hfile, filename_of_join, tier2_name_no_slash, Hname.
Qed.

Lemma manifest_is_tier2_anywhere_witness :
  get_file_priority "Dockerfile" = PRIORITY_TIER2
  /\ (forall dir, get_file_priority (dir ++ "/" ++ "Dockerfile")
                  = PRIORITY_TIER2).
Proof.
  apply (manifest_is_tier2_anywhere "Dockerfile").
  vm_compute. tauto.
Defined.

End FilterRules.
(** ** More about [rank_and_select_files] *)

Section SelectionMore.
Import FileFilter.

Lemma subseq_Permutation {A : Type} (l1 l2 : list A) :
  subseq l1 l2 -> exists rest, Permutation (l1 ++ rest) l2.
Proof.
  induction 1 as [| x l1 l2 _ (rest & IH) | x l1 l2 _ (rest & IH)].
  - exists []. constructor.
  - exists (x :: rest).
    apply Permutation_sym, Permutation_cons_app, Permutation_sym, IH.
  - exists rest. simpl. apply perm_skip, IH.
Qed.

Lemma subseq_length {A : Type} (l1 l2 : list A) :
  subseq l1 l2 -> (List.length l1 <= List.length l2)%nat.
Proof. induction 1; simpl; lia. Qed.

Lemma selection_subseq_candidates (files : list file_info) (B : Z) :
  subseq (rank_and_select_files files B) (candidates files).
Proof.
  unfold rank_and_select_files, select_within_budget.
  destruct (select_loop_extends B (candidates files) [] 0) as (ext & -> & Hs).
  exact Hs.
Qed.

(** X4. The selection takes its entries from the input and gives none
    more often than the input has it: together with some remainder it
    is a permutation of the input. *)
Theorem selection_is_part_of_input (files : list file_info) (B : Z) :
  exists rest, Permutation (rank_and_select_files files B ++ rest) files.
Proof.
  destruct (subseq_Permutation _ _ (selection_subseq_candidates files B))
    as (r1 & H1).
  assert (Hs : subseq (eligible_files files) files).
  { unfold eligible_files. eapply subseq_trans; apply subseq_filter. }
  destruct (subseq_Permutation _ _ Hs) as (r2 & H2).
  exists (r1 ++ r2)%list. rewrite app_assoc.
  eapply Permutation_trans; [| exact H2].
  apply Permutation_app_tail.
  eapply Permutation_trans; [exact H1 |].
  apply sort_by_perm.
Qed.

(** A sorted list is left as it is by the sort. *)
Lemma sort_by_sorted_id {A K : Type} (ltb : K -> K -> bool) (key : A -> K)
      (l : list A) :
  StronglySorted (fun a b => ltb (key b) (key a) = false) l ->
  sort_by ltb key l = l.
Proof.
  induction 1 as [| x l _ IH Hall]; [reflexivity |].
  cbn [sort_by]. rewrite IH.
  destruct l as [| y ys]; [reflexivity |].
  cbn [insert_by]. inversion Hall as [| ? ? Hxy _]; subst.
  rewrite Hxy. reflexivity.
Qed.

Lemma filter_all {A : Type} (p : A -> bool) (l : list A) :
  Forall (fun a => p a = true) l -> filter p l = l.
Proof.
  induction 1 as [| x l Hx _ IH]; simpl; [reflexivity |].
  rewrite Hx, IH. reflexivity.
Qed.

(** Walking only what a walk accepted accepts all of it again. *)
Lemma select_loop_replay (B : Z) (l sel : list file_info) (t : Z) :
  exists ext,
    subseq ext l
    /\ fst (select_loop B l sel t) = (sel ++ ext)%list
    /\ select_loop B ext sel t = select_loop B l sel t.
Proof.
  revert sel t. induction l as [| f l IH]; intros sel t.
  - exists []. rewrite app_nil_r. repeat split. constructor.
  - cbn [select_loop].
    destruct ((B <? t + get_size f) && is_nonempty sel) eqn:Hc.
    + destruct (IH sel t) as (ext & Hs & Hfst & Hrun).
      exists ext. split; [apply subseq_skip, Hs |]. split; assumption.
    + destruct (IH (sel ++ [f])%list (t + get_size f))
        as (ext & Hs & Hfst & Hrun).
      exists (f :: ext). split; [apply subseq_keep, Hs |].
      split; [rewrite Hfst, <- app_assoc; reflexivity |].
      cbn [select_loop]. rewrite Hc. exact Hrun.
Qed.

(** X5. Selecting again from a selection, with the same budget, returns
    it unchanged. *)
Theorem selection_is_idempotent (files : list file_info) (B : Z) :
  rank_and_select_files (rank_and_select_files files B) B
  = rank_and_select_files files B.
Proof.
  set (sel := rank_and_select_files files B).
  assert (Hcand : candidates sel = sel).
  { unfold candidates.
    assert (Hel : eligible_files sel = sel).
    { rewrite eligible_files_filter. apply filter_all.
      pose proof (selection_subseq_candidates files B) as Hs.
      rewrite Forall_forall. intros f Hf.
      apply (subseq_In _ _ _ Hs), candidates_In in Hf. apply Hf. }
    rewrite Hel. apply sort_by_sorted_id.
    eapply subseq_StronglySorted;
      [apply selection_subseq_candidates | apply candidates_sorted]. }
  unfold rank_and_select_files at 1. rewrite Hcand.
  unfold sel, rank_and_select_files, select_within_budget.
  destruct (select_loop_replay B (candidates files) [] 0)
    as (ext & _ & Hfst & Hrun).
  rewrite Hfst. cbn [app]. rewrite Hrun, Hfst. reflexivity.
Qed.

Lemma total_size_perm (l1 l2 : list file_info) :
  Permutation l1 l2 -> total_size l1 = total_size l2.
Proof.
  unfold total_size. induction 1; simpl; lia.
Qed.

Lemma select_loop_all_fit (B : Z) (l sel : list file_info) (t : Z) :
  Forall (fun f => 0 <= get_size f) l ->
  t + total_size l <= B ->
  select_loop B l sel t = ((sel ++ l)%list, t + total_size l).
Proof.
  intros Hall. revert sel t.
  induction Hall as [| f l Hf Hall IH]; intros sel t Hfit.
  - unfold total_size. simpl. rewrite app_nil_r, Z.add_0_r. reflexivity.
  - assert (Hl : 0 <= total_size l).
    { clear - Hall. unfold total_size.
      induction Hall; simpl; lia. }
    unfold total_size in *. cbn [fold_right select_loop] in *.
    replace (B <? t + get_size f) with false
      by (symmetry; apply Z.ltb_ge; lia).
    cbn [andb]. rewrite IH by lia.
    rewrite <- app_assoc. f_equal. lia.
Qed.

(** X6. When the eligible entries, of non-negative size, fit in the
    budget together, every one of them is returned: the selection is
    the whole sorted candidate list and what it consumes is their total
    size. *)
Theorem everything_fits (files : list file_info) (B : Z) :
  (forall f, In f files -> 0 <= get_size f) ->
  total_size (filter is_eligible files) <= B ->
  rank_and_select_files files B = candidates files
  /\ consumed_chars files B = total_size (filter is_eligible files).
Proof.
  intros Hsizes Hfit.
  assert (Hperm : Permutation (candidates files) (filter is_eligible files)).
  { unfold candidates. rewrite <- eligible_files_filter. apply sort_by_perm. }
  rewrite <- (total_size_perm _ _ Hperm) in *.
  unfold rank_and_select_files, consumed_chars, select_within_budget.
  rewrite select_loop_all_fit.
  - split; reflexivity.
  - rewrite Forall_forall. intros f Hf.
    apply candidates_In in Hf. apply Hsizes, Hf.
  - lia.
Qed.

Lemma everything_fits_witness :
  rank_and_select_files Examples.three_files 1200
  = candidates Examples.three_files
  /\ consumed_chars Examples.three_files 1200
     = total_size (filter is_eligible Examples.three_files).
Proof.
  apply (everything_fits Examples.three_files 1200).
  - intros f [<- | [<- | [<- | []]]]; discriminate.
  - vm_compute. discriminate.
Defined.

(** X7. When some entry is eligible, the first returned entry is an
    eligible entry of the input whose key is the least: no eligible
    entry has a smaller key, whatever the budget and the sizes. *)
Theorem first_selected_has_least_key (files : list file_info) (B : Z)
        (f : file_info) :
  In f files -> is_eligible f = true ->
  exists c rest,
    rank_and_select_files files B = c :: rest
    /\ In c files /\ is_eligible c = true
    /\ (forall g, In g files -> is_eligible g = true ->
                  key_lex_le (_sort_key c) (_sort_key g)).
Proof.
  intros Hin Hel.
  assert (Hf : In f (candidates files)) by (apply candidates_In; tauto).
  pose proof (candidates_sorted files) as Hsorted.
  unfold rank_and_select_files.
  destruct (candidates files) as [| c cs] eqn:Hc; [contradiction |].
  rewrite select_within_budget_cons.
  destruct (select_loop_extends B cs [c] (get_size c)) as (ext & -> & _).
  exists c, ext. split; [reflexivity |].
  assert (Hcin : In c (candidates files)) by (rewrite Hc; left; reflexivity).
  apply candidates_In in Hcin. destruct Hcin as [Hc1 Hc2].
  split; [exact Hc1 |]. split; [exact Hc2 |].
  intros g Hg Hge.
  assert (Hgc : In g (c :: cs)) by (rewrite <- Hc; apply candidates_In; tauto).
  inversion Hsorted as [| ? ? _ Hall]; subst.
  destruct Hgc as [<- | Hgc].
  - apply key_le_lex. unfold key_le.
    rewrite <- not_true_iff_false. intros Hlt.
    pose proof (key_ltb_asym _ _ Hlt). congruence.
  - rewrite Forall_forall in Hall. apply key_le_lex, Hall, Hgc.
Qed.

Lemma first_selected_has_least_key_witness :
  exists c rest,
    rank_and_select_files Examples.mixed_files 1 = c :: rest
    /\ In c Examples.mixed_files /\ is_eligible c = true
    /\ (forall g, In g Examples.mixed_files -> is_eligible g = true ->
                  key_lex_le (_sort_key c) (_sort_key g)).
Proof.
  apply (first_selected_has_least_key
           Examples.mixed_files 1 (mk_file "README.md" (Some 100))).
  - right. right. left. reflexivity.
  - reflexivity.
Defined.

End SelectionMore.
(** ** Independence of the input order *)

Section SortedUnique.
Context {A K : Type}.
Variable ltb : K -> K -> bool.
Variable key : A -> K.
Hypothesis ltb_antisym :
  forall a b, ltb a b = false -> ltb b a = false -> a = b.

Let le (a b : A) : Prop := ltb (key b) (key a) = false.

(** Two sorted lists with the same elements are equal, as long as
    elements with the same key are the same element. *)
Lemma sorted_perm_eq (l1 l2 : list A) :
  (forall x y, In x l1 -> In y l1 -> key x = key y -> x = y) ->
  StronglySorted le l1 -> StronglySorted le l2 ->
  Permutation l1 l2 -> l1 = l2.
Proof.
  revert l2. induction l1 as [| x l1 IH]; intros l2 Hinj H1 H2 Hperm.
  - apply Permutation_nil in Hperm. subst. reflexivity.
  - destruct l2 as [| y l2];
      [apply Permutation_sym, Permutation_nil in Hperm; discriminate |].
    inversion H1 as [| ? ? H1' Hx]; subst.
    inversion H2 as [| ? ? H2' Hy]; subst.
    rewrite Forall_forall in Hx, Hy.
    assert (Hxy : x = y).
    { assert (Hxin : In x (y :: l2))
        by (apply (Permutation_in _ Hperm); left; reflexivity).
      assert (Hyin : In y (x :: l1))
        by (apply (Permutation_in _ (Permutation_sym Hperm)); left; reflexivity).
      destruct Hxin as [-> | Hxin]; [reflexivity |].
      destruct Hyin as [-> | Hyin]; [reflexivity |].
      apply Hinj; [left; reflexivity | right; exact Hyin |].
      apply ltb_antisym; [apply Hy, Hxin | apply Hx, Hyin]. }
    subst y. f_equal. apply IH.
    + intros a b Ha Hb. apply Hinj; right; assumption.
    + exact H1'.
    + exact H2'.
    + apply Permutation_cons_inv with (a := x). exact Hperm.
Qed.
End SortedUnique.

Section StringOrder.

Lemma ascii_compare_trans (a b c : ascii) :
  Ascii.compare a b = Lt -> Ascii.compare b c = Lt -> Ascii.compare a c = Lt.
Proof.
  unfold Ascii.compare. rewrite !N.compare_lt_iff. lia.
Qed.

Lemma string_compare_trans (a b c : string) :
  String.compare a b = Lt -> String.compare b c = Lt ->
  String.compare a c = Lt.
Proof.
  revert b c. induction a as [| x a IH]; intros [| y b] [| z c];
    simpl; try congruence.
  destruct (Ascii.compare x y) eqn:Hxy; try discriminate;
    destruct (Ascii.compare y z) eqn:Hyz; try discriminate; intros Hab Hbc.
  - apply Ascii.compare_eq_iff in Hxy, Hyz. subst.
    replace (Ascii.compare z z) with Eq
      by (symmetry; apply N.compare_refl).
    eapply IH; eassumption.
  - apply Ascii.compare_eq_iff in Hxy. subst. rewrite Hyz. reflexivity.
  - apply Ascii.compare_eq_iff in Hyz. subst. rewrite Hxy. reflexivity.
  - rewrite (ascii_compare_trans _ _ _ Hxy Hyz). reflexivity.
Qed.

Lemma string_ltb_lt (a b : string) :
  PyStr.ltb a b = true <-> String.compare a b = Lt.
Proof.
  unfold PyStr.ltb, String.ltb.
  destruct (String.compare a b); split; congruence.
Qed.

Lemma string_ltb_asym (a b : string) :
  PyStr.ltb a b = true -> PyStr.ltb b a = false.
Proof.
  rewrite string_ltb_lt, <- not_true_iff_false, string_ltb_lt.
  rewrite (String.compare_antisym a b).
  destruct (String.compare b a); simpl; congruence.
Qed.

Lemma string_ltb_antisym (a b : string) :
  PyStr.ltb a b = false -> PyStr.ltb b a = false -> a = b.
Proof.
  rewrite <- !not_true_iff_false, !string_ltb_lt.
  rewrite (String.compare_antisym a b).
  destruct (String.compare b a) eqn:E; simpl; try congruence.
  intros _ _. symmetry. apply String.compare_eq_iff, E.
Qed.

Lemma string_ltb_negtrans (a b c : string) :
  PyStr.ltb b a = false -> PyStr.ltb c b = false -> PyStr.ltb c a = false.
Proof.
  intros Hba Hcb. apply not_true_iff_false. intros Hca.
  destruct (PyStr.ltb a b) eqn:Hab.
  - apply string_ltb_lt in Hca, Hab.
    pose proof (string_compare_trans _ _ _ Hca Hab) as Hcb'.
    apply string_ltb_lt in Hcb'. congruence.
  - pose proof (string_ltb_antisym _ _ Hab Hba). subst. congruence.
Qed.

(** [sorted] returns the same list for every order of the same
    strings. *)
Lemma sorted_strings_perm (l1 l2 : list string) :
  Permutation l1 l2 -> sorted_strings l1 = sorted_strings l2.
Proof.
  intros Hperm. unfold sorted_strings.
  apply (sorted_perm_eq PyStr.ltb (fun s => s) string_ltb_antisym).
  - intros x y _ _ H. exact H.
  - apply sort_by_sorted; [apply string_ltb_asym | apply string_ltb_negtrans].
  - apply sort_by_sorted; [apply string_ltb_asym | apply string_ltb_negtrans].
  - eapply Permutation_trans; [apply sort_by_perm |].
    eapply Permutation_trans; [exact Hperm |].
    apply Permutation_sym, sort_by_perm.
Qed.

End StringOrder.

Section OrderIndependence.
Import FileFilter.

Lemma key_ltb_antisym (a b : sort_key) :
  key_ltb a b = false -> key_ltb b a = false -> a = b.
Proof.
  rewrite <- !not_true_iff_false, !key_ltb_true.
  destruct a as [[[a1 a2] a3] a4], b as [[[b1 b2] b3] b4].
  intros H1 H2.
  assert (a1 = b1 /\ a2 = b2 /\ a3 = b3 /\ a4 = b4) as (-> & -> & -> & ->)
    by lia.
  reflexivity.
Qed.

Lemma filter_perm {A : Type} (p : A -> bool) (l1 l2 : list A) :
  Permutation l1 l2 -> Permutation (filter p l1) (filter p l2).
Proof.
  induction 1 as [| x l1 l2 _ IH | x y l | l1 l2 l3 _ IH1 _ IH2]; simpl.
  - constructor.
  - destruct (p x); [apply perm_skip |]; exact IH.
  - destruct (p x), (p y); try apply Permutation_refl. apply perm_swap.
  - eapply Permutation_trans; eassumption.
Qed.

(** X8. The selection does not depend on the order of the input, as
    long as eligible entries with the same sort key are the same
    entry. *)
Theorem selection_ignores_input_order (files files' : list file_info) (B : Z) :
  Permutation files files' ->
  (forall f g, In f files -> In g files ->
               is_eligible f = true -> is_eligible g = true ->
               _sort_key f = _sort_key g -> f = g) ->
  rank_and_select_files files B = rank_and_select_files files' B.
Proof.
  intros Hperm Hinj. unfold rank_and_select_files.
  replace (candidates files') with (candidates files); [reflexivity |].
  apply (sorted_perm_eq key_ltb _sort_key key_ltb_antisym).
  - intros x y Hx Hy. apply candidates_In in Hx, Hy.
    apply Hinj; tauto.
  - apply candidates_sorted.
  - apply candidates_sorted.
  - unfold candidates.
    eapply Permutation_trans; [apply sort_by_perm |].
    eapply Permutation_trans; [| apply Permutation_sym, sort_by_perm].
    rewrite !eligible_files_filter. apply filter_perm, Hperm.
Qed.

Lemma selection_ignores_input_order_witness :
  rank_and_select_files Examples.three_files 700
  = rank_and_select_files (rev Examples.three_files) 700.
Proof.
  apply (selection_ignores_input_order
           Examples.three_files (rev Examples.three_files) 700).
  - apply Permutation_rev.
  - intros f g Hf Hg _ _.
    destruct Hf as [<- | [<- | [<- | []]]];
      destruct Hg as [<- | [<- | [<- | []]]];
      intros H; try reflexivity; vm_compute in H; discriminate.
Defined.

(** X9. [build_directory_tree] returns the same text for every order of
    the same paths. *)
Theorem directory_tree_ignores_input_order (paths paths' : list string) :
  Permutation paths paths' ->
  GithubClient.build_directory_tree paths
  = GithubClient.build_directory_tree paths'.
Proof.
  intros Hperm. unfold GithubClient.build_directory_tree.
  destruct paths as [| p ps].
  - apply Permutation_nil in Hperm. subst. reflexivity.
  - destruct paths' as [| p' ps'];
      [apply Permutation_sym, Permutation_nil in Hperm; discriminate |].
    unfold GithubClient.directory_tree_lines.
    rewrite (sorted_strings_perm _ _ Hperm). reflexivity.
Qed.

Lemma directory_tree_ignores_input_order_witness :
  GithubClient.build_directory_tree ["src/main.py"; "README.md"]
  = GithubClient.build_directory_tree ["README.md"; "src/main.py"].
Proof.
  apply (directory_tree_ignores_input_order
           ["src/main.py"; "README.md"] ["README.md"; "src/main.py"]).
  apply perm_swap.
Defined.

(** X10. [build_tree_string] returns the same text for every order of
    the same paths. *)
Theorem tree_string_ignores_input_order (paths paths' : list string) :
  Permutation paths paths' ->
  V1.build_tree_string paths = V1.build_tree_string paths'.
Proof.
  intros Hperm.
  unfold V1.build_tree_string, V1.build_tree_lines, V1.rendered_lines,
    V1.build_tree.
  rewrite (sorted_strings_perm _ _ Hperm). reflexivity.
Qed.

Lemma tree_string_ignores_input_order_witness :
  V1.build_tree_string ["src/main.py"; "README.md"]
  = V1.build_tree_string ["README.md"; "src/main.py"].
Proof.
  apply (tree_string_ignores_input_order
           ["src/main.py"; "README.md"] ["README.md"; "src/main.py"]).
  apply perm_swap.
Defined.

End OrderIndependence.

(** ** [parse_github_url] *)

Section ParseUrl.

Lemma count_nonneg (c : ascii) (s : string) : 0 <= PyStr.count c s.
Proof.
  induction s as [| x s IH]; simpl; [lia |].
  destruct (Ascii.eqb x c); lia.
Qed.

Lemma count_app (c : ascii) (a b : string) :
  PyStr.count c (a ++ b) = PyStr.count c a + PyStr.count c b.
Proof. induction a as [| x a IH]; simpl; [reflexivity | rewrite IH; lia]. Qed.

(** There is one part more than there are separators. *)
Lemma split_length (sep : ascii) (s : string) :
  Z.of_nat (List.length (PyStr.split sep s)) = PyStr.count sep s + 1.
Proof.
  induction s as [| x s IH]; simpl; [reflexivity |].
  destruct (Ascii.eqb x sep).
  - cbn [List.length]. lia.
  - pose proof (split_nonempty sep s) as Hne.
    destruct (PyStr.split sep s) as [| w ws]; [contradiction |].
    cbn [List.length] in *. lia.
Qed.

(** No part holds the separator. *)
Lemma split_parts_clean (sep : ascii) (s : string) :
  Forall (fun part => PyStr.count sep part = 0) (PyStr.split sep s).
Proof.
  induction s as [| x s IH]; simpl.
  - repeat constructor.
  - destruct (Ascii.eqb x sep) eqn:E.
    + constructor; [reflexivity | exact IH].
    + pose proof (split_nonempty sep s) as Hne.
      destruct (PyStr.split sep s) as [| w ws]; [contradiction |].
      inversion IH; subst. constructor; [| assumption].
      simpl. rewrite E. lia.
Qed.

(** Joining the parts gives the string back. *)
Lemma join_split (sep : ascii) (s : string) :
  PyStr.join (String sep EmptyString) (PyStr.split sep s) = s.
Proof.
  unfold PyStr.join.
  induction s as [| x s IH]; simpl; [reflexivity |].
  destruct (Ascii.eqb_spec x sep) as [-> | Hne].
  - pose proof (split_nonempty sep s) as Hs.
    destruct (PyStr.split sep s) as [| w ws] eqn:E; [contradiction |].
    cbn [String.concat] in *. rewrite IH. reflexivity.
  - pose proof (split_nonempty sep s) as Hs.
    destruct (PyStr.split sep s) as [| w ws] eqn:E; [contradiction |].
    cbn [String.concat] in *. destruct ws; simpl in *; rewrite IH; reflexivity.
Qed.

Lemma rstrip_char_repeat (c : ascii) (n : nat) :
  PyStr.rstrip_char c (PyStr.repeat (String c EmptyString) n) = EmptyString.
Proof.
  induction n as [| n IH]; simpl; [reflexivity |].
  rewrite IH, Ascii.eqb_refl. reflexivity.
Qed.

Lemma rstrip_char_clean (c : ascii) (b : string) (n : nat) :
  PyStr.count c b = 0 -> b <> EmptyString ->
  PyStr.rstrip_char c (b ++ PyStr.repeat (String c EmptyString) n) = b.
Proof.
  induction b as [| x b IH]; [contradiction |].
  intros Hcount _. cbn [PyStr.count] in Hcount.
  pose proof (count_nonneg c b).
  destruct (Ascii.eqb x c) eqn:E; [lia |].
  cbn [append PyStr.rstrip_char].
  destruct b as [| y b].
  - cbn [append]. rewrite rstrip_char_repeat, E. reflexivity.
  - rewrite IH by (lia || discriminate). reflexivity.
Qed.

Lemma rstrip_char_app (c : ascii) (a t t' : string) :
  PyStr.rstrip_char c t = t' -> t' <> EmptyString ->
  PyStr.rstrip_char c (a ++ t) = a ++ t'.
Proof.
  intros Ht Hne. induction a as [| x a IH]; simpl; [exact Ht |].
  rewrite IH. destruct (a ++ t') eqn:E; [| reflexivity].
  destruct a; simpl in E; [contradiction | discriminate].
Qed.

(** What [rstrip] returns does not end with the character. *)
Lemma rstrip_char_last (c : ascii) (s : string) :
  PyStr.rstrip_char c s = EmptyString
  \/ exists r x, PyStr.rstrip_char c s = r ++ String x EmptyString /\ x <> c.
Proof.
  induction s as [| y s IH]; simpl; [left; reflexivity |].
  destruct IH as [-> | (r & x & -> & Hx)].
  - destruct (Ascii.eqb_spec y c) as [-> | Hne]; [left; reflexivity |].
    right. exists EmptyString, y. split; [reflexivity | exact Hne].
  - right. exists (String y r), x.
    destruct (r ++ String x EmptyString) eqn:E.
    + destruct r; discriminate.
    + rewrite <- E. split; [reflexivity | exact Hx].
Qed.

Lemma split_snoc_last (sep x : ascii) (r : string) :
  x <> sep ->
  PyStr.last_part (PyStr.split sep (r ++ String x EmptyString)) <> EmptyString.
Proof.
  intros Hx. unfold PyStr.last_part.
  induction r as [| y r IH]; simpl.
  - apply Ascii.eqb_neq in Hx. rewrite Hx. simpl. discriminate.
  - pose proof (split_nonempty sep (r ++ String x EmptyString)) as Hne.
    destruct (Ascii.eqb y sep).
    + destruct (PyStr.split sep (r ++ String x EmptyString)) as [| w ws];
        [contradiction | exact IH].
    + destruct (PyStr.split sep (r ++ String x EmptyString)) as [| w ws];
        [contradiction |].
      destruct ws as [| w' ws]; simpl in *; [discriminate | exact IH].
Qed.

Import GithubClient.

(** X11. A URL that ends in [/owner/repo], followed by any number of
    slashes, parses into that owner and that repository, provided
    neither holds a slash and the repository name is not empty. *)
Theorem parse_github_url_of_parts (base owner repo : string) (n : nat) :
  PyStr.count "/" owner = 0 ->
  PyStr.count "/" repo = 0 ->
  repo <> EmptyString ->
  parse_github_url (base ++ "/" ++ owner ++ "/" ++ repo
                         ++ PyStr.repeat "/" n)
  = Some (owner, repo).
Proof.
  intros Ho Hr Hne. unfold parse_github_url.
  assert (Hstrip : PyStr.rstrip_char
                     "/" (base ++ "/" ++ owner ++ "/" ++ repo
                               ++ PyStr.repeat "/" n)
                   = base ++ "/" ++ owner ++ "/" ++ repo).
  { apply rstrip_char_app; [| destruct base; discriminate].
    apply rstrip_char_app; [| destruct owner; discriminate].
    apply rstrip_char_app; [| destruct owner; discriminate].
    apply rstrip_char_app; [| exact Hne].
    apply rstrip_char_clean; assumption. }
  rewrite Hstrip.
  change (base ++ "/" ++ owner ++ "/" ++ repo)
    with (base ++ String "/"%char (owner ++ String "/"%char repo)).
  rewrite !split_app.
  rewrite (split_single "/" owner Ho), (split_single "/" repo Hr).
  rewrite !rev_app_distr. reflexivity.
Qed.

Lemma parse_github_url_of_parts_witness :
  parse_github_url ("https://github.com" ++ "/" ++ "psf" ++ "/" ++ "requests"
                      ++ PyStr.repeat "/" 1)
  = Some ("psf", "requests").
Proof.
  apply (parse_github_url_of_parts "https://github.com" "psf" "requests" 1);
    [reflexivity | reflexivity | discriminate].
Defined.

(** X12. [parse_github_url] fails (with an [IndexError]) exactly when
    the URL, without its trailing slashes, holds no slash.  When it
    succeeds, the owner and the repository hold no slash, the repository
    name is not empty, and the URL without its trailing slashes ends in
    [owner/repo]. *)
Theorem parse_github_url_result (url : string) :
  (parse_github_url url = None
   <-> PyStr.count "/" (PyStr.rstrip_char "/" url) = 0)
  /\ (forall owner repo,
         parse_github_url url = Some (owner, repo) ->
         PyStr.count "/" owner = 0
         /\ PyStr.count "/" repo = 0
         /\ repo <> EmptyString
         /\ exists front,
              PyStr.rstrip_char "/" url
              = PyStr.join "/" (front ++ [owner; repo])).
Proof.
  unfold parse_github_url.
  set (u := PyStr.rstrip_char "/" url).
  pose proof (split_length "/" u) as Hlen.
  pose proof (split_parts_clean "/" u) as Hclean.
  pose proof (join_split "/" u) as Hjoin.
  pose proof (count_nonneg "/" u) as Hpos.
  assert (Hlast : 0 < PyStr.count "/" u ->
                  PyStr.last_part (PyStr.split "/" u) <> EmptyString).
  { intros Hslash. subst u.
    destruct (rstrip_char_last "/" url) as [E | (r & x & E & Hx)].
    - rewrite E in Hslash. simpl in Hslash. lia.
    - rewrite E. apply split_snoc_last, Hx. }
  destruct (rev (PyStr.split "/" u)) as [| repo [| owner front]] eqn:Hrev.
  - apply (f_equal (@rev string)) in Hrev. rewrite rev_involutive in Hrev.
    rewrite Hrev in Hlen. simpl in Hlen. lia.
  - apply (f_equal (@rev string)) in Hrev. rewrite rev_involutive in Hrev.
    rewrite Hrev in Hlen. simpl in Hlen.
    split; [split; [lia | reflexivity] | discriminate].
  - apply (f_equal (@rev string)) in Hrev. rewrite rev_involutive in Hrev.
    simpl in Hrev. rewrite <- app_assoc in Hrev. simpl in Hrev.
    rewrite Hrev in Hlen, Hclean, Hjoin, Hlast.
    rewrite length_app in Hlen. simpl in Hlen.
    split; [split; [discriminate | lia] |].
    intros o r H. injection H as <- <-.
    apply Forall_app in Hclean. destruct Hclean as [_ Hclean].
    inversion Hclean as [| ? ? Ho Hclean']; subst.
    inversion Hclean' as [| ? ? Hr _]; subst.
    split; [exact Ho |]. split; [exact Hr |]. split.
    + rewrite last_part_app in Hlast by discriminate.
      apply Hlast. lia.
    + exists (rev front). symmetry. exact Hjoin.
Qed.

End ParseUrl.
(** ** The lines of [build_directory_tree] *)

Section DirectoryTreeLines.
Import GithubClient.

Lemma mem_false_not_In (x : string) (S : list string) :
  PyStr.mem x S = false <-> ~ In x S.
Proof. rewrite <- mem_In. symmetry. apply not_true_iff_false. Qed.

(** One run of the inner loop: the directories not yet seen are added,
    each once and each with one line. *)
Lemma add_parents_inv (parts : list string) (idx : list nat) (st : tree_state) :
  NoDup (seen_dirs st) ->
  let st' := fold_left (add_parent parts) idx st in
  NoDup (seen_dirs st')
  /\ (List.length (result_lines st') + List.length (seen_dirs st)
      = List.length (result_lines st) + List.length (seen_dirs st'))%nat
  /\ (forall d, In d (seen_dirs st')
                <-> In d (seen_dirs st)
                    \/ In d (map (fun i => PyStr.join "/" (firstn (i + 1) parts))
                                 idx)).
Proof.
  revert st. induction idx as [| i idx IH]; intros st Hnd; cbn [fold_left].
  - split; [exact Hnd |]. split; [reflexivity |].
    intros d. simpl. tauto.
  - assert (Hstep : NoDup (seen_dirs (add_parent parts st i))
                    /\ (List.length (result_lines (add_parent parts st i))
                        + List.length (seen_dirs st)
                        = List.length (result_lines st)
                          + List.length (seen_dirs (add_parent parts st i)))%nat
                    /\ (forall d, In d (seen_dirs (add_parent parts st i))
                                  <-> In d (seen_dirs st)
                                      \/ d = PyStr.join "/" (firstn (i + 1) parts))).
    { unfold add_parent.
      destruct (PyStr.mem (PyStr.join "/" (firstn (i + 1) parts)) (seen_dirs st))
        eqn:Hmem; cbn [negb seen_dirs result_lines].
      - split; [exact Hnd |]. split; [reflexivity |].
        intros d. split; [tauto |].
        intros [H | ->]; [exact H | apply mem_In, Hmem].
      - split; [constructor; [apply mem_false_not_In, Hmem | exact Hnd] |].
        split; [rewrite length_app; simpl; lia |].
        intros d. simpl. split; intros [H | H]; auto. }
    destruct Hstep as (Hnd1 & Hlen1 & Hin1).
    destruct (IH (add_parent parts st i) Hnd1) as (Hnd2 & Hlen2 & Hin2).
    split; [exact Hnd2 |]. split; [lia |].
    intros d. rewrite Hin2, Hin1. simpl. intuition.
Qed.

Lemma add_path_inv (st : tree_state) (p : string) :
  NoDup (seen_dirs st) ->
  NoDup (seen_dirs (add_path st p))
  /\ (List.length (result_lines (add_path st p)) + List.length (seen_dirs st)
      = S (List.length (result_lines st))
        + List.length (seen_dirs (add_path st p)))%nat
  /\ (forall d, In d (seen_dirs (add_path st p))
                <-> In d (seen_dirs st) \/ In d (parent_dirs p)).
Proof.
  intros Hnd. unfold add_path, parent_dirs. cbn [seen_dirs result_lines].
  destruct (add_parents_inv (PyStr.split "/" p)
              (seq 0 (List.length (PyStr.split "/" p) - 1)) st Hnd)
    as (H1 & H2 & H3).
  split; [exact H1 |]. split; [rewrite length_app; simpl; lia | exact H3].
Qed.

Lemma add_paths_inv (paths : list string) (st : tree_state) :
  NoDup (seen_dirs st) ->
  let st' := fold_left add_path paths st in
  NoDup (seen_dirs st')
  /\ (List.length (result_lines st') + List.length (seen_dirs st)
      = List.length paths + List.length (result_lines st)
        + List.length (seen_dirs st'))%nat
  /\ (forall d, In d (seen_dirs st')
                <-> In d (seen_dirs st)
                    \/ exists p, In p paths /\ In d (parent_dirs p)).
Proof.
  revert st. induction paths as [| p paths IH]; intros st Hnd; cbn [fold_left].
  - split; [exact Hnd |]. split; [simpl; lia |].
    intros d. split; [tauto |]. intros [H | (p & [] & _)]. exact H.
  - destruct (add_path_inv st p Hnd) as (H1 & H2 & H3).
    destruct (IH (add_path st p) H1) as (H4 & H5 & H6).
    split; [exact H4 |]. split; [simpl; lia |].
    intros d. rewrite H6, H3. split.
    + intros [[H | H] | (q & Hq & Hd)]; [tauto | |].
      * right. exists p. split; [left; reflexivity | exact H].
      * right. exists q. split; [right; exact Hq | exact Hd].
    + intros [H | (q & [<- | Hq] & Hd)]; [tauto | tauto |].
      right. exists q. tauto.
Qed.

(** The directories seen by the loop of [build_directory_tree] are
    distinct, they are the directories above the paths, and each of
    them, like each path, has its line. *)
Lemma tree_lines_seen_dirs (paths : list string) :
  let dirs := seen_dirs (fold_left add_path (sorted_strings paths)
                                   {| seen_dirs := []; result_lines := [] |}) in
  NoDup dirs
  /\ (forall d, In d dirs <-> exists p, In p paths /\ In d (parent_dirs p))
  /\ List.length (directory_tree_lines paths)
     = (List.length paths + List.length dirs)%nat.
Proof.
  unfold directory_tree_lines.
  destruct (add_paths_inv (sorted_strings paths)
              {| seen_dirs := []; result_lines := [] |} (NoDup_nil _))
    as (Hnd & Hlen & Hin).
  cbn [seen_dirs result_lines List.length] in *.
  split; [exact Hnd |]. split.
  - intros d. rewrite Hin. split.
    + intros [[] | (p & Hp & Hd)]. exists p. split; [| exact Hd].
      apply (sort_by_In PyStr.ltb (fun s => s)). exact Hp.
    + intros (p & Hp & Hd). right. exists p. split; [| exact Hd].
      apply (sort_by_In PyStr.ltb (fun s => s)). exact Hp.
  - assert (Hl : List.length (sorted_strings paths) = List.length paths)
      by (apply Permutation_length, sort_by_perm).
    lia.
Qed.

(** X13. [build_directory_tree] prints one line per path and one line
    per distinct directory above some path: each directory is printed
    once, however many paths lie under it. *)
Theorem directory_tree_line_count (paths : list string) :
  exists dirs : list string,
    NoDup dirs
    /\ (forall d, In d dirs <-> exists p, In p paths /\ In d (parent_dirs p))
    /\ List.length (directory_tree_lines paths)
       = (List.length paths + List.length dirs)%nat.
Proof.
  exists (seen_dirs (fold_left add_path (sorted_strings paths)
                               {| seen_dirs := []; result_lines := [] |})).
  apply tree_lines_seen_dirs.
Qed.

Lemma join_two_nonempty (sep x y : string) (l : list string) :
  sep <> EmptyString -> PyStr.join sep (x :: y :: l) <> EmptyString.
Proof.
  intros Hsep. unfold PyStr.join. cbn [String.concat].
  destruct x; simpl; [| discriminate].
  destruct sep; [contradiction | discriminate].
Qed.

(** An empty rendering leaves no path to show. *)
Lemma tree_text_empty_inv (paths : list string) :
  build_directory_tree paths = EmptyString ->
  paths = [] \/ paths = [EmptyString].
Proof.
  intros Hempty. destruct paths as [| p ps]; [left; reflexivity |]. right.
  unfold build_directory_tree in Hempty.
  pose proof (tree_lines_seen_dirs (p :: ps)) as Hseen. cbv zeta in Hseen.
  remember (seen_dirs (fold_left add_path (sorted_strings (p :: ps))
                                 {| seen_dirs := []; result_lines := [] |}))
    as dirs eqn:Edirs.
  clear Edirs. destruct Hseen as (_ & Hdirs & Hlen).
  destruct (directory_tree_lines (p :: ps)) as [| l1 [| l2 ls]] eqn:Hlines.
  + simpl in Hlen. lia.
  + cbn [List.length] in Hlen.
    assert (ps = []) by (destruct ps; [reflexivity | simpl in Hlen; lia]).
    assert (dirs = []) by (destruct dirs; [reflexivity | simpl in Hlen; lia]).
    subst ps dirs.
    assert (Hnone : parent_dirs p = []).
    { destruct (parent_dirs p) as [| d ds] eqn:E; [reflexivity |].
      exfalso. apply (proj2 (Hdirs d)).
      exists p. split; [left; reflexivity | rewrite E; left; reflexivity]. }
    unfold parent_dirs in Hnone. apply map_eq_nil in Hnone.
    assert (Hone : List.length (PyStr.split "/" p) = 1%nat).
    { pose proof (split_nonempty "/" p) as Hne.
      destruct (PyStr.split "/" p) as [| w [| w' ws]];
        [contradiction | reflexivity | discriminate]. }
    assert (Hsplit : PyStr.split "/" p = [p]).
    { pose proof (join_split "/" p) as Hj.
      destruct (PyStr.split "/" p) as [| w [| w' ws]]; try discriminate.
      simpl in Hj. subst. reflexivity. }
    unfold directory_tree_lines, sorted_strings in Hlines.
    cbn [sort_by insert_by fold_left] in Hlines.
    unfold add_path in Hlines. rewrite Hsplit in Hlines.
    cbn in Hlines. injection Hlines as <-.
    unfold PyStr.join in Hempty. simpl in Hempty. subst. reflexivity.
  + exfalso. revert Hempty. apply join_two_nonempty. discriminate.
Qed.

(** X14. The text of [build_directory_tree] is empty only for no path
    at all and for the single empty path. *)
Theorem directory_tree_empty_iff (paths : list string) :
  build_directory_tree paths = EmptyString
  <-> paths = [] \/ paths = [EmptyString].
Proof.
  split.
  - apply tree_text_empty_inv.
  - intros [-> | ->]; reflexivity.
Qed.

End DirectoryTreeLines.
(** ** More about [fetch_repo_data] *)

Section FetchRepoDataMore.
Import FileFilter GithubClient.

Lemma file_items_In (items : list tree_item) (f : file_info) :
  In f (file_items items) ->
  exists item, In item items /\ is_blob item = true
               /\ path f = item_path item
               /\ size f = Some (or_default (item_size item) 0).
Proof.
  unfold file_items. rewrite in_map_iff.
  intros (item & <- & Hin). apply filter_In in Hin.
  exists item. cbn [path size]. tauto.
Qed.

(** What is selected for fetching is an eligible blob of the listing. *)
Lemma selected_files_In (settings : Settings) (items : list tree_item)
      (f : file_info) :
  In f (selected_files settings items) ->
  is_eligible f = true
  /\ exists item, In item items /\ is_blob item = true
                  /\ path f = item_path item
                  /\ size f = Some (or_default (item_size item) 0).
Proof.
  unfold selected_files. intros Hf.
  apply (subseq_In _ _ _ (selection_subseq_candidates _ _)) in Hf.
  apply candidates_In in Hf. destruct Hf as [Hf Hel].
  split; [exact Hel | apply file_items_In, Hf].
Qed.

(** The loop raises nothing but the exception it does not catch. *)
Lemma fetch_loop_raises (client_get : string -> reply text_response)
      (o r b : string) (selected : list file_info)
      (contents : PyDict.t string) (failed : list string) (e : exn) :
  fetch_loop client_get o r b selected contents failed = Raise e ->
  e = Uncaught OtherException.
Proof.
  revert contents failed.
  induction selected as [| f rest IH]; intros contents failed; cbn [fetch_loop].
  - discriminate.
  - destruct (client_get _) as [resp | []].
    + destruct (tx_status resp =? 200); apply IH.
    + apply IH.
    + apply IH.
    + intros H. injection H as <-. reflexivity.
Qed.

(** X15. With the repository document and the tree obtained: when every
    entry of the listing is excluded the call raises [EmptyResult]
    whatever the content client does; when some entry with a non-empty
    path is not excluded it never raises [EmptyResult], even if every
    fetch fails. *)
Theorem empty_result_conditions
        (settings : Settings) (owner repo : string)
        (info : repo_info) (data : tree_data)
        (client_get : string -> reply text_response) :
  ((forall item, In item (or_default (td_tree data) []) ->
                 should_exclude_path (item_path item) = true) ->
   fetch_repo_data settings owner repo
     (Replied (mk_json_response 200 (Some info)))
     (Replied (mk_json_response 200 (Some data))) client_get
   = Raise EmptyResult)
  /\ ((exists item, In item (or_default (td_tree data) [])
                    /\ should_exclude_path (item_path item) = false
                    /\ item_path item <> EmptyString) ->
      fetch_repo_data settings owner repo
        (Replied (mk_json_response 200 (Some info)))
        (Replied (mk_json_response 200 (Some data))) client_get
      <> Raise EmptyResult).
Proof.
  set (items := or_default (td_tree data) []).
  unfold fetch_repo_data. cbn [js_status js_json Z.eqb negb]. fold items.
  split.
  - intros Hall.
    assert (Hpaths : all_paths items = []).
    { unfold all_paths.
      destruct (filter _ items) as [| item rest] eqn:E; [reflexivity |].
      assert (Hin : In item (filter
                (fun item => negb (should_exclude_path (item_path item))) items))
        by (rewrite E; left; reflexivity).
      apply filter_In in Hin. destruct Hin as [Hin Hneg].
      rewrite (Hall item Hin) in Hneg. discriminate. }
    assert (Hsel : selected_files settings items = []).
    { destruct (selected_files settings items) as [| f rest] eqn:E;
        [reflexivity |].
      destruct (selected_files_In settings items f) as (Hel & item & Hin & _ & Hp & _).
      { rewrite E. left. reflexivity. }
      unfold is_eligible in Hel. rewrite Hp, (Hall item Hin) in Hel.
      discriminate. }
    rewrite Hsel, Hpaths. reflexivity.
  - intros (item & Hin & Hex & Hne).
    assert (Htree : build_directory_tree (all_paths items) <> EmptyString).
    { intros Hempty. apply tree_text_empty_inv in Hempty.
      assert (Hp : In (item_path item) (all_paths items)).
      { unfold all_paths. apply in_map, filter_In.
        split; [exact Hin | rewrite Hex; reflexivity]. }
      destruct Hempty as [E | E]; rewrite E in Hp;
        [contradiction | destruct Hp as [Hp | []]; congruence]. }
    destruct (fetch_loop _ _ _ _ _ _ _) as [[contents failed] | e] eqn:Hloop.
    + apply String.eqb_neq in Htree. rewrite Htree, andb_false_r. discriminate.
    + apply fetch_loop_raises in Hloop. subst e. discriminate.
Qed.

Lemma empty_result_conditions_witness :
  fetch_repo_data default_settings "psf" "requests"
    (Replied (mk_json_response 200 (Some Examples.requests_info)))
    (Replied (mk_json_response 200 (Some Examples.requests_tree)))
    Examples.flaky_client
  <> Raise EmptyResult.
Proof.
  apply (proj2 (empty_result_conditions
                  default_settings "psf" "requests"
                  Examples.requests_info Examples.requests_tree
                  Examples.flaky_client)).
  exists (mk_item "README.md" (Some 5000) (Some "blob")).
  split; [left; reflexivity |]. split; [reflexivity | discriminate].
Defined.

(** X16. The statuses of the errors of [fetch_repo_data]: a repository
    reply with status 404 gives the error 404 and one with status 403
    the error 429, whatever the other replies; and every
    [GitHubClientError] it raises carries 404, 429, 502 or 422, with
    404 and 429 only for those two statuses and 422 only after both
    requests were answered with 200. *)
Theorem github_error_statuses
        (settings : Settings) (owner repo : string)
        (repo_resp : json_response repo_info)
        (tree_reply : reply (json_response tree_data))
        (client_get : string -> reply text_response) :
  (js_status repo_resp = 404 ->
   fetch_repo_data settings owner repo (Replied repo_resp) tree_reply client_get
   = Raise (GitHubClientError
              ("Repository not found: " ++ owner ++ "/" ++ repo) 404))
  /\ (js_status repo_resp = 403 ->
      fetch_repo_data settings owner repo (Replied repo_resp) tree_reply
                      client_get
      = Raise (GitHubClientError
                 "GitHub API rate limit exceeded. Try again later." 429))
  /\ (forall msg code,
         fetch_repo_data settings owner repo (Replied repo_resp) tree_reply
                         client_get
         = Raise (GitHubClientError msg code) ->
         In code [404; 429; 502; 422]
         /\ (code = 404 <-> js_status repo_resp = 404)
         /\ (code = 429 <-> js_status repo_resp = 403)
         /\ (code = 422 ->
             js_status repo_resp = 200
             /\ exists tree_resp, tree_reply = Replied tree_resp
                                  /\ js_status tree_resp = 200)).
Proof.
  unfold fetch_repo_data.
  destruct (Z.eqb_spec (js_status repo_resp) 404) as [H404 | H404].
  { split; [reflexivity |]. split; [intros H; rewrite H in H404; discriminate |].
    intros msg code H. injection H as <- <-.
    split; [simpl; tauto |].
    split; [tauto |]. split; [split; intros; [discriminate | lia] |].
    discriminate. }
  destruct (Z.eqb_spec (js_status repo_resp) 403) as [H403 | H403].
  { split; [contradiction |]. split; [reflexivity |].
    intros msg code H. injection H as <- <-.
    split; [simpl; tauto |].
    split; [split; intros; [discriminate | lia] |]. split; [tauto |].
    discriminate. }
  split; [contradiction |]. split; [contradiction |].
  intros msg code.
  destruct (Z.eqb_spec (js_status repo_resp) 200) as [H200 | H200];
    cbn [negb].
  2: { intros H. injection H as <- <-.
       split; [simpl; tauto |]. repeat split; intros; (discriminate || lia). }
  destruct (js_json repo_resp) as [info |].
  2: { intros H. injection H as <- <-.
       split; [simpl; tauto |]. repeat split; intros; (discriminate || lia). }
  destruct tree_reply as [tree_resp | e]; [| discriminate].
  destruct (Z.eqb_spec (js_status tree_resp) 200) as [T200 | T200];
    cbn [negb].
  2: { intros H. injection H as <- <-.
       split; [simpl; tauto |]. repeat split; intros; (discriminate || lia). }
  destruct (js_json tree_resp) as [data |].
  2: { intros H. injection H as <- <-.
       split; [simpl; tauto |]. repeat split; intros; (discriminate || lia). }
  destruct (fetch_loop _ _ _ _ _ _ _) as [[contents failed] | e] eqn:Hloop.
  - destruct (negb (is_nonempty contents) && _); [| discriminate].
    intros H. injection H as <- <-.
    split; [simpl; tauto |].
    split; [split; intros; [discriminate | lia] |].
    split; [split; intros; [discriminate | lia] |].
    intros _. split; [exact H200 |]. exists tree_resp. tauto.
  - apply fetch_loop_raises in Hloop. subst e. discriminate.
Qed.

Lemma github_error_statuses_witness :
  fetch_repo_data default_settings "psf" "requests"
    (Replied (mk_json_response 404 None)) (Failed TimeoutException)
    Examples.flaky_client
  = Raise (GitHubClientError
             ("Repository not found: " ++ "psf" ++ "/" ++ "requests") 404).
Proof.
  apply (proj1 (github_error_statuses
                  default_settings "psf" "requests"
                  (mk_json_response 404 None) (Failed TimeoutException)
                  Examples.flaky_client)).
  reflexivity.
Defined.

Lemma dict_set_keys {V : Type} (k : string) (v : V) (d : PyDict.t V) :
  PyDict.keys (PyDict.set k v d)
  = if PyStr.mem k (PyDict.keys d) then PyDict.keys d
    else (PyDict.keys d ++ [k])%list.
Proof.
  unfold PyDict.keys, PyStr.mem.
  induction d as [| [k' v'] d IH]; simpl; [reflexivity |].
  rewrite (String.eqb_sym k k').
  destruct (String.eqb_spec k' k) as [-> | Hne]; simpl; [reflexivity |].
  rewrite IH. destruct (existsb _ _); reflexivity.
Qed.

Lemma NoDup_snoc {A : Type} (l : list A) (x : A) :
  NoDup l -> ~ In x l -> NoDup (l ++ [x]).
Proof.
  intros Hnd Hx.
  apply (Permutation_NoDup (Permutation_cons_append l x)).
  constructor; assumption.
Qed.

(** The keys after the loop: the keys before it, then new ones in the
    order of the selection, none twice. *)
Lemma fetch_loop_keys (client_get : string -> reply text_response)
      (o r b : string) (selected : list file_info)
      (contents : PyDict.t string) (failed : list string)
      (contents' : PyDict.t string) (failed' : list string) :
  fetch_loop client_get o r b selected contents failed
  = Return (contents', failed') ->
  NoDup (PyDict.keys contents) ->
  NoDup (PyDict.keys contents')
  /\ exists ext, PyDict.keys contents' = (PyDict.keys contents ++ ext)%list
                 /\ subseq ext (map path selected).
Proof.
  revert contents failed.
  induction selected as [| f rest IH]; intros contents failed Hloop Hnd;
    cbn [fetch_loop] in Hloop.
  - injection Hloop as <- <-. split; [exact Hnd |].
    exists []. rewrite app_nil_r. split; [reflexivity | constructor].
  - assert (Hskip : forall contents1 failed1,
               fetch_loop client_get o r b rest contents1 failed1
               = Return (contents', failed') ->
               PyDict.keys contents1 = PyDict.keys contents ->
               NoDup (PyDict.keys contents')
               /\ exists ext,
                   PyDict.keys contents' = (PyDict.keys contents ++ ext)%list
                   /\ subseq ext (map path (f :: rest))).
    { intros c1 f1 H1 Hk.
      destruct (IH c1 f1 H1) as (Hnd' & ext & Hkeys & Hs);
        [rewrite Hk; exact Hnd |].
      split; [exact Hnd' |]. exists ext. rewrite <- Hk.
      split; [exact Hkeys | apply subseq_skip, Hs]. }
    destruct (client_get _) as [resp | []]; try discriminate;
      try (eapply Hskip; [exact Hloop | reflexivity]).
    destruct (tx_status resp =? 200);
      [| eapply Hskip; [exact Hloop | reflexivity]].
    pose proof (dict_set_keys (path f) (truncate_text (tx_text resp)) contents)
      as Hset.
    destruct (PyStr.mem (path f) (PyDict.keys contents)) eqn:Hmem.
    + eapply Hskip; [exact Hloop | exact Hset].
    + destruct (IH _ _ Hloop) as (Hnd' & ext & Hkeys & Hs).
      { rewrite Hset. apply NoDup_snoc; [exact Hnd |].
        apply mem_false_not_In, Hmem. }
      split; [exact Hnd' |]. exists (path f :: ext).
      rewrite Hkeys, Hset, <- app_assoc.
      split; [reflexivity | apply subseq_keep, Hs].
Qed.

(** X17. The keys of the returned content mapping are distinct, come
    in the order of the selection, and each is the path of a blob of the
    listing that is neither excluded nor tier Skip. *)
Theorem returned_contents_keys
        (settings : Settings) (owner repo : string)
        (info : repo_info) (data : tree_data)
        (client_get : string -> reply text_response) (d : RepoData) :
  fetch_repo_data settings owner repo
    (Replied (mk_json_response 200 (Some info)))
    (Replied (mk_json_response 200 (Some data))) client_get
  = Return d ->
  NoDup (PyDict.keys (file_contents d))
  /\ subseq (PyDict.keys (file_contents d))
            (map path (selected_files settings (or_default (td_tree data) [])))
  /\ (forall k, In k (PyDict.keys (file_contents d)) ->
                should_exclude_path k = false
                /\ get_file_priority k <> PRIORITY_SKIP
                /\ exists item, In item (or_default (td_tree data) [])
                                /\ item_path item = k
                                /\ is_blob item = true).
Proof.
  unfold fetch_repo_data. cbn [js_status js_json Z.eqb negb].
  set (items := or_default (td_tree data) []).
  destruct (fetch_loop _ _ _ _ _ _ _) as [[contents failed] | e] eqn:Hloop;
    [| discriminate].
  destruct (negb (is_nonempty contents) && _); [discriminate |].
  intros H. injection H as <-. cbn [file_contents].
  destruct (fetch_loop_keys _ _ _ _ _ _ _ _ _ Hloop (NoDup_nil _))
    as (Hnd & ext & Hkeys & Hs).
  cbn [PyDict.keys map app] in Hkeys. fold (PyDict.keys contents) in Hkeys.
  rewrite Hkeys. split; [rewrite <- Hkeys; exact Hnd |].
  split; [exact Hs |].
  intros k Hk. apply (subseq_In _ _ _ Hs), in_map_iff in Hk.
  destruct Hk as (f & <- & Hf).
  destruct (selected_files_In settings items f Hf)
    as (Hel & item & Hin & Hblob & Hp & _).
  unfold is_eligible in Hel. apply andb_true_iff in Hel.
  destruct Hel as [He Hprio].
  split; [apply negb_true_iff, He |].
  split; [apply Z.eqb_neq, negb_true_iff, Hprio |].
  exists item. split; [exact Hin |]. split; [symmetry; exact Hp | exact Hblob].
Qed.

Lemma returned_contents_keys_witness :
  NoDup (PyDict.keys [("README.md", "# Requests")])
  /\ subseq (PyDict.keys [("README.md", "# Requests")])
            (map path (selected_files default_settings
                         (or_default (td_tree Examples.requests_tree) [])))
  /\ (forall k, In k (PyDict.keys [("README.md", "# Requests")]) ->
                should_exclude_path k = false
                /\ get_file_priority k <> PRIORITY_SKIP
                /\ exists item,
                     In item (or_default (td_tree Examples.requests_tree) [])
                     /\ item_path item = k
                     /\ is_blob item = true).
Proof.
  refine (returned_contents_keys
            default_settings "psf" "requests"
            Examples.requests_info Examples.requests_tree Examples.flaky_client
            {| owner := "psf";
               repo := "requests";
               description := "Python HTTP library";
               stars := 50000;
               forks := 9000;
               language := "Python";
               default_branch := "main";
               directory_tree := "README.md" ++ NL ++ "src" ++ NL ++ "src/"
                                   ++ NL ++ "  main.py";
               file_contents := [("README.md", "# Requests")] |} _).
  vm_compute. reflexivity.
Defined.

(** X18. [fetch_repo_data] selects with a budget of at least 10,000
    characters; when the sizes of the listing are not negative, the
    sizes of the selected entries add up to at most that budget, unless
    the selection is the single entry that alone exceeds it. *)
Theorem fetch_selection_within_budget
        (settings : Settings) (items : list tree_item) :
  (forall item n, In item items -> item_size item = Some n -> 0 <= n) ->
  let B := content_budget settings (build_directory_tree (all_paths items)) in
  10000 <= B
  /\ (total_size (selected_files settings items) <= B
      \/ exists f, selected_files settings items = [f] /\ B < get_size f).
Proof.
  intros Hsizes B.
  assert (HB : 10000 <= B) by (unfold B, content_budget; lia).
  split; [exact HB |].
  unfold selected_files. fold B. unfold rank_and_select_files.
  assert (Hnonneg : Forall (fun f => 0 <= get_size f)
                           (candidates (file_items items))).
  { rewrite Forall_forall. intros f Hf. apply candidates_In in Hf.
    destruct Hf as [Hf _]. apply file_items_In in Hf.
    destruct Hf as (item & Hin & _ & _ & Hsize).
    unfold get_size. rewrite Hsize.
    destruct (item_size item) as [n |] eqn:E; simpl; [| lia].
    apply (Hsizes item n Hin E). }
  destruct (candidates (file_items items)) as [| c rest].
  - left. unfold total_size. simpl. lia.
  - rewrite select_within_budget_cons. inversion Hnonneg; subst.
    destruct (Z.ltb_spec B (get_size c)) as [Hbig | Hfit].
    + right. exists c.
      rewrite select_loop_saturated by (reflexivity || assumption).
      split; [reflexivity | exact Hbig].
    + left.
      rewrite <- (select_loop_total B rest [c] (get_size c))
        by (unfold total_size; simpl; lia).
      apply select_loop_within; [reflexivity | exact Hfit].
Qed.

Lemma fetch_selection_within_budget_witness :
  10000 <= content_budget default_settings
             (build_directory_tree (all_paths Examples.listing))
  /\ (total_size (selected_files default_settings Examples.listing)
      <= content_budget default_settings
           (build_directory_tree (all_paths Examples.listing))
      \/ exists f,
          selected_files default_settings Examples.listing = [f]
          /\ content_budget default_settings
               (build_directory_tree (all_paths Examples.listing))
             < get_size f).
Proof.
  apply (fetch_selection_within_budget default_settings Examples.listing).
  intros item n [<- | [<- | [<- | []]]] H; simpl in H;
    try discriminate; injection H as <-; lia.
Defined.

End FetchRepoDataMore.

(** ** [build_user_prompt] *)

Section Prompt.
Import LlmSummarizer.

Lemma append_assoc (a b c : string) : (a ++ b) ++ c = a ++ b ++ c.
Proof. induction a as [| x a IH]; simpl; [| rewrite IH]; reflexivity. Qed.

Lemma append_nil_r (a : string) : a ++ EmptyString = a.
Proof. induction a as [| x a IH]; simpl; [| rewrite IH]; reflexivity. Qed.

Lemma prefix_app (p s : string) : String.prefix p (p ++ s) = true.
Proof.
  induction p as [| x p IH]; simpl; [destruct s; reflexivity |].
  destruct (ascii_dec x x); [exact IH | contradiction].
Qed.

(** A string holds each of its sub-strings. *)
Lemma contains_prefix (x s : string) :
  String.prefix x s = true -> PyStr.contains x s = true.
Proof. destruct s; cbn [PyStr.contains]; intros ->; reflexivity. Qed.

Lemma contains_app (x a b : string) : PyStr.contains x (a ++ x ++ b) = true.
Proof.
  induction a as [| c a IH]; cbn [append PyStr.contains].
  - apply contains_prefix, prefix_app.
  - rewrite IH. apply orb_true_r.
Qed.

(** Joining two lists joins their joins. *)
Lemma join_app (sep : string) (l1 l2 : list string) :
  l1 <> [] -> l2 <> [] ->
  PyStr.join sep (l1 ++ l2) = PyStr.join sep l1 ++ sep ++ PyStr.join sep l2.
Proof.
  intros H1 H2. unfold PyStr.join.
  induction l1 as [| x l1 IH]; [contradiction |].
  destruct l1 as [| y l1].
  - destruct l2; [contradiction | reflexivity].
  - cbn [app String.concat] in *. rewrite IH by discriminate.
    rewrite !append_assoc. reflexivity.
Qed.

Lemma prefix_inv (p s : string) :
  String.prefix p s = true -> exists b, s = p ++ b.
Proof.
  revert s. induction p as [| x p IH]; intros s H.
  - exists s. reflexivity.
  - destruct s as [| y s]; [discriminate |]. simpl in H.
    destruct (ascii_dec x y) as [-> | _]; [| discriminate].
    destruct (IH s H) as (b & ->). exists b. reflexivity.
Qed.

Lemma contains_iff (x s : string) :
  PyStr.contains x s = true <-> exists a b, s = a ++ x ++ b.
Proof.
  split.
  - induction s as [| c s IH]; cbn [PyStr.contains]; intros H.
    + rewrite orb_false_r in H. apply prefix_inv in H.
      destruct H as (b & ->). exists EmptyString, b. reflexivity.
    + apply orb_true_iff in H. destruct H as [H | H].
      * apply prefix_inv in H. destruct H as (b & ->).
        exists EmptyString, b. reflexivity.
      * destruct (IH H) as (a & b & ->). exists (String c a), b. reflexivity.
  - intros (a & b & ->). apply contains_app.
Qed.

Lemma contains_trans (x y s : string) :
  PyStr.contains x y = true -> PyStr.contains y s = true ->
  PyStr.contains x s = true.
Proof.
  rewrite !contains_iff. intros (a & b & ->) (a' & b' & ->).
  exists (a' ++ a), (b ++ b'). rewrite !append_assoc. reflexivity.
Qed.

(** The join of a list holds the join of each run of its elements. *)
Lemma contains_join (sep : string) (l1 mid l2 : list string) :
  mid <> [] ->
  PyStr.contains (PyStr.join sep mid) (PyStr.join sep (l1 ++ mid ++ l2)) = true.
Proof.
  intros Hmid. apply contains_iff.
  assert (Hml : forall l, l <> [] -> (mid ++ l)%list <> []).
  { intros l _ H. apply app_eq_nil in H. tauto. }
  destruct l1 as [| a l1], l2 as [| b l2]; cbn [app].
  - rewrite app_nil_r. exists EmptyString, EmptyString.
    rewrite append_nil_r. reflexivity.
  - rewrite join_app by (assumption || discriminate).
    exists EmptyString, (sep ++ PyStr.join sep (b :: l2)). reflexivity.
  - rewrite app_nil_r.
    change (a :: l1 ++ mid)%list with ((a :: l1) ++ mid)%list.
    rewrite join_app by (assumption || discriminate).
    exists (PyStr.join sep (a :: l1) ++ sep), EmptyString.
    rewrite append_nil_r, append_assoc. reflexivity.
  - change (a :: l1 ++ mid ++ b :: l2)%list
      with ((a :: l1) ++ mid ++ b :: l2)%list.
    rewrite join_app by (discriminate || apply Hml; discriminate).
    rewrite (join_app sep mid) by (assumption || discriminate).
    exists (PyStr.join sep (a :: l1) ++ sep), (sep ++ PyStr.join sep (b :: l2)).
    rewrite !append_assoc. reflexivity.
Qed.

Lemma join_cons (sep x : string) (l : list string) :
  l <> [] -> PyStr.join sep (x :: l) = x ++ sep ++ PyStr.join sep l.
Proof. intros H. destruct l; [contradiction | reflexivity]. Qed.

Lemma header_sections_nonempty (d : GithubClient.RepoData) :
  header_sections d <> [].
Proof. unfold header_sections. discriminate. Qed.

(** X19. One more entry at the end of the content mapping adds its
    block at the end of the prompt and changes nothing before it: the
    prompt lists the files in the order of the mapping. *)
Theorem prompt_appends_file_blocks
        (d : GithubClient.RepoData) (contents : PyDict.t string)
        (p content : string) :
  build_user_prompt (with_contents d (contents ++ [(p, content)])%list)
  = build_user_prompt (with_contents d contents)
      ++ NL ++ NL ++ "### " ++ p ++ NL ++ "```" ++ NL ++ content
      ++ NL ++ "```".
Proof.
  unfold build_user_prompt, prompt_sections.
  assert (Hh : forall c, header_sections (with_contents d c)
                         = header_sections d) by reflexivity.
  rewrite !Hh. cbn [with_contents GithubClient.file_contents].
  rewrite flat_map_app. cbn [flat_map]. rewrite app_nil_r.
  rewrite app_assoc.
  rewrite join_app;
    [| intros H; apply app_eq_nil in H; destruct H as [H _];
       revert H; apply header_sections_nonempty
     | discriminate].
  reflexivity.
Qed.

(** X20. The prompt holds the repository name, the directory tree, and
    for every entry of the content mapping its heading, its content and
    the fences around it, as one piece. *)
Theorem prompt_contains_everything (d : GithubClient.RepoData) :
  PyStr.contains (GithubClient.owner d ++ "/" ++ GithubClient.repo d)
                 (build_user_prompt d) = true
  /\ PyStr.contains ("```" ++ NL ++ GithubClient.directory_tree d ++ NL ++ "```")
                    (build_user_prompt d) = true
  /\ (forall p content,
         In (p, content) (GithubClient.file_contents d) ->
         PyStr.contains ("### " ++ p ++ NL ++ "```" ++ NL ++ content
                           ++ NL ++ "```")
                        (build_user_prompt d) = true).
Proof.
  unfold build_user_prompt, prompt_sections. split; [| split].
  - unfold header_sections.
    rewrite <- app_comm_cons, join_cons
      by (destruct (String.eqb _ _); discriminate).
    unfold repository_line.
    apply (contains_app _ "# Repository: ").
  - assert (E : (header_sections d
                  ++ flat_map file_section (GithubClient.file_contents d))%list
                = ((repository_line d
                    :: (if String.eqb (GithubClient.description d) EmptyString
                        then [] else [description_line d])
                    ++ [stars_line d; EmptyString; "## Directory Tree"])
                   ++ [FENCE; GithubClient.directory_tree d; FENCE]
                   ++ ([EmptyString; "## File Contents"]
                         ++ flat_map file_section
                              (GithubClient.file_contents d)))%list).
    { unfold header_sections.
      destruct (String.eqb (GithubClient.description d) EmptyString);
        reflexivity. }
    rewrite E.
    apply (contains_join NL _ [FENCE; GithubClient.directory_tree d; FENCE]).
    discriminate.
  - intros p content Hin.
    destruct (in_split _ _ Hin) as (c1 & c2 & E). rewrite E.
    rewrite flat_map_app. cbn [flat_map]. rewrite app_assoc.
    apply contains_trans with (y := PyStr.join NL (file_section (p, content))).
    + change (PyStr.join NL (file_section (p, content)))
        with (NL ++ ("### " ++ p ++ NL ++ "```" ++ NL ++ content ++ NL ++ "```")).
      rewrite <- (append_nil_r ("### " ++ p ++ NL ++ "```" ++ NL ++ content
                                  ++ NL ++ "```")) at 2.
      apply contains_app.
    + apply contains_join. discriminate.
Qed.

End Prompt.
(** ** [strip_fences] and the results of [summarize] *)

Section StripFences.
Import LlmSummarizer.

Lemma rstrip_app (a t : string) :
  PyStr.rstrip t = t -> t <> EmptyString -> PyStr.rstrip (a ++ t) = a ++ t.
Proof.
  intros Ht Hne. induction a as [| x a IH]; simpl; [exact Ht |].
  rewrite IH. destruct (a ++ t) eqn:E; [| reflexivity].
  destruct a; simpl in E; [contradiction | discriminate].
Qed.

(** White space at the end does not change [rstrip]. *)
Lemma rstrip_newline (a : string) : PyStr.rstrip (a ++ NL) = PyStr.rstrip a.
Proof.
  induction a as [| x a IH]; [reflexivity |].
  cbn [append PyStr.rstrip]. rewrite IH. reflexivity.
Qed.

Lemma lstrip_length (s : string) :
  (String.length (PyStr.lstrip s) <= String.length s)%nat.
Proof.
  induction s as [| x s IH]; simpl; [lia |].
  destruct (PyStr.is_space x); simpl; lia.
Qed.

Lemma rstrip_length (s : string) :
  (String.length (PyStr.rstrip s) <= String.length s)%nat.
Proof.
  induction s as [| x s IH]; simpl; [lia |].
  destruct (PyStr.rstrip s); [destruct (PyStr.is_space x) |]; simpl in *; lia.
Qed.

(** A text that [strip] leaves alone is left alone by both halves. *)
Lemma strip_fixed (s : string) :
  PyStr.strip s = s -> PyStr.lstrip s = s /\ PyStr.rstrip s = s.
Proof.
  unfold PyStr.strip. intros H.
  assert (Hl : PyStr.lstrip s = s).
  { destruct s as [| x s]; [reflexivity |]. cbn [PyStr.lstrip] in *.
    destruct (PyStr.is_space x); [| reflexivity].
    pose proof (rstrip_length (PyStr.lstrip s)) as H1.
    pose proof (lstrip_length s) as H2.
    rewrite H in H1. simpl in H1. lia. }
  rewrite Hl in H. split; assumption.
Qed.

Lemma lstrip_app (s t : string) :
  PyStr.lstrip s = s -> s <> EmptyString -> PyStr.lstrip (s ++ t) = s ++ t.
Proof.
  destruct s as [| x s]; [contradiction |]. cbn [append PyStr.lstrip].
  destruct (PyStr.is_space x); [| reflexivity].
  intros Hfix _. pose proof (lstrip_length s) as Hlen.
  rewrite Hfix in Hlen. simpl in Hlen. lia.
Qed.

Lemma strip_with_newline (body : string) :
  PyStr.strip body = body -> PyStr.strip (body ++ NL) = body.
Proof.
  intros H. destruct (strip_fixed body H) as [Hl Hr]. unfold PyStr.strip.
  destruct body as [| x body]; [reflexivity |].
  rewrite lstrip_app by (assumption || discriminate).
  rewrite rstrip_newline. exact Hr.
Qed.

Lemma after_first_newline_app (a rest : string) :
  PyStr.count NL_char a = 0 ->
  after_first_newline (a ++ String NL_char rest) = rest.
Proof.
  induction a as [| x a IH]; cbn [append after_first_newline PyStr.count];
    intros Hc.
  - rewrite Ascii.eqb_refl. reflexivity.
  - pose proof (count_nonneg NL_char a) as Hpos.
    destruct (Ascii.eqb x NL_char); [lia |]. apply IH. lia.
Qed.

Lemma substring_app_head (a b : string) :
  String.substring 0 (String.length a) (a ++ b) = a.
Proof.
  induction a as [| x a IH]; simpl; [destruct b; reflexivity |].
  rewrite IH. reflexivity.
Qed.

Lemma substring_app_tail (a b : string) :
  String.substring (String.length a) (String.length b) (a ++ b) = b.
Proof.
  induction a as [| x a IH]; simpl; [| exact IH].
  clear. induction b as [| y b IH]; simpl; [| rewrite IH]; reflexivity.
Qed.

Lemma endswith_app (a p : string) : PyStr.endswith (a ++ p) p = true.
Proof.
  unfold PyStr.endswith. rewrite length_append.
  replace (String.length a + String.length p - String.length p)%nat
    with (String.length a) by lia.
  rewrite substring_app_tail, String.eqb_refl.
  rewrite andb_true_r. apply Nat.leb_le. lia.
Qed.

Lemma drop_last_app (a p : string) :
  PyStr.drop_last (String.length p) (a ++ p) = a.
Proof.
  unfold PyStr.drop_last. rewrite length_append.
  replace (String.length a + String.length p - String.length p)%nat
    with (String.length a) by lia.
  apply substring_app_head.
Qed.

(** X21. A reply made of an opening fence line (three backquotes and
    any tag without a line break), a body and a closing fence is
    unwrapped to its body, whenever the body has no white space at its
    ends. *)
Theorem strip_fences_unwraps (tag body : string) :
  PyStr.count NL_char tag = 0 ->
  PyStr.strip body = body ->
  strip_fences ("```" ++ tag ++ NL ++ body ++ NL ++ "```") = body.
Proof.
  intros Htag Hbody. unfold strip_fences.
  set (raw := "```" ++ tag ++ NL ++ body ++ NL ++ "```").
  assert (Hstrip : PyStr.strip raw = raw).
  { unfold PyStr.strip.
    replace (PyStr.lstrip raw) with raw by reflexivity.
    unfold raw. rewrite <- !append_assoc.
    apply rstrip_app; [reflexivity | discriminate]. }
  rewrite Hstrip.
  replace (PyStr.startswith raw FENCE) with true
    by (symmetry; apply prefix_app).
  replace (PyStr.contains NL raw) with true.
  2: { symmetry. unfold raw. rewrite <- append_assoc. apply contains_app. }
  assert (Hafter : after_first_newline raw = (body ++ NL) ++ FENCE).
  { unfold raw. rewrite <- append_assoc.
    change (("```" ++ tag) ++ NL ++ body ++ NL ++ "```")
      with (("```" ++ tag) ++ String NL_char (body ++ NL ++ "```")).
    rewrite after_first_newline_app.
    - rewrite append_assoc. reflexivity.
    - rewrite count_app. simpl. exact Htag. }
  rewrite Hafter, endswith_app.
  change 3%nat with (String.length FENCE). rewrite drop_last_app.
  apply strip_with_newline, Hbody.
Qed.

Lemma strip_fences_unwraps_witness :
  strip_fences ("```" ++ "json" ++ NL ++ Examples.summary_text ++ NL ++ "```")
  = Examples.summary_text.
Proof.
  apply (strip_fences_unwraps "json" Examples.summary_text); reflexivity.
Defined.

End StripFences.
Section SummarizeResults.
Import LlmSummarizer.
Variable json_loads : string -> option json.
Variable py_str : json -> string.

Lemma parse_summary_statuses (raw : string) (msg : message) (code : Z) :
  parse_summary json_loads py_str raw = Raise (SummarizerError msg code) ->
  code = 502.
Proof.
  unfold parse_summary.
  destruct (json_loads (strip_fences raw)) as [[| | | | | members] |];
    try discriminate.
  - destruct (filter _ REQUIRED); cbn [is_nonempty].
    + destruct (PyDict.get "summary" members); [| discriminate].
      destruct (PyDict.get "technologies" members) as [t |]; [| discriminate].
      destruct (PyDict.get "structure" members); [| discriminate].
      destruct (py_list t); discriminate.
    + intros H. injection H as _ <-. reflexivity.
  - intros H. injection H as _ <-. reflexivity.
Qed.

(** X22. The statuses of the errors of [summarize]: without an API key
    it raises the error 500 whatever the backend does; every
    [SummarizerError] it raises carries 500, 502 or 504, with 500 only
    for the missing key and 504 only for a timeout of the backend; and
    the lookups of the three fields never raise [KeyError]. *)
Theorem summarizer_error_statuses (key : string) (backend : llm_reply) :
  (key = EmptyString ->
   summarize json_loads py_str key backend
   = Raise (SummarizerError
              (Text "Server misconfiguration: LLM API key not set") 500))
  /\ (forall msg code,
         summarize json_loads py_str key backend
         = Raise (SummarizerError msg code) ->
         In code [500; 502; 504]
         /\ (code = 500 <-> key = EmptyString)
         /\ (code = 504 <-> key <> EmptyString /\ backend = APITimeoutError))
  /\ summarize json_loads py_str key backend <> Raise KeyError.
Proof.
  unfold summarize.
  destruct (String.eqb_spec key EmptyString) as [-> | Hkey].
  - split; [reflexivity |]. split; [| discriminate].
    intros msg code H. injection H as _ <-.
    split; [simpl; tauto |]. split; [tauto |].
    split; [discriminate | intros [H _]; contradiction].
  - split; [contradiction |].
    assert (H502 : forall code,
               code = 502 ->
               backend <> APITimeoutError ->
               In code [500; 502; 504]
               /\ (code = 500 <-> key = EmptyString)
               /\ (code = 504 <-> key <> EmptyString
                                  /\ backend = APITimeoutError)).
    { intros code -> Hb. split; [simpl; tauto |].
      split; [split; [discriminate | contradiction] |].
      split; [discriminate | intros [_ H]; contradiction]. }
    destruct backend as [[| [raw |] rest] | | text].
    + split; [| discriminate]. intros msg code H. injection H as <- <-.
      apply H502; [reflexivity | discriminate].
    + destruct (String.eqb raw EmptyString).
      * split; [| discriminate]. intros msg code H. injection H as <- <-.
        apply H502; [reflexivity | discriminate].
      * split; [| apply parse_summary_no_KeyError].
        intros msg code H. apply parse_summary_statuses in H.
        apply H502; [exact H | discriminate].
    + split; [| discriminate]. intros msg code H. injection H as <- <-.
      apply H502; [reflexivity | discriminate].
    + split; [| discriminate]. intros msg code H. injection H as _ <-.
      split; [simpl; tauto |].
      split; [split; [discriminate | contradiction] |]. tauto.
    + split; [| discriminate]. intros msg code H. injection H as <- <-.
      apply H502; [reflexivity | discriminate].
Qed.

(** X23. A returned summary carries the three required fields of the
    decoded object and nothing else of it: [summary] and [structure]
    are [str] of their values, [technologies] is [list] of its value,
    so that a string there comes back as its characters. *)
Theorem returned_summary_fields
        (key : string) (backend : llm_reply) (s : summary_result) :
  summarize json_loads py_str key backend = Return s ->
  exists raw rest members v_summary v_technologies v_structure,
    backend = Completion (Some raw :: rest)
    /\ json_loads (strip_fences raw) = Some (JObject members)
    /\ PyDict.get "summary" members = Some v_summary
    /\ PyDict.get "technologies" members = Some v_technologies
    /\ PyDict.get "structure" members = Some v_structure
    /\ summary s = py_str v_summary
    /\ structure s = py_str v_structure
    /\ py_list v_technologies = Some (technologies s)
    /\ (forall text, v_technologies = JString text ->
                     technologies s
                     = map (fun c => JString (String c EmptyString))
                           (list_ascii_of_string text)).
Proof.
  unfold summarize.
  destruct (String.eqb key EmptyString); [discriminate |].
  destruct backend as [[| [raw |] rest] | | text]; try discriminate.
  destruct (String.eqb raw EmptyString); [discriminate |].
  unfold parse_summary.
  destruct (json_loads (strip_fences raw)) as [[| | | | | members] |] eqn:Hloads;
    try discriminate.
  destruct (filter _ REQUIRED); cbn [is_nonempty]; [| discriminate].
  destruct (PyDict.get "summary" members) as [v1 |] eqn:H1; [| discriminate].
  destruct (PyDict.get "technologies" members) as [v2 |] eqn:H2;
    [| discriminate].
  destruct (PyDict.get "structure" members) as [v3 |] eqn:H3; [| discriminate].
  destruct (py_list v2) as [l |] eqn:Hl; [| discriminate].
  intros H. injection H as <-.
  exists raw, rest, members, v1, v2, v3. cbn [summary structure technologies].
  split; [reflexivity |]. split; [exact Hloads |].
  split; [exact H1 |]. split; [exact H2 |]. split; [exact H3 |].
  split; [reflexivity |]. split; [reflexivity |]. split; [exact Hl |].
  intros text ->. simpl in Hl. injection Hl as <-. reflexivity.
Qed.

End SummarizeResults.

Section SummarizeResultsExamples.
Import LlmSummarizer.

Lemma summarizer_error_statuses_witness :
  summarize Examples.sample_loads Examples.sample_str EmptyString
            (Completion [Some Examples.summary_text])
  = Raise (SummarizerError
             (Text "Server misconfiguration: LLM API key not set") 500).
Proof.
  apply (proj1 (summarizer_error_statuses
                  Examples.sample_loads Examples.sample_str EmptyString
                  (Completion [Some Examples.summary_text]))).
  reflexivity.
Defined.

Lemma returned_summary_fields_witness :
  exists raw rest members v_summary v_technologies v_structure,
    Completion [Some Examples.fenced_reply] = Completion (Some raw :: rest)
    /\ Examples.sample_loads (strip_fences raw) = Some (JObject members)
    /\ PyDict.get "summary" members = Some v_summary
    /\ PyDict.get "technologies" members = Some v_technologies
    /\ PyDict.get "structure" members = Some v_structure
    /\ "An HTTP library." = Examples.sample_str v_summary
    /\ "One package." = Examples.sample_str v_structure
    /\ py_list v_technologies = Some [JString "Python"]
    /\ (forall text, v_technologies = JString text ->
                     [JString "Python"]
                     = map (fun c => JString (String c EmptyString))
                           (list_ascii_of_string text)).
Proof.
  refine (returned_summary_fields
            Examples.sample_loads Examples.sample_str "sk-test"
            (Completion [Some Examples.fenced_reply])
            {| summary := "An HTTP library.";
               technologies := [JString "Python"];
               structure := "One package." |} _).
  vm_compute. reflexivity.
Defined.

End SummarizeResultsExamples.

(** ** The earlier version: ranking and fetching *)

Section V1Ranking.
Import V1.

(** X24. [_priority_score] orders its five classes (priority file,
    README variant, configuration name, source extension, anything
    else) strictly, for paths less than 50 directories deep; inside a
    class a shallower path never scores higher. *)
Theorem score_orders_classes (p q : string) :
  PyStr.count "/" p < 50 -> PyStr.count "/" q < 50 ->
  (score_class p < score_class q -> _priority_score p < _priority_score q)
  /\ (score_class p = score_class q ->
      PyStr.count "/" p <= PyStr.count "/" q ->
      _priority_score p <= _priority_score q).
Proof.
  intros Hp Hq.
  pose proof (count_nonneg "/" p). pose proof (count_nonneg "/" q).
  unfold score_class, _priority_score.
  repeat match goal with
         | |- context [if ?c then _ else _] => destruct c
         end; split; intros; lia.
Qed.

Lemma score_orders_classes_witness :
  (score_class "docs/readme.md" < score_class "src/app/main.py" ->
   _priority_score "docs/readme.md" < _priority_score "src/app/main.py")
  /\ (score_class "docs/readme.md" = score_class "src/app/main.py" ->
      PyStr.count "/" "docs/readme.md" <= PyStr.count "/" "src/app/main.py" ->
      _priority_score "docs/readme.md" <= _priority_score "src/app/main.py").
Proof.
  apply (score_orders_classes "docs/readme.md" "src/app/main.py");
    reflexivity.
Defined.

(** The bound is needed: a source file 50 directories deep scores no
    better than a top-level file of no known kind. *)
Example deep_source_file_loses_its_rank :
  score_class (PyStr.repeat "d/" 50 ++ "x.py") = 3
  /\ score_class "LICENSE" = 4
  /\ _priority_score (PyStr.repeat "d/" 50 ++ "x.py") = 500
  /\ _priority_score "LICENSE" = 500.
Proof. vm_compute. repeat split; reflexivity. Qed.

End V1Ranking.
Section V1Fetching.
Import V1.

Lemma fetch_file_content_Some (reply : option raw_response) (p c : string) :
  fetch_file_content reply p = Some c ->
  exists resp, reply = Some resp
               /\ raw_status resp = 200
               /\ looks_binary resp p = false
               /\ c = PyStr.slice_to MAX_FILE_CHARS (raw_text resp)
               /\ (String.length c <= MAX_FILE_CHARS)%nat.
Proof.
  unfold fetch_file_content, looks_binary.
  destruct reply as [resp |]; [| discriminate].
  destruct (Z.eqb_spec (raw_status resp) 200) as [Hs | Hs];
    cbn [negb]; [| discriminate].
  destruct (PyStr.contains "application/octet-stream" _ && negb _) eqn:E1;
    [discriminate |].
  destruct (PyStr.contains NUL _) eqn:E2; [discriminate |].
  intros H. injection H as <-. exists resp.
  split; [reflexivity |]. split; [exact Hs |].
  split; [rewrite E1, E2; reflexivity |].
  split; [reflexivity |].
  unfold PyStr.slice_to. rewrite length_substring_0. apply Nat.le_min_l.
Qed.

Lemma dict_set_length {V : Type} (k : string) (v : V) (d : PyDict.t V) :
  (List.length (PyDict.set k v d) <= S (List.length d))%nat.
Proof.
  induction d as [| [k' v'] d IH]; simpl; [lia |].
  destruct (String.eqb k' k); simpl; lia.
Qed.

(** The state of the loop: what is stored was served with status 200,
    passed the binary tests and was cut to 8,000 characters; the running
    total stays below the limit plus one file. *)
Lemma v1_fetch_loop_inv (client : string -> option raw_response)
      (files : list string) (contents : PyDict.t string) (t : Z) :
  let good (d : PyDict.t string) :=
    forall p c, PyDict.get p d = Some c ->
      c <> EmptyString
      /\ exists resp, client p = Some resp
                      /\ raw_status resp = 200
                      /\ looks_binary resp p = false
                      /\ c = PyStr.slice_to MAX_FILE_CHARS (raw_text resp) in
  good contents ->
  t < MAX_CONTENT_CHARS + Z.of_nat MAX_FILE_CHARS ->
  good (fst (fetch_loop client files contents t))
  /\ snd (fetch_loop client files contents t)
     < MAX_CONTENT_CHARS + Z.of_nat MAX_FILE_CHARS
  /\ (List.length (fst (fetch_loop client files contents t))
      <= List.length contents + List.length files)%nat
  /\ (forall p, PyDict.get p (fst (fetch_loop client files contents t)) <> None ->
                PyDict.get p contents <> None \/ In p files).
Proof.
  intros good. revert contents t.
  induction files as [| p files IH]; intros contents t Hgood Ht;
    cbn [fetch_loop].
  - cbn [fst snd].
    split; [exact Hgood | split; [exact Ht | split; [simpl; lia | tauto]]].
  - destruct (Z.leb_spec MAX_CONTENT_CHARS t) as [Hfull | Hroom].
    + cbn [fst snd].
      split; [exact Hgood | split; [exact Ht | split; [simpl; lia | tauto]]].
    + assert (Hskip : good (fst (fetch_loop client files contents t))
                      /\ snd (fetch_loop client files contents t)
                         < MAX_CONTENT_CHARS + Z.of_nat MAX_FILE_CHARS
                      /\ (List.length (fst (fetch_loop client files contents t))
                          <= List.length contents + List.length (p :: files))%nat
                      /\ (forall q,
                             PyDict.get q (fst (fetch_loop client files contents t))
                             <> None ->
                             PyDict.get q contents <> None \/ In q (p :: files))).
      { destruct (IH contents t Hgood Ht) as (H1 & H2 & H3 & H4).
        split; [exact H1 | split; [exact H2 | split; [simpl; lia |]]].
        intros q Hq. destruct (H4 q Hq); [left | right; right]; assumption. }
      destruct (fetch_file_content (client p) p) as [c |] eqn:Hfetch;
        [| exact Hskip].
      destruct (String.eqb_spec c EmptyString) as [-> | Hne];
        cbn [negb]; [exact Hskip |].
      destruct (fetch_file_content_Some _ _ _ Hfetch)
        as (resp & Hresp & Hstatus & Hbin & Hc & Hlen).
      destruct (IH (PyDict.set p c contents)
                   (t + Z.of_nat (String.length c))) as (H1 & H2 & H3 & H4).
      * intros q c' Hq.
        destruct (string_dec p q) as [<- | Hpq].
        -- rewrite dict_get_set_eq in Hq. injection Hq as <-.
           split; [exact Hne |]. exists resp. tauto.
        -- rewrite dict_get_set_neq in Hq by exact Hpq. apply Hgood, Hq.
      * lia.
      * split; [exact H1 | split; [exact H2 | split]].
        -- pose proof (dict_set_length p c contents). simpl. lia.
        -- intros q Hq. destruct (H4 q Hq) as [H | H]; [| right; right; exact H].
           destruct (string_dec p q) as [<- | Hpq]; [right; left; reflexivity |].
           rewrite dict_get_set_neq in H by exact Hpq. left. exact H.
Qed.

Lemma firstn_In {A : Type} (n : nat) (l : list A) (x : A) :
  In x (firstn n l) -> In x l.
Proof.
  revert l. induction n as [| n IH]; intros [| y l]; simpl; try tauto.
  intros [H | H]; [left; exact H | right; apply IH, H].
Qed.

(** X25. What [gather_repo_context] fetches: at most 60 files; the
    running total it stops at is below 128,000 characters; and every
    stored content belongs to a path of the listing that is not
    skipped, is not empty, has at most 8,000 characters, and is the
    start of a text served with status 200 that passed the binary-content
    tests. *)
Theorem gathered_contents_bounds
        (client : string -> option raw_response) (all_paths : list string) :
  (List.length (fst (gather_contents client all_paths)) <= 60)%nat
  /\ snd (gather_contents client all_paths) < 128000
  /\ (forall p c,
         PyDict.get p (fst (gather_contents client all_paths)) = Some c ->
         In p all_paths
         /\ _should_skip p = false
         /\ c <> EmptyString
         /\ (String.length c <= 8000)%nat
         /\ exists resp, client p = Some resp
                         /\ raw_status resp = 200
                         /\ looks_binary resp p = false
                         /\ c = String.substring 0 8000 (raw_text resp)).
Proof.
  unfold gather_contents.
  destruct (v1_fetch_loop_inv client (files_to_fetch all_paths) [] 0)
    as (H1 & H2 & H3 & H4).
  - intros p c H. discriminate.
  - reflexivity.
  - split; [| split].
    + cbn [List.length] in H3. unfold files_to_fetch in H3 at 2.
      rewrite length_firstn in H3.
      change MAX_FILES_TO_FETCH with 60%nat in H3. lia.
    + exact H2.
    + intros p c Hget.
      destruct (H1 p c Hget) as (Hne & resp & Hresp & Hstatus & Hbin & Hc).
      assert (Hin : In p (files_to_fetch all_paths)).
      { destruct (H4 p) as [H | H]; [rewrite Hget; discriminate | | exact H].
        exfalso. apply H. reflexivity. }
      apply firstn_In in Hin. unfold candidate_paths in Hin.
      apply sort_by_In in Hin.
      apply filter_In in Hin. destruct Hin as [Hin Hskip].
      split; [exact Hin |]. split; [apply negb_true_iff, Hskip |].
      split; [exact Hne |]. split.
      * rewrite Hc. unfold PyStr.slice_to. rewrite length_substring_0.
        apply Nat.le_min_l.
      * exists resp. tauto.
Qed.

End V1Fetching.

(** ** The context document of the earlier version *)

Section V1Context.
Import V1.

Lemma dict_get_In {V : Type} (k : string) (v : V) (d : PyDict.t V) :
  PyDict.get k d = Some v -> In (k, v) d.
Proof.
  induction d as [| [k' v'] d IH]; simpl; [discriminate |].
  destruct (String.eqb_spec k' k) as [-> | Hne].
  - intros H. injection H as <-. left. reflexivity.
  - intros H. right. apply IH, H.
Qed.

Lemma candidate_paths_tree (all_paths : list string) :
  build_tree_string (candidate_paths all_paths)
  = build_tree_string (filter (fun p => negb (_should_skip p)) all_paths).
Proof.
  unfold build_tree_string, build_tree_lines, rendered_lines, build_tree,
    candidate_paths.
  rewrite (sorted_strings_perm _ _ (sort_by_perm Z.ltb _priority_score _)).
  reflexivity.
Qed.

(** X26. The document of [gather_repo_context] starts with the
    repository heading and the fenced tree of every path that is not
    skipped, whatever their scores and whether or not they were fetched;
    it ends there when nothing was fetched; and it holds the heading and
    the fenced content of every fetched file, as one piece. *)
Theorem context_document_contents
        (owner repo : string) (client : string -> option raw_response)
        (all_paths : list string) :
  let doc := gather_repo_context owner repo client all_paths in
  let contents := fst (gather_contents client all_paths) in
  let head :=
    "# Repository: " ++ owner ++ "/" ++ repo ++ NL ++ NL
      ++ "## Directory Structure" ++ NL ++ "```" ++ NL
      ++ build_tree_string (filter (fun p => negb (_should_skip p)) all_paths)
      ++ NL ++ "```" ++ NL in
  String.prefix head doc = true
  /\ (contents = [] -> doc = head)
  /\ (forall p c,
         PyDict.get p contents = Some c ->
         PyStr.contains ("### " ++ p ++ NL ++ "```" ++ NL ++ c ++ NL
                           ++ "```" ++ NL) doc = true).
Proof.
  intros doc contents head.
  assert (Hhead : PyStr.join NL (context_header owner repo
                                   (build_tree_string
                                      (candidate_paths all_paths)))
                  = head).
  { unfold head. rewrite candidate_paths_tree.
    unfold context_header. cbn [PyStr.join String.concat].
    rewrite <- !append_assoc. reflexivity. }
  unfold doc, gather_repo_context. fold contents.
  split; [| split].
  - destruct (context_files contents) as [| s l] eqn:E.
    + rewrite app_nil_r, Hhead.
      pose proof (prefix_app head EmptyString) as H.
      rewrite append_nil_r in H. exact H.
    + rewrite join_app by discriminate. rewrite Hhead. apply prefix_app.
  - intros ->. cbn [context_files is_nonempty]. rewrite app_nil_r.
    exact Hhead.
  - intros p c Hget. apply dict_get_In in Hget.
    unfold context_files.
    destruct contents as [| e rest] eqn:E; [contradiction |].
    cbn [is_nonempty]. rewrite <- E in *. clear E.
    destruct (in_split _ _ Hget) as (c1 & c2 & E). rewrite E.
    rewrite flat_map_app. cbn [flat_map].
    match goal with
    | |- PyStr.contains ?x (PyStr.join NL (?h ++ ?t :: (?a ++ ?m ++ ?b))) = true =>
        replace (h ++ t :: (a ++ m ++ b))%list
          with ((h ++ t :: a) ++ m ++ b)%list
          by (rewrite <- !app_assoc; reflexivity)
    end.
    apply contains_trans
      with (y := PyStr.join NL (context_file_section (p, c))).
    + apply contains_iff. exists EmptyString, EmptyString.
      rewrite append_nil_r.
      unfold context_file_section. cbn [PyStr.join String.concat fst snd].
      rewrite <- !append_assoc. reflexivity.
    + apply contains_join. discriminate.
Qed.

End V1Context.

(** ** The request handler *)

Section RequestHandler.
Import Router.
Variable json_loads : string -> option LlmSummarizer.json.
Variable py_str : LlmSummarizer.json -> string.

Lemma fetch_repo_data_statuses
      (settings : GithubClient.Settings) (owner repo : string)
      (repo_reply : GithubClient.reply
                      (GithubClient.json_response GithubClient.repo_info))
      (tree_reply : GithubClient.reply
                      (GithubClient.json_response GithubClient.tree_data))
      (client_get : string -> GithubClient.reply GithubClient.text_response)
      (msg : string) (code : Z) :
  GithubClient.fetch_repo_data settings owner repo repo_reply tree_reply
                               client_get
  = GithubClient.Raise (GithubClient.GitHubClientError msg code) ->
  In code [404; 429; 502; 422].
Proof.
  unfold GithubClient.fetch_repo_data.
  destruct repo_reply as [repo_resp | e]; [| discriminate].
  destruct (GithubClient.js_status repo_resp =? 404);
    [intros H; injection H as <- <-; simpl; tauto |].
  destruct (GithubClient.js_status repo_resp =? 403);
    [intros H; injection H as <- <-; simpl; tauto |].
  destruct (negb (GithubClient.js_status repo_resp =? 200));
    [intros H; injection H as <- <-; simpl; tauto |].
  destruct (GithubClient.js_json repo_resp) as [info |];
    [| intros H; injection H as <- <-; simpl; tauto].
  destruct tree_reply as [tree_resp | e]; [| discriminate].
  destruct (negb (GithubClient.js_status tree_resp =? 200));
    [intros H; injection H as <- <-; simpl; tauto |].
  destruct (GithubClient.js_json tree_resp) as [data |];
    [| intros H; injection H as <- <-; simpl; tauto].
  destruct (GithubClient.fetch_loop _ _ _ _ _ _ _)
    as [[contents failed] | e] eqn:Hloop.
  - destruct (negb (is_nonempty contents) && _); [| discriminate].
    intros H. injection H as <- <-. simpl. tauto.
  - apply fetch_loop_raises in Hloop. subst e. discriminate.
Qed.

Lemma summarize_statuses (key : string) (reply : LlmSummarizer.llm_reply)
      (msg : LlmSummarizer.message) (code : Z) :
  LlmSummarizer.summarize json_loads py_str key reply
  = LlmSummarizer.Raise (LlmSummarizer.SummarizerError msg code) ->
  (code = 500 /\ key = EmptyString)
  \/ (code = 504 /\ reply = LlmSummarizer.APITimeoutError)
  \/ code = 502.
Proof.
  unfold LlmSummarizer.summarize.
  destruct (String.eqb_spec key EmptyString) as [-> | Hkey].
  - intros H. injection H as _ <-. left. tauto.
  - destruct reply as [[| [raw |] rest] | | text].
    + intros H. injection H as _ <-. tauto.
    + destruct (String.eqb raw EmptyString).
      * intros H. injection H as _ <-. tauto.
      * intros H. apply parse_summary_statuses in H. tauto.
    + intros H. injection H as _ <-. tauto.
    + intros H. injection H as _ <-. tauto.
    + intros H. injection H as _ <-. tauto.
Qed.

Variable openai_api_key : string.
Variable repo_reply : GithubClient.reply
                        (GithubClient.json_response GithubClient.repo_info).
Variable tree_reply : GithubClient.reply
                        (GithubClient.json_response GithubClient.tree_data).
Variable client_get : string -> GithubClient.reply GithubClient.text_response.
Variable backend : string -> LlmSummarizer.llm_reply.

(** X27. The error responses of [summarize_repo] carry 404, 422, 429,
    500, 502 or 504 and never 400; 404, 422 and 429 come with a message
    of the GitHub client; 500 and 504 are answered only after the
    repository data was fetched, 504 only for a timeout of the backend
    and 500 only without an API key or for an exception of [summarize]
    other than [SummarizerError]. *)
Theorem handler_error_statuses
        (github_url : string) (code : Z) (content : error_message) :
  summarize_repo json_loads py_str openai_api_key
                 repo_reply tree_reply client_get backend github_url
  = JSONResponse code content ->
  In code [404; 422; 429; 500; 502; 504]
  /\ code <> 400
  /\ (In code [404; 422; 429] -> exists msg, content = GitHubMessage msg)
  /\ (In code [500; 504] ->
      exists owner repo repo_data,
        GithubClient.parse_github_url github_url = Some (owner, repo)
        /\ GithubClient.fetch_repo_data GithubClient.default_settings
                                        owner repo
                                        repo_reply tree_reply client_get
           = GithubClient.Return repo_data
        /\ (code = 504 ->
            backend (LlmSummarizer.build_user_prompt repo_data)
            = LlmSummarizer.APITimeoutError)
        /\ (code = 500 ->
            openai_api_key = EmptyString
            \/ exists e, content = UnexpectedError e)).
Proof.
  unfold summarize_repo.
  destruct (GithubClient.parse_github_url github_url) as [[owner repo] |];
    [| discriminate].
  destruct (GithubClient.fetch_repo_data _ _ _ _ _ _)
    as [repo_data | [msg status | e]] eqn:Hfetch; [| | discriminate].
  - destruct (LlmSummarizer.summarize _ _ _ _)
      as [result | [msg status | | |]] eqn:Hsum;
      [destruct (validate_response result); discriminate | | | |].
    + intros H. injection H as <- <-.
      apply summarize_statuses in Hsum.
      assert (Hcode : status = 500 \/ status = 504 \/ status = 502) by tauto.
      split; [simpl; lia |]. split; [lia |].
      split; [simpl; intros; exfalso; lia |].
      intros _. exists owner, repo, repo_data.
      split; [reflexivity |]. split; [exact Hfetch |].
      split; [intros ->; destruct Hsum as [[H _] | [[_ H] | H]];
              [discriminate | exact H | discriminate] |].
      intros ->. left. destruct Hsum as [[_ H] | [[H _] | H]];
        [exact H | discriminate | discriminate].
    + intros H. injection H as <- <-.
      split; [simpl; lia |]. split; [lia |].
      split; [simpl; intros; exfalso; lia |].
      intros _. exists owner, repo, repo_data.
      split; [reflexivity |]. split; [exact Hfetch |].
      split; [discriminate |]. intros _. right. eexists. reflexivity.
    + intros H. injection H as <- <-.
      split; [simpl; lia |]. split; [lia |].
      split; [simpl; intros; exfalso; lia |].
      intros _. exists owner, repo, repo_data.
      split; [reflexivity |]. split; [exact Hfetch |].
      split; [discriminate |]. intros _. right. eexists. reflexivity.
    + intros H. injection H as <- <-.
      split; [simpl; lia |]. split; [lia |].
      split; [simpl; intros; exfalso; lia |].
      intros _. exists owner, repo, repo_data.
      split; [reflexivity |]. split; [exact Hfetch |].
      split; [discriminate |]. intros _. right. eexists. reflexivity.
  - intros H. injection H as <- <-.
    apply fetch_repo_data_statuses in Hfetch.
    split; [simpl in *; lia |].
    split; [simpl in Hfetch; lia |].
    split; [intros _; eexists; reflexivity |].
    simpl in *. intros; exfalso; lia.
Qed.

Lemma as_str_list_None (l : list LlmSummarizer.json) :
  as_str_list l = None <-> exists v, In v l /\ as_str v = None.
Proof.
  induction l as [| v rest IH]; cbn [as_str_list].
  - split; [discriminate | intros (v & [] & _)].
  - destruct (as_str v) as [s |] eqn:Hv.
    + destruct (as_str_list rest) as [ss |].
      * split; [discriminate |].
        intros (w & [<- | Hw] & Hnone); [congruence |].
        assert (Habs : Some ss = None)
          by (apply IH; exists w; split; assumption).
        discriminate.
      * split; [| reflexivity]. intros _.
        destruct (proj1 IH eq_refl) as (w & Hw & Hnone).
        exists w. split; [right; exact Hw | exact Hnone].
    + split; [| reflexivity]. intros _.
      exists v. split; [left; reflexivity | exact Hv].
Qed.

(** X28. An exception leaves [summarize_repo] only from
    [parse_github_url] (a URL without a slash before its last part),
    from a request of the GitHub client, or from the validation of the
    response at the last line, when [summarize] returned and some item
    of [technologies] is not a string.  A failed request for the
    repository document or for the tree always escapes, timeouts
    included, and so does every returned summary with such an item: the
    handler answers neither with an error response of its own. *)
Theorem handler_escapes (github_url : string) :
  (forall x,
      summarize_repo json_loads py_str openai_api_key
                     repo_reply tree_reply client_get backend github_url
      = Escapes x ->
      (x = IndexError /\ GithubClient.parse_github_url github_url = None)
      \/ (exists e, x = HttpxError e
                    /\ (repo_reply = GithubClient.Failed e
                        \/ tree_reply = GithubClient.Failed e
                        \/ e = GithubClient.OtherException))
      \/ (x = ValidationError
          /\ exists owner repo repo_data result v,
              GithubClient.parse_github_url github_url = Some (owner, repo)
              /\ GithubClient.fetch_repo_data GithubClient.default_settings
                                              owner repo
                                              repo_reply tree_reply client_get
                 = GithubClient.Return repo_data
              /\ LlmSummarizer.summarize
                   json_loads py_str openai_api_key
                   (backend (LlmSummarizer.build_user_prompt repo_data))
                 = LlmSummarizer.Return result
              /\ In v (LlmSummarizer.technologies result)
              /\ as_str v = None))
  /\ (forall owner repo e,
         GithubClient.parse_github_url github_url = Some (owner, repo) ->
         repo_reply = GithubClient.Failed e ->
         summarize_repo json_loads py_str openai_api_key
                        repo_reply tree_reply client_get backend github_url
         = Escapes (HttpxError e))
  /\ (forall owner repo e repo_resp info,
         GithubClient.parse_github_url github_url = Some (owner, repo) ->
         repo_reply = GithubClient.Replied repo_resp ->
         GithubClient.js_status repo_resp = 200 ->
         GithubClient.js_json repo_resp = Some info ->
         tree_reply = GithubClient.Failed e ->
         summarize_repo json_loads py_str openai_api_key
                        repo_reply tree_reply client_get backend github_url
         = Escapes (HttpxError e))
  /\ (forall owner repo repo_data result v,
         GithubClient.parse_github_url github_url = Some (owner, repo) ->
         GithubClient.fetch_repo_data GithubClient.default_settings
                                      owner repo
                                      repo_reply tree_reply client_get
         = GithubClient.Return repo_data ->
         LlmSummarizer.summarize
           json_loads py_str openai_api_key
           (backend (LlmSummarizer.build_user_prompt repo_data))
         = LlmSummarizer.Return result ->
         In v (LlmSummarizer.technologies result) ->
         as_str v = None ->
         summarize_repo json_loads py_str openai_api_key
                        repo_reply tree_reply client_get backend github_url
         = Escapes ValidationError).
Proof.
  unfold summarize_repo. split; [| split; [| split]].
  - intros x.
    destruct (GithubClient.parse_github_url github_url) as [[owner repo] |];
      [| intros H; injection H as <-; left; tauto].
    destruct (GithubClient.fetch_repo_data _ _ _ _ _ _)
      as [repo_data | [msg status | e]] eqn:Hfetch.
    + destruct (LlmSummarizer.summarize _ _ _ _) as [result | [| | |]] eqn:Hsum;
        try discriminate.
      unfold validate_response.
      destruct (as_str_list (LlmSummarizer.technologies result)) eqn:Hitems;
        [discriminate |].
      intros H. injection H as <-. right. right.
      split; [reflexivity |].
      apply as_str_list_None in Hitems. destruct Hitems as (v & Hv & Hnone).
      exists owner, repo, repo_data, result, v.
      split; [reflexivity |]. split; [exact Hfetch |].
      split; [exact Hsum |]. split; assumption.
    + discriminate.
    + intros H. injection H as <-. right. left. exists e.
      split; [reflexivity |].
      revert Hfetch. unfold GithubClient.fetch_repo_data.
      destruct repo_reply as [repo_resp | e0];
        [| intros H; injection H as <-; left; reflexivity].
      destruct (GithubClient.js_status repo_resp =? 404); [discriminate |].
      destruct (GithubClient.js_status repo_resp =? 403); [discriminate |].
      destruct (negb (GithubClient.js_status repo_resp =? 200));
        [discriminate |].
      destruct (GithubClient.js_json repo_resp) as [info |]; [| discriminate].
      destruct tree_reply as [tree_resp | e0];
        [| intros H; injection H as <-; right; left; reflexivity].
      destruct (negb (GithubClient.js_status tree_resp =? 200));
        [discriminate |].
      destruct (GithubClient.js_json tree_resp) as [data |]; [| discriminate].
      destruct (GithubClient.fetch_loop _ _ _ _ _ _ _)
        as [[contents failed] | e0] eqn:Hloop.
      * destruct (negb (is_nonempty contents) && _); discriminate.
      * apply fetch_loop_raises in Hloop. subst e0.
        intros H. injection H as <-. right. right. reflexivity.
  - intros owner repo e -> ->. reflexivity.
  - intros owner repo e repo_resp info -> -> H200 Hjson ->.
    unfold GithubClient.fetch_repo_data. rewrite H200, Hjson. reflexivity.
  - intros owner repo repo_data result v -> -> -> Hv Hnone.
    unfold validate_response.
    assert (Hitems : as_str_list (LlmSummarizer.technologies result) = None)
      by (apply as_str_list_None; exists v; split; assumption).
    rewrite Hitems. reflexivity.
Qed.

End RequestHandler.

Section RequestHandlerExamples.
Import Router.

Lemma handler_error_statuses_witness :
  In 504 [404; 422; 429; 500; 502; 504]
  /\ 504 <> 400
  /\ (In 504 [404; 422; 429] ->
      exists msg,
        SummarizerMessage
          (LlmSummarizer.Text "LLM request timed out. Please try again.")
        = GitHubMessage msg)
  /\ (In 504 [500; 504] ->
      exists owner repo repo_data,
        GithubClient.parse_github_url "https://github.com/psf/requests"
        = Some (owner, repo)
        /\ GithubClient.fetch_repo_data
             GithubClient.default_settings owner repo
             (GithubClient.Replied
                (GithubClient.mk_json_response 200
                                               (Some Examples.requests_info)))
             (GithubClient.Replied
                (GithubClient.mk_json_response 200
                                               (Some Examples.requests_tree)))
             Examples.flaky_client
           = GithubClient.Return repo_data
        /\ (504 = 504 ->
            Examples.slow_backend (LlmSummarizer.build_user_prompt repo_data)
            = LlmSummarizer.APITimeoutError)
        /\ (504 = 500 ->
            "sk-test" = EmptyString
            \/ exists e,
                SummarizerMessage
                  (LlmSummarizer.Text
                     "LLM request timed out. Please try again.")
                = UnexpectedError e)).
Proof.
  apply (handler_error_statuses
           Examples.sample_loads Examples.sample_str "sk-test"
           (GithubClient.Replied
              (GithubClient.mk_json_response 200 (Some Examples.requests_info)))
           (GithubClient.Replied
              (GithubClient.mk_json_response 200 (Some Examples.requests_tree)))
           Examples.flaky_client Examples.slow_backend
           "https://github.com/psf/requests" 504
           (SummarizerMessage
              (LlmSummarizer.Text "LLM request timed out. Please try again."))).
  vm_compute. reflexivity.
Defined.

(** A request that goes through: the README is fetched, the backend
    answers with a fenced object. *)
Example handler_full_run :
  summarize_repo
    Examples.sample_loads Examples.sample_str "sk-test"
    (GithubClient.Replied
       (GithubClient.mk_json_response 200 (Some Examples.requests_info)))
    (GithubClient.Replied
       (GithubClient.mk_json_response 200 (Some Examples.requests_tree)))
    Examples.flaky_client Examples.fencing_backend
    "https://github.com/psf/requests/"
  = SummarizeResponse
      {| summary := "An HTTP library.";
         technologies := ["Python"];
         structure := "One package." |}.
Proof. vm_compute. reflexivity. Qed.

(** A summary whose [technologies] holds numbers passes [summarize]
    and fails the response model: the exception leaves the handler. *)
Example numbers_fail_validation :
  LlmSummarizer.summarize Examples.numbers_loads Examples.sample_str "sk-test"
                          (Examples.fencing_backend EmptyString)
  = LlmSummarizer.Return
      {| LlmSummarizer.summary := "An HTTP library.";
         LlmSummarizer.technologies :=
           [LlmSummarizer.JNumber "1"; LlmSummarizer.JNumber "2"];
         LlmSummarizer.structure := "One package." |}
  /\ summarize_repo
       Examples.numbers_loads Examples.sample_str "sk-test"
       (GithubClient.Replied
          (GithubClient.mk_json_response 200 (Some Examples.requests_info)))
       (GithubClient.Replied
          (GithubClient.mk_json_response 200 (Some Examples.requests_tree)))
       Examples.flaky_client Examples.fencing_backend
       "https://github.com/psf/requests"
     = Escapes ValidationError.
Proof. vm_compute. split; reflexivity. Qed.

(** A timeout of the GitHub API is not answered with 504. *)
Example github_timeout_escapes :
  summarize_repo
    Examples.sample_loads Examples.sample_str "sk-test"
    (GithubClient.Failed GithubClient.TimeoutException)
    (GithubClient.Failed GithubClient.TimeoutException)
    Examples.flaky_client Examples.fencing_backend
    "https://github.com/psf/requests"
  = Escapes (HttpxError GithubClient.TimeoutException).
Proof. reflexivity. Qed.

End RequestHandlerExamples.
